(** * mcp-brasil: the five REST clients (bcb, cnpj, ibge, pncp, transparencia)

    A shallow embedding of the Go packages under [pkg/] and of the
    properties their specification states about them.

    Conventions of the embedding:
    - a Go [string] is a Rocq [string] (a sequence of bytes);
    - a Go [int] is a [Z]; the clients only compare and print integers, so
      no wrap-around is involved;
    - a Go function returning [(T, error)] returns an [outcome T]; an
      [error] is represented by its message (what [Error()] prints), and
      [fmt.Errorf("ctx: %w", err)] by prefixing the message;
    - a method that talks to the network returns a [run T]: the requests it
      handed to [httpClient.Do], in order, and its outcome;
    - what lies outside the repository (the network, [encoding/json], the
      clock, the validation done by [http.NewRequestWithContext], the order
      in which the runtime visits a map) is a field of the [http.Transport]
      record, a [json.Unmarshal] instance, a [gomap.Order] or a section
      variable. *)

From Stdlib Require Import ZArith String Ascii List DecimalString Floats Lia.
From stdpp Require Import base gmap strings list.

Local Open Scope string_scope.
Local Open Scope Z_scope.

(* ===================================================================== *)
(** * The Go side: errors, outcomes, traces *)
(* ===================================================================== *)

Definition error := string.

Inductive outcome (A : Type) : Type :=
| Ok (a : A)           (* return a, nil *)
| Err (e : error)      (* return nil, e *)
| Panic (msg : string) (* a run-time panic unwinds the call *).
Arguments Ok {A} a.
Arguments Err {A} e.
Arguments Panic {A} msg.

Module http.
Definition StatusOK : Z := 200.
Definition StatusNotFound : Z := 404.
Definition MethodGet : string := "GET".

Record Request := mkRequest {
  Method : string;
  URL : string;
  Header : list (string * string)
}.

(** [req.Header.Set(key, value)]; the clients set each key once. *)
Definition Header_Set (req : Request) (key value : string) : Request :=
  {| Method := Method req; URL := URL req;
     Header := Header req ++ [(key, value)] |}.

(** What [httpClient.Do] hands back: a status code and a body stream;
    [Body] is what [io.ReadAll] makes of that stream. *)
Record Response := mkResponse {
  StatusCode : Z;
  Body : error + string
}.

(** The part of [net/http] and of the network the clients depend on. *)
Record Transport := mkTransport {
  (** the error, if any, of [http.NewRequestWithContext] on this URL *)
  NewRequestError : string -> option error;
  (** [httpClient.Do] *)
  RoundTrip : Request -> error + Response
}.
End http.

Record run (A : Type) : Type := mkRun {
  issued : list http.Request;
  result : outcome A
}.
Arguments mkRun {A} issued result.
Arguments issued {A} r.
Arguments result {A} r.

Definition ret {A} (a : A) : run A := mkRun [] (Ok a).
Definition fail {A} (e : error) : run A := mkRun [] (Err e).
Definition lift {A} (o : outcome A) : run A := mkRun [] o.

Definition bind {A B} (m : run A) (k : A -> run B) : run B :=
  match m with
  | mkRun t (Ok a) =>
      match k a with
      | mkRun t' r => mkRun (t ++ t') r
      end
  | mkRun t (Err e) => mkRun t (Err e)
  | mkRun t (Panic msg) => mkRun t (Panic msg)
  end.

#[global] Instance run_ret : MRet run := @ret.
#[global] Instance run_bind : MBind run := fun A B k m => bind m k.

(** [if err != nil { return nil, fmt.Errorf("ctx: %w", err) }] *)
Definition wrap {A} (ctx : string) (m : run A) : run A :=
  match m with
  | mkRun t (Err e) => mkRun t (Err (ctx +:+ ": " +:+ e))
  | mkRun t r => mkRun t r
  end.

Definition of_sum {A} (r : error + A) : run A :=
  match r with inl e => fail e | inr a => ret a end.

Module fmt.
(** The verb [%d] on an [int]. *)
Definition d (n : Z) : string := NilZero.string_of_int (Z.to_int n).
End fmt.

Module gostrings.
(** [strings.Map]: the mapping is applied to every character and a
    negative result ([None]) drops it.  Go walks the string rune by rune;
    the mapping used in this repository keeps the ASCII digits only, and
    in UTF-8 a byte below 0x80 is always a rune of its own, so walking
    byte by byte gives the same result. *)
Fixpoint Map (mapping : ascii -> option ascii) (s : string) : string :=
  match s with
  | EmptyString => EmptyString
  | String r s' =>
      match mapping r with
      | Some r' => String r' (Map mapping s')
      | None => Map mapping s'
      end
  end.
End gostrings.

Module io.
Definition ReadAll (body : error + string) : run string := of_sum body.
End io.

Module httpclient.
Import http.
Definition NewRequestWithContext (t : Transport) (method url : string)
  : run Request :=
  match NewRequestError t url with
  | Some e => fail e
  | None => ret {| Method := method; URL := url; Header := [] |}
  end.

(** [c.httpClient.Do(req)]: the request goes out (it is recorded). *)
Definition Do (t : Transport) (req : Request) : run Response :=
  match RoundTrip t req with
  | inl e => mkRun [req] (Err e)
  | inr resp => mkRun [req] (Ok resp)
  end.
End httpclient.

Module json.
(** What [json.Unmarshal] builds in an [interface{}]. *)
#[warnings="-register-all"]
Inductive value : Type :=
| Null
| Bool (b : bool)
| Number (f : float)
| Str (s : string)
| Array (l : list value)
| Object (m : gmap string value).

(** [json.Unmarshal(body, &v)] for a target [v] of type [T]. *)
Class Unmarshal (T : Type) := unmarshal : string -> error + T.
End json.

Module gomap.
(** [for k, v := range m]: Go visits the entries of a map in an order it
    does not fix and that may change from one loop to the next.  An
    [Order] is what the runtime picks during one call: for the [n]-th
    loop over a map and the map ranged over, an enumeration of its
    entries, each once. *)
Record Order (V : Type) : Type := mkOrder {
  range : nat -> gmap string V -> list (string * V);
  range_perm : forall n m, range n m ≡ₚ map_to_list m
}.
Arguments mkOrder {V} range range_perm.
Arguments range {V} o n m.
Arguments range_perm {V} o n m.
End gomap.

(* ===================================================================== *)
(** * Package cnpj (Minha Receita) *)
(* ===================================================================== *)

Module cnpj.
Definition BaseURL : string := "https://minhareceita.org".

Record Partner := mkPartner {
  Nome : string;
  CPFRepresentante : string;
  NomeRepresentante : string;
  QualificacaoSocio : string;
  DataEntradaSociedade : string
}.

Record CNPJData := mkCNPJData {
  CNPJ : string;
  RazaoSocial : string;
  NomeFantasia : string;
  SituacaoCadastral : Z;
  DescricaoSituacaoCadastral : string;
  DataSituacaoCadastral : string;
  AtividadePrincipal : gmap string json.value;
  AtividadesSecundarias : list (gmap string json.value);
  NaturezaJuridica : string;
  Logradouro : string;
  Numero : string;
  Complemento : string;
  Bairro : string;
  Municipio : string;
  UF : string;
  CEP : string;
  Email : string;
  Telefone : string;
  DataAbertura : string;
  CapitalSocial : float;
  QSA : list Partner;
  Source : string
}.

(** [data.Source = s] *)
Definition set_Source (data : CNPJData) (s : string) : CNPJData :=
  {| CNPJ := CNPJ data; RazaoSocial := RazaoSocial data;
     NomeFantasia := NomeFantasia data;
     SituacaoCadastral := SituacaoCadastral data;
     DescricaoSituacaoCadastral := DescricaoSituacaoCadastral data;
     DataSituacaoCadastral := DataSituacaoCadastral data;
     AtividadePrincipal := AtividadePrincipal data;
     AtividadesSecundarias := AtividadesSecundarias data;
     NaturezaJuridica := NaturezaJuridica data;
     Logradouro := Logradouro data; Numero := Numero data;
     Complemento := Complemento data; Bairro := Bairro data;
     Municipio := Municipio data; UF := UF data; CEP := CEP data;
     Email := Email data; Telefone := Telefone data;
     DataAbertura := DataAbertura data;
     CapitalSocial := CapitalSocial data; QSA := QSA data;
     Source := s |}.

(** [r >= '0' && r <= '9'] *)
Definition isDigit (r : ascii) : bool :=
  (("0" <=? r) && (r <=? "9"))%char.

(** The [strings.Map] call of [formatCNPJ]: remove all non-digits. *)
Definition digitsOf (cnpj : string) : string :=
  gostrings.Map (fun r => if isDigit r then Some r else None) cnpj.

(** [digits[lo:hi]] *)
Definition slice (s : string) (lo hi : nat) : string :=
  substring lo (hi - lo) s.

Definition formatCNPJ (cnpj : string) : outcome string :=
  let digits := digitsOf cnpj in
  if negb (Nat.eqb (String.length digits) 14) then
    Err ("invalid CNPJ: must have 14 digits, got "
         +:+ fmt.d (Z.of_nat (String.length digits)))
  else
    Ok (slice digits 0 2 +:+ "." +:+ slice digits 2 5 +:+ "."
        +:+ slice digits 5 8 +:+ "/" +:+ slice digits 8 12 +:+ "-"
        +:+ slice digits 12 14).

Section client.
Context (c : http.Transport) `{!json.Unmarshal CNPJData}.

Definition GetCNPJ (cnpj : string) : run CNPJData :=
  formattedCNPJ ← lift (formatCNPJ cnpj);
  let url := BaseURL +:+ "/" +:+ formattedCNPJ in
  req ← wrap "creating request"
           (httpclient.NewRequestWithContext c http.MethodGet url);
  let req := http.Header_Set req "Accept" "application/json" in
  resp ← wrap "executing request" (httpclient.Do c req);
  body ← wrap "reading response" (io.ReadAll (http.Body resp));
  if http.StatusCode resp =? http.StatusNotFound then
    fail ("CNPJ not found: " +:+ formattedCNPJ)
  else if negb (http.StatusCode resp =? http.StatusOK) then
    fail ("API error (status " +:+ fmt.d (http.StatusCode resp)
          +:+ "): " +:+ body)
  else
    data ← wrap "parsing response" (of_sum (json.unmarshal body));
    ret (set_Source data "minhareceita_api").
End client.
End cnpj.

(* ===================================================================== *)
(** * Package bcb (Banco Central do Brasil) *)
(* ===================================================================== *)

Module bcb.
Definition SGSURL : string := "https://api.bcb.gov.br/dados/serie/bcdata.sgs".
Definition OlindaURL : string := "https://olinda.bcb.gov.br/olinda/servico".

(** Series codes for economic indicators. *)
Definition SeriesCodes : gmap string Z :=
  list_to_map
    [ ("selic", 11); ("selic_monthly", 4390); ("ipca", 433);
      ("igpm", 189); ("cdi", 12) ].

Module DataPoint.
Record t := mk { Date : string; Value : string }.
End DataPoint.

Module IndicatorResponse.
Record t := mk {
  Indicator : string;
  Data : list DataPoint.t;
  Total : Z;
  Source : string
}.
End IndicatorResponse.

Module ExchangeRate.
Record t := mk {
  DateTime : string;
  BuyRate : float;
  SellRate : float;
  BulletinType : string
}.
End ExchangeRate.

Module ExchangeRateResponse.
Record t := mk {
  Currency : string;
  Date : string;
  Rates : list ExchangeRate.t;
  Source : string
}.
End ExchangeRateResponse.

Module PIXStats.
Record t := mk {
  TotalTransactions : Z;
  TotalValue : float;
  Data : json.value
}.
End PIXStats.

Module PIXResponse.
Record t := mk { Stats : PIXStats.t; Source : string }.
End PIXResponse.

(** The anonymous [struct { Value []ExchangeRate }] of [GetExchangeRate]. *)
Module ExchangeRateResult.
Record t := mk { Value : list ExchangeRate.t }.
End ExchangeRateResult.

Section client.
Context (c : http.Transport).
Context `{!json.Unmarshal (list DataPoint.t)}
        `{!json.Unmarshal ExchangeRateResult.t}
        `{!json.Unmarshal (gmap string json.value)}.
(** [time.Now().Format("01-02-2006")] *)
Variable today : string.

Definition doRequest (url : string) : run string :=
  req ← wrap "creating request"
           (httpclient.NewRequestWithContext c http.MethodGet url);
  let req := http.Header_Set req "Accept" "application/json" in
  resp ← wrap "executing request" (httpclient.Do c req);
  body ← wrap "reading response" (io.ReadAll (http.Body resp));
  if negb (http.StatusCode resp =? http.StatusOK) then
    fail ("API error (status " +:+ fmt.d (http.StatusCode resp)
          +:+ "): " +:+ body)
  else ret body.

Definition GetIndicator (indicator : string) (lastN : Z)
  : run IndicatorResponse.t :=
  match SeriesCodes !! indicator with
  | None =>
      fail ("unknown indicator: " +:+ indicator
            +:+ ". Available: selic, selic_monthly, ipca, igpm, cdi")
  | Some seriesCode =>
      let lastN := if lastN <=? 0 then 30 else lastN in
      let url := SGSURL +:+ "." +:+ fmt.d seriesCode
                 +:+ "/dados/ultimos/" +:+ fmt.d lastN
                 +:+ "?formato=json" in
      body ← doRequest url;
      data ← wrap "parsing response" (of_sum (json.unmarshal body));
      ret {| IndicatorResponse.Indicator := indicator;
             IndicatorResponse.Data := data;
             IndicatorResponse.Total := Z.of_nat (length data);
             IndicatorResponse.Source := "bcb_api" |}
  end.

Definition GetSELIC (lastN : Z) : run IndicatorResponse.t :=
  GetIndicator "selic" lastN.

Definition GetIPCA (lastN : Z) : run IndicatorResponse.t :=
  GetIndicator "ipca" lastN.

Definition GetExchangeRate (currency date : string)
  : run ExchangeRateResponse.t :=
  let currency := if decide (currency = "") then "USD" else currency in
  let date := if decide (date = "") then today else date in
  let url :=
    OlindaURL
    +:+ "/PTAX/versao/v1/odata/CotacaoMoedaDia(moeda=@moeda,dataCotacao=@dataCotacao)?@moeda='"
    +:+ currency +:+ "'&@dataCotacao='" +:+ date +:+ "'&$format=json" in
  body ← doRequest url;
  result ← wrap "parsing response" (of_sum (json.unmarshal body));
  ret {| ExchangeRateResponse.Currency := currency;
         ExchangeRateResponse.Date := date;
         ExchangeRateResponse.Rates := ExchangeRateResult.Value result;
         ExchangeRateResponse.Source := "bcb_api" |}.

Definition GetPIXStats : run PIXResponse.t :=
  let url :=
    OlindaURL
    +:+ "/Pix_DadosAbertos/versao/v1/odata/EstatisticasTransacoesPix(Database=@Database)?@Database='202401'&$format=json" in
  body ← doRequest url;
  result ← wrap "parsing response" (of_sum (json.unmarshal body));
  ret {| PIXResponse.Stats :=
           {| PIXStats.TotalTransactions := 0;
              PIXStats.TotalValue := 0%float;
              PIXStats.Data := json.Object result |};
         PIXResponse.Source := "bcb_api" |}.
End client.
End bcb.

(* ===================================================================== *)
(** * Package ibge *)
(* ===================================================================== *)

Module ibge.
Definition LocalidadesURL : string :=
  "https://servicodados.ibge.gov.br/api/v1/localidades".
Definition AgregadosURL : string :=
  "https://servicodados.ibge.gov.br/api/v3/agregados".

Module Region.
Record t := mk { ID : Z; Nome : string }.
End Region.

Module State.
Record t := mk { ID : Z; Sigla : string; Nome : string; Regiao : Region.t }.
End State.

Module Microrregiao.
Record t := mk { ID : Z; Nome : string }.
End Microrregiao.

Module Municipality.
Record t := mk { ID : Z; Nome : string; Microrregiao : Microrregiao.t }.
End Municipality.

Module StatesResponse.
Record t := mk { States : list State.t; Total : Z; Source : string }.
End StatesResponse.

Module MunicipalitiesResponse.
Record t := mk {
  Municipalities : list Municipality.t;
  Total : Z;
  StateID : string;
  Source : string
}.
End MunicipalitiesResponse.

Module PopulationData.
Record t := mk { Location : string; Year : string; Population : string }.
End PopulationData.

Module PopulationResponse.
Record t := mk { Data : list PopulationData.t; Source : string }.
End PopulationResponse.

(** ** Type assertions on decoded values

    Indexing a Go map at a missing key gives the nil interface, as a JSON
    [null] does: both are [None] or [Some json.Null] below. *)

Definition typeName (v : option json.value) : string :=
  match v with
  | None | Some json.Null => "nil"
  | Some (json.Bool _) => "bool"
  | Some (json.Number _) => "float64"
  | Some (json.Str _) => "string"
  | Some (json.Array _) => "[]interface {}"
  | Some (json.Object _) => "map[string]interface {}"
  end.

Definition conversionPanic {A} (v : option json.value) (target : string)
  : outcome A :=
  Panic ("interface conversion: interface {} is " +:+ typeName v
         +:+ ", not " +:+ target).

(** [x, ok := v.([]interface{})] *)
Definition asArray (v : option json.value) : option (list json.value) :=
  match v with Some (json.Array l) => Some l | _ => None end.

(** [x, ok := v.(map[string]interface{})] *)
Definition asObject (v : option json.value)
  : option (gmap string json.value) :=
  match v with Some (json.Object m) => Some m | _ => None end.

(** [v.(map[string]interface{})], without the comma-ok form. *)
Definition mustObject (v : option json.value)
  : outcome (gmap string json.value) :=
  match v with
  | Some (json.Object m) => Ok m
  | _ => conversionPanic v "map[string]interface {}"
  end.

(** [v.(string)], without the comma-ok form. *)
Definition mustString (v : option json.value) : outcome string :=
  match v with
  | Some (json.Str s) => Ok s
  | _ => conversionPanic v "string"
  end.

Section client.
Context (c : http.Transport).
Context `{!json.Unmarshal (list State.t)}
        `{!json.Unmarshal (list Municipality.t)}
        `{!json.Unmarshal (list (gmap string json.value))}.
(** [fmt.Sprintf("%v", pop)] on a decoded value. *)
Variable Sprintf_v : json.value -> string.
(** The order in which the runtime visits the maps ranged over. *)
Variable order : gomap.Order json.value.

Definition doRequest (url : string) : run string :=
  req ← wrap "creating request"
           (httpclient.NewRequestWithContext c http.MethodGet url);
  let req := http.Header_Set req "Accept" "application/json" in
  resp ← wrap "executing request" (httpclient.Do c req);
  body ← wrap "reading response" (io.ReadAll (http.Body resp));
  if negb (http.StatusCode resp =? http.StatusOK) then
    fail ("API error (status " +:+ fmt.d (http.StatusCode resp)
          +:+ "): " +:+ body)
  else ret body.

Definition GetStates : run StatesResponse.t :=
  let url := LocalidadesURL +:+ "/estados?orderBy=nome" in
  body ← doRequest url;
  states ← wrap "parsing response" (of_sum (json.unmarshal body));
  ret {| StatesResponse.States := states;
         StatesResponse.Total := Z.of_nat (length states);
         StatesResponse.Source := "ibge_api" |}.

Definition GetMunicipalities (stateID : string)
  : run MunicipalitiesResponse.t :=
  let url :=
    if decide (stateID ≠ "") then
      LocalidadesURL +:+ "/estados/" +:+ stateID
      +:+ "/municipios?orderBy=nome"
    else LocalidadesURL +:+ "/municipios?orderBy=nome" in
  body ← doRequest url;
  municipalities ← wrap "parsing response" (of_sum (json.unmarshal body));
  ret {| MunicipalitiesResponse.Municipalities := municipalities;
         MunicipalitiesResponse.Total := Z.of_nat (length municipalities);
         MunicipalitiesResponse.StateID := stateID;
         MunicipalitiesResponse.Source := "ibge_api" |}.

(** [for year, pop := range serieData { data = append(data, ...) }],
    on the entries of [serieData] in the order the runtime visits
    them. *)
Fixpoint rangeSerieData (localidade : gmap string json.value)
    (entries : list (string * json.value))
    (data : list PopulationData.t) : outcome (list PopulationData.t) :=
  match entries with
  | [] => Ok data
  | (year, pop) :: rest =>
      match mustString (localidade !! "nome") with
      | Ok nome =>
          rangeSerieData localidade rest
            (data ++ [ {| PopulationData.Location := nome;
                          PopulationData.Year := year;
                          PopulationData.Population := Sprintf_v pop |} ])
      | Err e => Err e
      | Panic msg => Panic msg
      end
  end.

(** [for _, s := range series { ... }]; [n] counts the loops over a
    [serieData] map entered so far, since the runtime picks the order
    of each loop anew. *)
Fixpoint rangeSeries (series : list json.value) (n : nat)
    (data : list PopulationData.t) : outcome (list PopulationData.t) :=
  match series with
  | [] => Ok data
  | s :: rest =>
      match mustObject (Some s) with
      | Ok serie =>
          match mustObject (serie !! "localidade") with
          | Ok localidade =>
              match asObject (serie !! "serie") with
              | Some serieData =>
                  match rangeSerieData localidade
                          (gomap.range order n serieData) data with
                  | Ok data' => rangeSeries rest (S n) data'
                  | Err e => Err e
                  | Panic msg => Panic msg
                  end
              | None => rangeSeries rest n data
              end
          | Err e => Err e
          | Panic msg => Panic msg
          end
      | Err e => Err e
      | Panic msg => Panic msg
      end
  end.

(** The extraction pass of [GetPopulation], from the decoded [result]
    to [data]. *)
Definition extractPopulation (result : list (gmap string json.value))
  : outcome (list PopulationData.t) :=
  match result with
  | [] => Ok []
  | result0 :: _ =>
      match asArray (result0 !! "resultados") with
      | Some (resultados0 :: _) =>
          match mustObject (Some resultados0) with
          | Ok r0 =>
              match asArray (r0 !! "series") with
              | Some series => rangeSeries series 0%nat []
              | None => Ok []
              end
          | Err e => Err e
          | Panic msg => Panic msg
          end
      | _ => Ok []
      end
  end.

Definition GetPopulation (locationID : string)
  : run PopulationResponse.t :=
  let url :=
    if decide (locationID ≠ "") then
      AgregadosURL +:+ "/6579/periodos/-6/variaveis/9324?localidades=N6["
      +:+ locationID +:+ "]"
    else
      AgregadosURL
      +:+ "/6579/periodos/-6/variaveis/9324?localidades=N1[all]" in
  body ← doRequest url;
  result ← wrap "parsing response" (of_sum (json.unmarshal body));
  data ← lift (extractPopulation result);
  ret {| PopulationResponse.Data := data;
         PopulationResponse.Source := "ibge_api" |}.
End client.
End ibge.

(* ===================================================================== *)
(** * net/url: query strings *)
(* ===================================================================== *)

Module url.
(** [url.Values] is a [map[string][]string]. *)
Abbreviation Values := (gmap string (list string)).

(** [v.Set(key, value)] replaces whatever the key held. *)
Definition Set_ (v : Values) (key value : string) : Values :=
  <[key := [value]]> v.

Definition isAlnum (c : ascii) : bool :=
  ((("a" <=? c) && (c <=? "z")) || (("A" <=? c) && (c <=? "Z"))
   || (("0" <=? c) && (c <=? "9")))%char.

(** [shouldEscape(c, encodeQueryComponent)]: everything but the
    unreserved characters is escaped. *)
Definition shouldEscape (c : ascii) : bool :=
  if isAlnum c then false
  else if existsb (Ascii.eqb c) ["-"; "_"; "."; "~"]%char then false
  else true.

Definition upperhex (n : N) : ascii :=
  nth (N.to_nat n) (list_ascii_of_string "0123456789ABCDEF") "0"%char.

(** [url.QueryEscape] *)
Fixpoint QueryEscape (s : string) : string :=
  match s with
  | EmptyString => EmptyString
  | String c s' =>
      if Ascii.eqb c " " then String "+" (QueryEscape s')
      else if shouldEscape c then
        String "%" (String (upperhex (N.shiftr (N_of_ascii c) 4))
                      (String (upperhex (N.land (N_of_ascii c) 15))
                         (QueryEscape s')))
      else String c (QueryEscape s')
  end.

(** [slices.Sort] on strings, as an insertion sort. *)
Fixpoint insertSorted (k : string) (l : list string) : list string :=
  match l with
  | [] => [k]
  | k' :: l' =>
      if String.leb k k' then k :: l else k' :: insertSorted k l'
  end.

Definition sortStrings (l : list string) : list string :=
  foldr insertSorted [] l.

Fixpoint join (sep : string) (l : list string) : string :=
  match l with
  | [] => ""
  | [x] => x
  | x :: l' => x +:+ sep +:+ join sep l'
  end.

(** [v.Encode()]: "key=value" pairs, escaped, sorted by key, joined
    with [&]. *)
Definition Encode (v : Values) : string :=
  join "&"
    (flat_map
       (fun k =>
          map (fun x => QueryEscape k +:+ "=" +:+ QueryEscape x)
              (default [] (v !! k)))
       (sortStrings (map fst (map_to_list v)))).
End url.

(* ===================================================================== *)
(** * Package transparencia (Portal da Transparencia) *)
(* ===================================================================== *)

Module transparencia.
Definition BaseURL : string :=
  "https://api.portaldatransparencia.gov.br/api-de-dados".

(** Known organization codes (SIAPE) *)
Definition KnownOrgaos : gmap string string :=
  list_to_map
    [ ("36000", "Ministério da Saúde");
      ("26000", "Ministério da Educação");
      ("25000", "Ministério da Economia");
      ("30000", "Ministério da Justiça");
      ("52000", "Ministério da Defesa");
      ("35000", "Ministério das Relações Exteriores");
      ("44000", "Ministério do Meio Ambiente") ].

Record Client := mkClient {
  httpClient : http.Transport;
  apiKey : string;
  baseURL : string
}.

Definition NewClient (transport : http.Transport) (apiKey : string)
  : Client :=
  {| httpClient := transport; apiKey := apiKey; baseURL := BaseURL |}.

Module Contract.
Record t := mk {
  ID : Z;
  Numero : string;
  Objeto : string;
  NumeroProcesso : string;
  FundamentoLegal : string;
  DataAssinatura : string;
  DataVigenciaInicio : string;
  DataVigenciaFim : string;
  ValorInicial : float;
  Situacao : string;
  ModalidadeCompra : string;
  CodigoOrgao : string;
  NomeOrgao : string;
  CNPJFornecedor : string;
  NomeFornecedor : string
}.
End Contract.

Module ContractsResponse.
Record t := mk {
  Contracts : list Contract.t;
  Total : Z;
  Page : Z;
  PageSize : Z;
  OrgaoCode : string;
  OrgaoName : string;
  Source : string
}.
End ContractsResponse.

Module Servidor.
Record t := mk {
  ID : Z;
  CPF : string;
  Nome : string;
  Matricula : string;
  CodigoOrgao : string;
  NomeOrgao : string;
  CodigoUorg : string;
  NomeUorg : string;
  TipoVinculo : string;
  SituacaoVinculo : string;
  DataIngressoCarg : string
}.
End Servidor.

Module ServidoresResponse.
Record t := mk {
  Servidores : list Servidor.t;
  Total : Z;
  Page : Z;
  PageSize : Z;
  Source : string
}.
End ServidoresResponse.

Module Remuneracao.
Record t := mk {
  MesAno : string;
  RemuneracaoBasicaBruta : float;
  AbateGratificacao : float;
  GratificacaoNatalina : float;
  AbateTeto : float;
  RendimentoLiquido : float
}.
End Remuneracao.

Module RemuneracaoResponse.
Record t := mk {
  CPF : string;
  Remuneracao : list Remuneracao.t;
  MesAno : string;
  Source : string
}.
End RemuneracaoResponse.

Module Convenio.
Record t := mk {
  Numero : string;
  Objeto : string;
  SituacaoConveni : string;
  ValorLiberado : float;
  ValorConvenio : float;
  UF : string;
  Municipio : string;
  OrgaoSuperior : string;
  DataInicio : string;
  DataFim : string
}.
End Convenio.

Module ConveniosResponse.
Record t := mk {
  Convenios : list Convenio.t;
  Total : Z;
  Page : Z;
  PageSize : Z;
  UF : string;
  Source : string
}.
End ConveniosResponse.

Module CEIS.
Record t := mk {
  CNPJ : string;
  RazaoSocial : string;
  NomeFantasia : string;
  TipoSancao : string;
  DataInicioSanca : string;
  DataFimSancao : string;
  OrgaoSancionado : string
}.
End CEIS.

Module CEISResponse.
Record t := mk {
  Empresas : list CEIS.t;
  Total : Z;
  Page : Z;
  PageSize : Z;
  Source : string
}.
End CEISResponse.

(** The page number the search operations use: [if page < 1 { page = 1 }]. *)
Definition effectivePage (page : Z) : Z := if page <? 1 then 1 else page.

(** [if pageSize < 1 || pageSize > 500 { pageSize = 100 }] *)
Definition effectivePageSize (pageSize : Z) : Z :=
  if (pageSize <? 1) || (pageSize >? 500) then 100 else pageSize.

Section client.
Context (c : Client).
Context `{!json.Unmarshal (list Contract.t)}
        `{!json.Unmarshal (list Servidor.t)}
        `{!json.Unmarshal (list Remuneracao.t)}
        `{!json.Unmarshal (list Convenio.t)}
        `{!json.Unmarshal (list CEIS.t)}.
(** [time.Now().AddDate(0, -1, 0).Format("01/2006")] *)
Variable lastMonth : string.

(** doRequest performs an HTTP request to the API. *)
Definition doRequest (endpoint : string) (params : url.Values)
  : run string :=
  let reqURL := baseURL c +:+ endpoint in
  let reqURL :=
    if decide (params ≠ ∅) then reqURL +:+ "?" +:+ url.Encode params
    else reqURL in
  req ← wrap "creating request"
           (httpclient.NewRequestWithContext (httpClient c)
              http.MethodGet reqURL);
  let req := http.Header_Set req "Accept" "application/json" in
  let req := http.Header_Set req "User-Agent" "MCP-Brasil/1.0 (Go)" in
  let req :=
    if decide (apiKey c ≠ "") then
      http.Header_Set req "chave-api-dados" (apiKey c)
    else req in
  resp ← wrap "executing request" (httpclient.Do (httpClient c) req);
  body ← wrap "reading response" (io.ReadAll (http.Body resp));
  if negb (http.StatusCode resp =? http.StatusOK) then
    fail ("API error (status " +:+ fmt.d (http.StatusCode resp)
          +:+ "): " +:+ body)
  else ret body.

(** The defaults and the [params] of each search are set apart in a
    function of their own ([..._params]), so that the query of a request
    can be named. *)
Definition SearchContracts_params (orgaoCode : string) (page pageSize : Z)
  : url.Values :=
  let orgaoCode := if decide (orgaoCode = "") then "36000" else orgaoCode in
  let page := effectivePage page in
  let pageSize := effectivePageSize pageSize in
  let params : url.Values := ∅ in
  let params := url.Set_ params "codigoOrgao" orgaoCode in
  let params := url.Set_ params "pagina" (fmt.d page) in
  let params := url.Set_ params "tamanhoPagina" (fmt.d pageSize) in
  params.

(** SearchContracts searches for government contracts. *)
Definition SearchContracts (orgaoCode : string) (page pageSize : Z)
  : run ContractsResponse.t :=
  let params := SearchContracts_params orgaoCode page pageSize in
  let orgaoCode := if decide (orgaoCode = "") then "36000" else orgaoCode in
  let page := effectivePage page in
  let pageSize := effectivePageSize pageSize in
  body ← doRequest "/contratos" params;
  contracts ← wrap "parsing response" (of_sum (json.unmarshal body));
  let orgaoName := default "" (KnownOrgaos !! orgaoCode) in
  let orgaoName :=
    if decide (orgaoName = "") then "Orgao Desconhecido" else orgaoName in
  ret {| ContractsResponse.Contracts := contracts;
         ContractsResponse.Total := Z.of_nat (length contracts);
         ContractsResponse.Page := page;
         ContractsResponse.PageSize := pageSize;
         ContractsResponse.OrgaoCode := orgaoCode;
         ContractsResponse.OrgaoName := orgaoName;
         ContractsResponse.Source := "portal_transparencia_api" |}.

Definition SearchServidores_params (nome : string) (page pageSize : Z)
  : url.Values :=
  let page := effectivePage page in
  let pageSize := effectivePageSize pageSize in
  let params : url.Values := ∅ in
  let params := url.Set_ params "nome" nome in
  let params := url.Set_ params "pagina" (fmt.d page) in
  let params := url.Set_ params "tamanhoPagina" (fmt.d pageSize) in
  params.

(** SearchServidores searches for public servants by name. *)
Definition SearchServidores (nome : string) (page pageSize : Z)
  : run ServidoresResponse.t :=
  if decide (nome = "") then fail "nome is required"
  else
    let params := SearchServidores_params nome page pageSize in
    let page := effectivePage page in
    let pageSize := effectivePageSize pageSize in
    body ← doRequest "/servidores" params;
    servidores ← wrap "parsing response" (of_sum (json.unmarshal body));
    ret {| ServidoresResponse.Servidores := servidores;
           ServidoresResponse.Total := Z.of_nat (length servidores);
           ServidoresResponse.Page := page;
           ServidoresResponse.PageSize := pageSize;
           ServidoresResponse.Source := "portal_transparencia_api" |}.

Definition GetServidorRemuneracao_params (mesAno : string) : url.Values :=
  let mesAno := if decide (mesAno = "") then lastMonth else mesAno in
  url.Set_ ∅ "mesAno" mesAno.

(** GetServidorRemuneracao gets salary data for a public servant by CPF. *)
Definition GetServidorRemuneracao (cpf mesAno : string)
  : run RemuneracaoResponse.t :=
  if decide (cpf = "") then fail "cpf is required"
  else
    let params := GetServidorRemuneracao_params mesAno in
    let mesAno := if decide (mesAno = "") then lastMonth else mesAno in
    let endpoint := "/servidores/" +:+ cpf +:+ "/remuneracao" in
    body ← doRequest endpoint params;
    remuneracoes ← wrap "parsing response" (of_sum (json.unmarshal body));
    ret {| RemuneracaoResponse.CPF := cpf;
           RemuneracaoResponse.Remuneracao := remuneracoes;
           RemuneracaoResponse.MesAno := mesAno;
           RemuneracaoResponse.Source := "portal_transparencia_api" |}.

Definition SearchConvenios_params (uf : string) (page pageSize : Z)
  : url.Values :=
  let uf := if decide (uf = "") then "MG" else uf in
  let page := effectivePage page in
  let pageSize := effectivePageSize pageSize in
  let params : url.Values := ∅ in
  let params := url.Set_ params "uf" uf in
  let params := url.Set_ params "pagina" (fmt.d page) in
  let params := url.Set_ params "tamanhoPagina" (fmt.d pageSize) in
  params.

(** SearchConvenios searches for government agreements by state. *)
Definition SearchConvenios (uf : string) (page pageSize : Z)
  : run ConveniosResponse.t :=
  let params := SearchConvenios_params uf page pageSize in
  let uf := if decide (uf = "") then "MG" else uf in
  let page := effectivePage page in
  let pageSize := effectivePageSize pageSize in
  body ← doRequest "/convenios" params;
  convenios ← wrap "parsing response" (of_sum (json.unmarshal body));
  ret {| ConveniosResponse.Convenios := convenios;
         ConveniosResponse.Total := Z.of_nat (length convenios);
         ConveniosResponse.Page := page;
         ConveniosResponse.PageSize := pageSize;
         ConveniosResponse.UF := uf;
         ConveniosResponse.Source := "portal_transparencia_api" |}.

Definition SearchCEIS_params (cnpj : string) (page pageSize : Z)
  : url.Values :=
  let page := effectivePage page in
  let pageSize := effectivePageSize pageSize in
  let params : url.Values := ∅ in
  let params :=
    if decide (cnpj ≠ "") then url.Set_ params "cnpj" cnpj else params in
  let params := url.Set_ params "pagina" (fmt.d page) in
  let params := url.Set_ params "tamanhoPagina" (fmt.d pageSize) in
  params.

(** SearchCEIS searches for sanctioned companies. *)
Definition SearchCEIS (cnpj : string) (page pageSize : Z)
  : run CEISResponse.t :=
  let params := SearchCEIS_params cnpj page pageSize in
  let page := effectivePage page in
  let pageSize := effectivePageSize pageSize in
  body ← doRequest "/ceis" params;
  empresas ← wrap "parsing response" (of_sum (json.unmarshal body));
  ret {| CEISResponse.Empresas := empresas;
         CEISResponse.Total := Z.of_nat (length empresas);
         CEISResponse.Page := page;
         CEISResponse.PageSize := pageSize;
         CEISResponse.Source := "portal_transparencia_api" |}.
End client.

(** ListOrgaos returns the list of known organization codes (in the
    order in which the map is visited). *)
Definition ListOrgaos : list (gmap string string) :=
  map (fun '(code, name) =>
         <["nome" := name]> (<["codigo" := code]> (∅ : gmap string string)))
      (map_to_list KnownOrgaos).
End transparencia.

(* ===================================================================== *)
(** * Package pncp (Portal Nacional de Contratacoes Publicas) *)
(* ===================================================================== *)

Module pncp.
Definition BaseURL : string := "https://pncp.gov.br/api/consulta/v1".

(** Procurement modality codes. *)
Definition Modalities : gmap string Z :=
  list_to_map
    [ ("pregao_eletronico", 6); ("concorrencia_eletronica", 1);
      ("concorrencia", 2); ("concurso", 3); ("leilao_eletronico", 4);
      ("leilao", 5); ("dialogo_competitivo", 7); ("credenciamento", 8) ].

Module ContractPublication.
Record t := mk {
  SequencialCompra : Z;
  NumeroCompra : string;
  AnoCompra : Z;
  OrgaoEntidade : gmap string json.value;
  ModalidadeID : Z;
  ModalidadeNome : string;
  SituacaoCompraID : Z;
  SituacaoCompraNome : string;
  NumeroControlePNCP : string;
  DataPublicacaoPncp : string;
  DataAberturaProposta : string;
  DataEncerramentoProposta : string;
  ObjetoCompra : string;
  ValorTotalEstimado : float;
  ValorTotalHomologado : float
}.
End ContractPublication.

Module ContractsResponse.
Record t := mk {
  Contracts : list ContractPublication.t;
  Total : Z;
  Page : Z;
  PageSize : Z;
  Source : string
}.
End ContractsResponse.

Module PriceRegistration.
Record t := mk {
  NumeroControlePNCP : string;
  OrgaoEntidade : gmap string json.value;
  NumeroAta : string;
  AnoAta : Z;
  DataPublicacaoPncp : string;
  DataVigenciaInicio : string;
  DataVigenciaFim : string;
  ObjetoAta : string;
  ValorTotalEstimado : float
}.
End PriceRegistration.

Module PriceRegistrationsResponse.
Record t := mk {
  Registrations : list PriceRegistration.t;
  Total : Z;
  Page : Z;
  Source : string
}.
End PriceRegistrationsResponse.

(** The anonymous result struct of [SearchContracts]. *)
Module ContractsResult.
Record t := mk {
  Data : list ContractPublication.t;
  TotalRegistros : Z
}.
End ContractsResult.

(** The anonymous result struct of [SearchPriceRegistrations]. *)
Module PriceRegistrationsResult.
Record t := mk { Data : list PriceRegistration.t }.
End PriceRegistrationsResult.

(** [if pageSize < 10 { pageSize = 10 } else if pageSize > 500
    { pageSize = 500 }] *)
Definition effectivePageSize (pageSize : Z) : Z :=
  if pageSize <? 10 then 10
  else if pageSize >? 500 then 500
  else pageSize.

(** [if page < 1 { page = 1 }] *)
Definition effectivePage (page : Z) : Z := if page <? 1 then 1 else page.

Section client.
Context (c : http.Transport).
Context `{!json.Unmarshal ContractsResult.t}
        `{!json.Unmarshal PriceRegistrationsResult.t}.

Definition doRequest (endpoint : string) (params : url.Values)
  : run string :=
  let reqURL := BaseURL +:+ endpoint in
  let reqURL :=
    if decide (params ≠ ∅) then reqURL +:+ "?" +:+ url.Encode params
    else reqURL in
  req ← wrap "creating request"
           (httpclient.NewRequestWithContext c http.MethodGet reqURL);
  let req := http.Header_Set req "Accept" "application/json" in
  resp ← wrap "executing request" (httpclient.Do c req);
  body ← wrap "reading response" (io.ReadAll (http.Body resp));
  if negb (http.StatusCode resp =? http.StatusOK) then
    fail ("API error (status " +:+ fmt.d (http.StatusCode resp)
          +:+ "): " +:+ body)
  else ret body.

(** As in package transparencia, the defaults and the [params] of each
    search are set apart in a function of their own. *)
Definition SearchContracts_params (startDate endDate : string)
    (modalityCode : Z) (state : string) (page pageSize : Z)
  : url.Values :=
  let pageSize := effectivePageSize pageSize in
  let page := effectivePage page in
  let modalityCode := if modalityCode =? 0 then 6 else modalityCode in
  let params : url.Values := ∅ in
  let params := url.Set_ params "dataInicial" startDate in
  let params := url.Set_ params "dataFinal" endDate in
  let params :=
    url.Set_ params "codigoModalidadeContratacao" (fmt.d modalityCode) in
  let params := url.Set_ params "tamanhoPagina" (fmt.d pageSize) in
  let params := url.Set_ params "pagina" (fmt.d page) in
  let params :=
    if decide (state ≠ "") then url.Set_ params "uf" state else params in
  params.

(** SearchContracts searches for contract publications. *)
Definition SearchContracts (startDate endDate : string)
    (modalityCode : Z) (state : string) (page pageSize : Z)
  : run ContractsResponse.t :=
  let params :=
    SearchContracts_params startDate endDate modalityCode state
      page pageSize in
  let pageSize := effectivePageSize pageSize in
  let page := effectivePage page in
  body ← doRequest "/contratacoes/publicacao" params;
  result ← wrap "parsing response" (of_sum (json.unmarshal body));
  ret {| ContractsResponse.Contracts := ContractsResult.Data result;
         ContractsResponse.Total := ContractsResult.TotalRegistros result;
         ContractsResponse.Page := page;
         ContractsResponse.PageSize := pageSize;
         ContractsResponse.Source := "pncp_api" |}.

Definition SearchPriceRegistrations_params (state : string)
    (page pageSize : Z) : url.Values :=
  let pageSize := effectivePageSize pageSize in
  let page := effectivePage page in
  let params : url.Values := ∅ in
  let params := url.Set_ params "tamanhoPagina" (fmt.d pageSize) in
  let params := url.Set_ params "pagina" (fmt.d page) in
  let params :=
    if decide (state ≠ "") then url.Set_ params "uf" state else params in
  params.

(** SearchPriceRegistrations searches for price registration records. *)
Definition SearchPriceRegistrations (state : string) (page pageSize : Z)
  : run PriceRegistrationsResponse.t :=
  let params := SearchPriceRegistrations_params state page pageSize in
  let page := effectivePage page in
  body ← doRequest "/atas-registro-preco" params;
  result ← wrap "parsing response" (of_sum (json.unmarshal body));
  ret {| PriceRegistrationsResponse.Registrations :=
           PriceRegistrationsResult.Data result;
         PriceRegistrationsResponse.Total :=
           Z.of_nat (length (PriceRegistrationsResult.Data result));
         PriceRegistrationsResponse.Page := page;
         PriceRegistrationsResponse.Source := "pncp_api" |}.
End client.

(** ListModalities returns available procurement modalities. *)
Definition ListModalities : gmap string Z := Modalities.
End pncp.

(* ===================================================================== *)
(** * The five adapters side by side *)
(* ===================================================================== *)

(** What the server ([main]) sets up around the clients: one network, the
    API key taken from the environment, the clock and the decoders. *)
Module world.
Record t := mk {
  net : http.Transport;
  apiKey : string;
  (** [time.Now().Format("01-02-2006")] *)
  today : string;
  (** [time.Now().AddDate(0, -1, 0).Format("01/2006")] *)
  lastMonth : string;
  (** [fmt.Sprintf("%v", x)] *)
  Sprintf_v : json.value -> string;
  (** the order in which the runtime visits the maps ranged over *)
  rangeOrder : gomap.Order json.value;
  decDataPoints : json.Unmarshal (list bcb.DataPoint.t);
  decExchangeRates : json.Unmarshal bcb.ExchangeRateResult.t;
  decObject : json.Unmarshal (gmap string json.value);
  decCNPJData : json.Unmarshal cnpj.CNPJData;
  decStates : json.Unmarshal (list ibge.State.t);
  decMunicipalities : json.Unmarshal (list ibge.Municipality.t);
  decObjects : json.Unmarshal (list (gmap string json.value));
  decPncpContracts : json.Unmarshal pncp.ContractsResult.t;
  decPriceRegistrations : json.Unmarshal pncp.PriceRegistrationsResult.t;
  decContracts : json.Unmarshal (list transparencia.Contract.t);
  decServidores : json.Unmarshal (list transparencia.Servidor.t);
  decRemuneracoes : json.Unmarshal (list transparencia.Remuneracao.t);
  decConvenios : json.Unmarshal (list transparencia.Convenio.t);
  decCEIS : json.Unmarshal (list transparencia.CEIS.t)
}.
End world.

Module adapters.
Inductive adapter := Transparencia | IBGE | CNPJ | BCB | PNCP.

(** An operation of one of the clients that goes to its upstream,
    with its arguments. *)
Inductive call :=
| bcb_GetIndicator (indicator : string) (lastN : Z)
| bcb_GetSELIC (lastN : Z)
| bcb_GetIPCA (lastN : Z)
| bcb_GetExchangeRate (currency date : string)
| bcb_GetPIXStats
| cnpj_GetCNPJ (cnpj : string)
| ibge_GetStates
| ibge_GetMunicipalities (stateID : string)
| ibge_GetPopulation (locationID : string)
| pncp_SearchContracts (startDate endDate : string) (modalityCode : Z)
    (state : string) (page pageSize : Z)
| pncp_SearchPriceRegistrations (state : string) (page pageSize : Z)
| transparencia_SearchContracts (orgaoCode : string) (page pageSize : Z)
| transparencia_SearchServidores (nome : string) (page pageSize : Z)
| transparencia_GetServidorRemuneracao (cpf mesAno : string)
| transparencia_SearchConvenios (uf : string) (page pageSize : Z)
| transparencia_SearchCEIS (cnpj : string) (page pageSize : Z).

Definition adapterOf (op : call) : adapter :=
  match op with
  | bcb_GetIndicator _ _ | bcb_GetSELIC _ | bcb_GetIPCA _
  | bcb_GetExchangeRate _ _ | bcb_GetPIXStats => BCB
  | cnpj_GetCNPJ _ => CNPJ
  | ibge_GetStates | ibge_GetMunicipalities _ | ibge_GetPopulation _ => IBGE
  | pncp_SearchContracts _ _ _ _ _ _
  | pncp_SearchPriceRegistrations _ _ _ => PNCP
  | transparencia_SearchContracts _ _ _
  | transparencia_SearchServidores _ _ _
  | transparencia_GetServidorRemuneracao _ _
  | transparencia_SearchConvenios _ _ _
  | transparencia_SearchCEIS _ _ _ => Transparencia
  end.

(** The response envelopes. *)
Inductive envelope :=
| Indicator (r : bcb.IndicatorResponse.t)
| ExchangeRates (r : bcb.ExchangeRateResponse.t)
| PIX (r : bcb.PIXResponse.t)
| Company (r : cnpj.CNPJData)
| States (r : ibge.StatesResponse.t)
| Municipalities (r : ibge.MunicipalitiesResponse.t)
| Population (r : ibge.PopulationResponse.t)
| PncpContracts (r : pncp.ContractsResponse.t)
| PriceRegistrations (r : pncp.PriceRegistrationsResponse.t)
| Contracts (r : transparencia.ContractsResponse.t)
| Servidores (r : transparencia.ServidoresResponse.t)
| Remuneracao (r : transparencia.RemuneracaoResponse.t)
| Convenios (r : transparencia.ConveniosResponse.t)
| Sanctions (r : transparencia.CEISResponse.t).

(** The [Source] field. *)
Definition source (e : envelope) : string :=
  match e with
  | Indicator r => bcb.IndicatorResponse.Source r
  | ExchangeRates r => bcb.ExchangeRateResponse.Source r
  | PIX r => bcb.PIXResponse.Source r
  | Company r => cnpj.Source r
  | States r => ibge.StatesResponse.Source r
  | Municipalities r => ibge.MunicipalitiesResponse.Source r
  | Population r => ibge.PopulationResponse.Source r
  | PncpContracts r => pncp.ContractsResponse.Source r
  | PriceRegistrations r => pncp.PriceRegistrationsResponse.Source r
  | Contracts r => transparencia.ContractsResponse.Source r
  | Servidores r => transparencia.ServidoresResponse.Source r
  | Remuneracao r => transparencia.RemuneracaoResponse.Source r
  | Convenios r => transparencia.ConveniosResponse.Source r
  | Sanctions r => transparencia.CEISResponse.Source r
  end.

(** The length of the result list, for the envelopes that carry one. *)
Definition items (e : envelope) : option nat :=
  match e with
  | Indicator r => Some (length (bcb.IndicatorResponse.Data r))
  | ExchangeRates r => Some (length (bcb.ExchangeRateResponse.Rates r))
  | PIX _ | Company _ => None
  | States r => Some (length (ibge.StatesResponse.States r))
  | Municipalities r =>
      Some (length (ibge.MunicipalitiesResponse.Municipalities r))
  | Population r => Some (length (ibge.PopulationResponse.Data r))
  | PncpContracts r => Some (length (pncp.ContractsResponse.Contracts r))
  | PriceRegistrations r =>
      Some (length (pncp.PriceRegistrationsResponse.Registrations r))
  | Contracts r => Some (length (transparencia.ContractsResponse.Contracts r))
  | Servidores r =>
      Some (length (transparencia.ServidoresResponse.Servidores r))
  | Remuneracao r =>
      Some (length (transparencia.RemuneracaoResponse.Remuneracao r))
  | Convenios r => Some (length (transparencia.ConveniosResponse.Convenios r))
  | Sanctions r => Some (length (transparencia.CEISResponse.Empresas r))
  end.

(** The [Total] field, for the envelopes that have one. *)
Definition total (e : envelope) : option Z :=
  match e with
  | Indicator r => Some (bcb.IndicatorResponse.Total r)
  | States r => Some (ibge.StatesResponse.Total r)
  | Municipalities r => Some (ibge.MunicipalitiesResponse.Total r)
  | PncpContracts r => Some (pncp.ContractsResponse.Total r)
  | PriceRegistrations r => Some (pncp.PriceRegistrationsResponse.Total r)
  | Contracts r => Some (transparencia.ContractsResponse.Total r)
  | Servidores r => Some (transparencia.ServidoresResponse.Total r)
  | Convenios r => Some (transparencia.ConveniosResponse.Total r)
  | Sanctions r => Some (transparencia.CEISResponse.Total r)
  | ExchangeRates _ | PIX _ | Company _ | Population _ | Remuneracao _ =>
      None
  end.

(** The [PageSize] field, for the envelopes that have one. *)
Definition pageSize (e : envelope) : option Z :=
  match e with
  | PncpContracts r => Some (pncp.ContractsResponse.PageSize r)
  | Contracts r => Some (transparencia.ContractsResponse.PageSize r)
  | Servidores r => Some (transparencia.ServidoresResponse.PageSize r)
  | Convenios r => Some (transparencia.ConveniosResponse.PageSize r)
  | Sanctions r => Some (transparencia.CEISResponse.PageSize r)
  | _ => None
  end.

Definition mapRun {A B} (f : A -> B) (m : run A) : run B :=
  match m with
  | mkRun t (Ok a) => mkRun t (Ok (f a))
  | mkRun t (Err e) => mkRun t (Err e)
  | mkRun t (Panic msg) => mkRun t (Panic msg)
  end.

Section exec.
Context (w : world.t).

Definition transparenciaClient : transparencia.Client :=
  transparencia.NewClient (world.net w) (world.apiKey w).

Definition exec (op : call) : run envelope :=
  let net := world.net w in
  let tc := transparenciaClient in
  match op with
  | bcb_GetIndicator indicator lastN =>
      mapRun Indicator
        (@bcb.GetIndicator net (world.decDataPoints w) indicator lastN)
  | bcb_GetSELIC lastN =>
      mapRun Indicator (@bcb.GetSELIC net (world.decDataPoints w) lastN)
  | bcb_GetIPCA lastN =>
      mapRun Indicator (@bcb.GetIPCA net (world.decDataPoints w) lastN)
  | bcb_GetExchangeRate currency date =>
      mapRun ExchangeRates
        (@bcb.GetExchangeRate net (world.decExchangeRates w)
           (world.today w) currency date)
  | bcb_GetPIXStats =>
      mapRun PIX (@bcb.GetPIXStats net (world.decObject w))
  | cnpj_GetCNPJ s =>
      mapRun Company (@cnpj.GetCNPJ net (world.decCNPJData w) s)
  | ibge_GetStates =>
      mapRun States (@ibge.GetStates net (world.decStates w))
  | ibge_GetMunicipalities stateID =>
      mapRun Municipalities
        (@ibge.GetMunicipalities net (world.decMunicipalities w) stateID)
  | ibge_GetPopulation locationID =>
      mapRun Population
        (@ibge.GetPopulation net (world.decObjects w)
           (world.Sprintf_v w) (world.rangeOrder w) locationID)
  | pncp_SearchContracts startDate endDate modalityCode state page ps =>
      mapRun PncpContracts
        (@pncp.SearchContracts net (world.decPncpContracts w)
           startDate endDate modalityCode state page ps)
  | pncp_SearchPriceRegistrations state page ps =>
      mapRun PriceRegistrations
        (@pncp.SearchPriceRegistrations net
           (world.decPriceRegistrations w) state page ps)
  | transparencia_SearchContracts orgaoCode page ps =>
      mapRun Contracts
        (@transparencia.SearchContracts tc (world.decContracts w)
           orgaoCode page ps)
  | transparencia_SearchServidores nome page ps =>
      mapRun Servidores
        (@transparencia.SearchServidores tc (world.decServidores w)
           nome page ps)
  | transparencia_GetServidorRemuneracao cpf mesAno =>
      mapRun Remuneracao
        (@transparencia.GetServidorRemuneracao tc
           (world.decRemuneracoes w) (world.lastMonth w) cpf mesAno)
  | transparencia_SearchConvenios uf page ps =>
      mapRun Convenios
        (@transparencia.SearchConvenios tc (world.decConvenios w)
           uf page ps)
  | transparencia_SearchCEIS s page ps =>
      mapRun Sanctions
        (@transparencia.SearchCEIS tc (world.decCEIS w) s page ps)
  end.
End exec.
End adapters.

(* ===================================================================== *)
(** * Vocabulary of the specification *)
(* ===================================================================== *)

Module spec.
(** The generic upstream failure: status code and raw body. *)
Definition apiError (status : Z) (body : string) : error :=
  "API error (status " +:+ fmt.d status +:+ "): " +:+ body.

(** [sub] occurs in [s]. *)
Definition contains (sub s : string) : Prop :=
  exists pre post, s = pre +:+ sub +:+ post.

(** A message carries a status code and a body when both occur in it. *)
Definition carries (msg : error) (status : Z) (body : string) : Prop :=
  contains (fmt.d status) msg /\ contains body msg.

(** Clamping into the range [lo..hi], in the words of the specification:
    below the minimum the minimum, above the maximum the maximum,
    inside the range unchanged. *)
Definition clamp (lo hi x : Z) : Z :=
  if x <? lo then lo else if hi <? x then hi else x.

(** Keeping a value of the range [lo..hi] and replacing any other by a
    default. *)
Definition orDefault (lo hi dflt x : Z) : Z :=
  if (lo <=? x) && (x <=? hi) then x else dflt.

(** The source tag of each adapter. *)
Definition sourceTag (a : adapters.adapter) : string :=
  match a with
  | adapters.Transparencia => "portal_transparencia_api"
  | adapters.IBGE => "ibge_api"
  | adapters.CNPJ => "minhareceita_api"
  | adapters.BCB => "bcb_api"
  | adapters.PNCP => "pncp_api"
  end.

Import adapters.

(** The operations that take a page size, and the page size they use. *)
Definition effectivePageSize (op : call) : option Z :=
  match op with
  | pncp_SearchContracts _ _ _ _ _ ps
  | pncp_SearchPriceRegistrations _ _ ps => Some (clamp 10 500 ps)
  | transparencia_SearchContracts _ _ ps
  | transparencia_SearchServidores _ _ ps
  | transparencia_SearchConvenios _ _ ps
  | transparencia_SearchCEIS _ _ ps => Some (orDefault 1 500 100 ps)
  | _ => None
  end.

(** The base URL and path of the operations that build a query string. *)
Definition endpoint (op : call) : option string :=
  match op with
  | pncp_SearchContracts _ _ _ _ _ _ =>
      Some (pncp.BaseURL +:+ "/contratacoes/publicacao")
  | pncp_SearchPriceRegistrations _ _ _ =>
      Some (pncp.BaseURL +:+ "/atas-registro-preco")
  | transparencia_SearchContracts _ _ _ =>
      Some (transparencia.BaseURL +:+ "/contratos")
  | transparencia_SearchServidores _ _ _ =>
      Some (transparencia.BaseURL +:+ "/servidores")
  | transparencia_GetServidorRemuneracao cpf _ =>
      Some (transparencia.BaseURL +:+ "/servidores/" +:+ cpf
            +:+ "/remuneracao")
  | transparencia_SearchConvenios _ _ _ =>
      Some (transparencia.BaseURL +:+ "/convenios")
  | transparencia_SearchCEIS _ _ _ =>
      Some (transparencia.BaseURL +:+ "/ceis")
  | _ => None
  end.

(** The [url.Values] these operations hand to [doRequest]. *)
Definition params (w : world.t) (op : call) : option url.Values :=
  match op with
  | pncp_SearchContracts startDate endDate modalityCode state page ps =>
      Some (pncp.SearchContracts_params startDate endDate modalityCode
              state page ps)
  | pncp_SearchPriceRegistrations state page ps =>
      Some (pncp.SearchPriceRegistrations_params state page ps)
  | transparencia_SearchContracts orgaoCode page ps =>
      Some (transparencia.SearchContracts_params orgaoCode page ps)
  | transparencia_SearchServidores nome page ps =>
      Some (transparencia.SearchServidores_params nome page ps)
  | transparencia_GetServidorRemuneracao _ mesAno =>
      Some (transparencia.GetServidorRemuneracao_params
              (world.lastMonth w) mesAno)
  | transparencia_SearchConvenios uf page ps =>
      Some (transparencia.SearchConvenios_params uf page ps)
  | transparencia_SearchCEIS s page ps =>
      Some (transparencia.SearchCEIS_params s page ps)
  | _ => None
  end.

(** A query described by two tables, in the words of the specification:
    the parameters that are always sent, and the optional ones, which
    are sent only when their value is not empty. *)
Definition queryOf (always optional : list (string * string))
  : url.Values :=
  list_to_map
    ((fun kv => (kv.1, [kv.2]))
       <$> (always ++ filter (fun kv => kv.2 ≠ "") optional)%list).

Definition orElse (dflt s : string) : string :=
  if decide (s = "") then dflt else s.

(** The parameters each operation always sends, after defaulting and
    clamping. *)
Definition alwaysSent (w : world.t) (op : call)
  : list (string * string) :=
  match op with
  | pncp_SearchContracts startDate endDate modalityCode _ page ps =>
      [ ("dataInicial", startDate); ("dataFinal", endDate);
        ("codigoModalidadeContratacao",
           fmt.d (if modalityCode =? 0 then 6 else modalityCode));
        ("tamanhoPagina", fmt.d (clamp 10 500 ps));
        ("pagina", fmt.d (Z.max 1 page)) ]
  | pncp_SearchPriceRegistrations _ page ps =>
      [ ("tamanhoPagina", fmt.d (clamp 10 500 ps));
        ("pagina", fmt.d (Z.max 1 page)) ]
  | transparencia_SearchContracts orgaoCode page ps =>
      [ ("codigoOrgao", orElse "36000" orgaoCode);
        ("pagina", fmt.d (Z.max 1 page));
        ("tamanhoPagina", fmt.d (orDefault 1 500 100 ps)) ]
  | transparencia_SearchServidores nome page ps =>
      [ ("nome", nome);
        ("pagina", fmt.d (Z.max 1 page));
        ("tamanhoPagina", fmt.d (orDefault 1 500 100 ps)) ]
  | transparencia_GetServidorRemuneracao _ mesAno =>
      [ ("mesAno", orElse (world.lastMonth w) mesAno) ]
  | transparencia_SearchConvenios uf page ps =>
      [ ("uf", orElse "MG" uf);
        ("pagina", fmt.d (Z.max 1 page));
        ("tamanhoPagina", fmt.d (orDefault 1 500 100 ps)) ]
  | transparencia_SearchCEIS _ page ps =>
      [ ("pagina", fmt.d (Z.max 1 page));
        ("tamanhoPagina", fmt.d (orDefault 1 500 100 ps)) ]
  | _ => []
  end.

(** The optional filters of each operation. *)
Definition optional (op : call) : list (string * string) :=
  match op with
  | pncp_SearchContracts _ _ _ state _ _
  | pncp_SearchPriceRegistrations state _ _ => [ ("uf", state) ]
  | transparencia_SearchCEIS s _ _ => [ ("cnpj", s) ]
  | _ => []
  end.

Definition isPncpSearchContracts (op : call) : bool :=
  match op with pncp_SearchContracts _ _ _ _ _ _ => true | _ => false end.

(** The ten decimal digits. *)
Definition decimalDigits : list ascii :=
  ["0"; "1"; "2"; "3"; "4"; "5"; "6"; "7"; "8"; "9"]%char.

(** Stripping every character that is not a decimal digit.  Characters
    are bytes: the bytes of a rune that takes several are above 0x7f, so
    none of them is a digit. *)
Definition stripNonDigits (s : string) : string :=
  string_of_list_ascii
    (filter (fun r => r ∈ decimalDigits) (list_ascii_of_string s)).

(** Fourteen digits in the form XX.XXX.XXX/XXXX-XX. *)
Definition punctuated (digits : string) : string :=
  substring 0 2 digits +:+ "." +:+ substring 2 3 digits +:+ "."
  +:+ substring 5 3 digits +:+ "/" +:+ substring 8 4 digits +:+ "-"
  +:+ substring 12 2 digits.

(** The number of values an indicator is asked for. *)
Definition lastNOrDefault (lastN : Z) : Z :=
  if lastN <=? 0 then 30 else lastN.

(** The URL of an operation that builds a query string: its endpoint
    and the encoded query of its two tables. *)
Definition queried (w : world.t) (op : call) : option string :=
  match endpoint op with
  | Some e =>
      Some (e +:+ "?"
            +:+ url.Encode (queryOf (alwaysSent w op) (optional op)))
  | None => None
  end.

(** The series an indicator name stands for. *)
Definition seriesURL (indicator : string) (lastN : Z) : option string :=
  match bcb.SeriesCodes !! indicator with
  | Some code =>
      Some ("https://api.bcb.gov.br/dados/serie/bcdata.sgs." +:+ fmt.d code
            +:+ "/dados/ultimos/" +:+ fmt.d (lastNOrDefault lastN)
            +:+ "?formato=json")
  | None => None
  end.

(** The URL each operation requests, in the words of the specification:
    a fixed base URL, the path of the endpoint with its path parameter,
    and the parameters of the operation with the values supplied, after
    defaulting and clamping; an optional parameter that is empty is left
    out.  [None] for the arguments an operation rejects. *)
Definition target (w : world.t) (op : call) : option string :=
  match op with
  | bcb_GetIndicator indicator lastN => seriesURL indicator lastN
  | bcb_GetSELIC lastN => seriesURL "selic" lastN
  | bcb_GetIPCA lastN => seriesURL "ipca" lastN
  | bcb_GetExchangeRate currency date =>
      Some ("https://olinda.bcb.gov.br/olinda/servico/PTAX/versao/v1/odata/CotacaoMoedaDia(moeda=@moeda,dataCotacao=@dataCotacao)?@moeda='"
            +:+ orElse "USD" currency +:+ "'&@dataCotacao='"
            +:+ orElse (world.today w) date +:+ "'&$format=json")
  | bcb_GetPIXStats =>
      Some "https://olinda.bcb.gov.br/olinda/servico/Pix_DadosAbertos/versao/v1/odata/EstatisticasTransacoesPix(Database=@Database)?@Database='202401'&$format=json"
  | cnpj_GetCNPJ s =>
      let digits := stripNonDigits s in
      if decide (String.length digits = 14%nat)
      then Some ("https://minhareceita.org/" +:+ punctuated digits)
      else None
  | ibge_GetStates =>
      Some "https://servicodados.ibge.gov.br/api/v1/localidades/estados?orderBy=nome"
  | ibge_GetMunicipalities stateID =>
      Some ("https://servicodados.ibge.gov.br/api/v1/localidades"
            +:+ (if decide (stateID = "") then ""
                 else "/estados/" +:+ stateID)
            +:+ "/municipios?orderBy=nome")
  | ibge_GetPopulation locationID =>
      Some ("https://servicodados.ibge.gov.br/api/v3/agregados/6579/periodos/-6/variaveis/9324?localidades="
            +:+ (if decide (locationID = "") then "N1[all]"
                 else "N6[" +:+ locationID +:+ "]"))
  | transparencia_SearchServidores nome _ _ =>
      if decide (nome = "") then None else queried w op
  | transparencia_GetServidorRemuneracao cpf _ =>
      if decide (cpf = "") then None else queried w op
  | pncp_SearchContracts _ _ _ _ _ _
  | pncp_SearchPriceRegistrations _ _ _
  | transparencia_SearchContracts _ _ _
  | transparencia_SearchConvenios _ _ _
  | transparencia_SearchCEIS _ _ _ => queried w op
  end.
End spec.

(* ===================================================================== *)
(** * Fixtures: concrete upstreams and decoders for the examples *)
(* ===================================================================== *)

Module fixtures.
(** An upstream that accepts every URL and always answers with the same
    status code and body. *)
Definition upstream (status : Z) (body : string) : http.Transport :=
  {| http.NewRequestError := fun _ => None;
     http.RoundTrip := fun _ =>
       inr {| http.StatusCode := status; http.Body := inr body |} |}.

(** A decoder that finds the value [x] in every body. *)
Definition decodesTo {T} (x : T) : json.Unmarshal T := fun _ => inr x.

Definition emptyCompany : cnpj.CNPJData :=
  {| cnpj.CNPJ := ""; cnpj.RazaoSocial := ""; cnpj.NomeFantasia := "";
     cnpj.SituacaoCadastral := 0; cnpj.DescricaoSituacaoCadastral := "";
     cnpj.DataSituacaoCadastral := ""; cnpj.AtividadePrincipal := ∅;
     cnpj.AtividadesSecundarias := []; cnpj.NaturezaJuridica := "";
     cnpj.Logradouro := ""; cnpj.Numero := ""; cnpj.Complemento := "";
     cnpj.Bairro := ""; cnpj.Municipio := ""; cnpj.UF := ""; cnpj.CEP := "";
     cnpj.Email := ""; cnpj.Telefone := ""; cnpj.DataAbertura := "";
     cnpj.CapitalSocial := 0%float; cnpj.QSA := []; cnpj.Source := "" |}.

(** Two orders the runtime may pick: the entries of a map as
    [map_to_list] lists them, and the same backwards. *)
Definition forwards : gomap.Order json.value :=
  gomap.mkOrder (fun _ m => map_to_list m)
    (fun _ m => Permutation_refl (map_to_list m)).

Definition backwards : gomap.Order json.value :=
  gomap.mkOrder (fun _ m => reverse (map_to_list m))
    (fun _ m => reverse_Permutation (map_to_list m)).

(** A world around the upstream [net] in which every body decodes to
    an empty result, except that the population payload decodes to
    [population] and the PNCP contracts payload reports [totalRegistros]
    records; maps are visited in the order [order]. *)
Definition worldWith (order : gomap.Order json.value)
    (net : http.Transport)
    (population : list (gmap string json.value)) (totalRegistros : Z)
  : world.t :=
  {| world.net := net;
     world.apiKey := "";
     world.today := "01-31-2025";
     world.lastMonth := "12/2024";
     world.Sprintf_v :=
       fun v => match v with json.Str s => s | _ => "?" end;
     world.rangeOrder := order;
     world.decDataPoints := decodesTo [];
     world.decExchangeRates :=
       decodesTo {| bcb.ExchangeRateResult.Value := [] |};
     world.decObject := decodesTo ∅;
     world.decCNPJData := decodesTo emptyCompany;
     world.decStates := decodesTo [];
     world.decMunicipalities := decodesTo [];
     world.decObjects := decodesTo population;
     world.decPncpContracts :=
       decodesTo {| pncp.ContractsResult.Data := [];
                    pncp.ContractsResult.TotalRegistros := totalRegistros |};
     world.decPriceRegistrations :=
       decodesTo {| pncp.PriceRegistrationsResult.Data := [] |};
     world.decContracts := decodesTo [];
     world.decServidores := decodesTo [];
     world.decRemuneracoes := decodesTo [];
     world.decConvenios := decodesTo [];
     world.decCEIS := decodesTo [] |}.

Definition world : http.Transport -> list (gmap string json.value) -> Z
                   -> world.t :=
  worldWith forwards.

(** An upstream that answers 200 to everything, with empty results. *)
Definition quiet : world.t := world (upstream 200 "[]") [] 0.

(** The same, with a PNCP payload that reports 42 records in all. *)
Definition quiet42 : world.t := world (upstream 200 "[]") [] 42.

(** An upstream that answers every request with the given status and
    body. *)
Definition failing (status : Z) (body : string) : world.t :=
  world (upstream status body) [] 0.

(** The decoded form of the body
    [[{"resultados":[{"series":[{"serie":{"2020":"1"}}]}]}]]:
    a series entry without its "localidade". *)
Definition populationWithoutLocalidade : list (gmap string json.value) :=
  [ {[ "resultados" :=
         json.Array
           [ json.Object
               {[ "series" :=
                    json.Array
                      [ json.Object
                          {[ "serie" :=
                               json.Object
                                 {[ "2020" := json.Str "1" ]} ]} ] ]} ] ]} ].

(** The decoded form of
    [[{"resultados":[{"series":[{"localidade":{"id":"1"},
       "serie":{"2020":"1"}}]}]}]]: a "localidade" without its "nome". *)
Definition populationWithoutNome : list (gmap string json.value) :=
  [ {[ "resultados" :=
         json.Array
           [ json.Object
               {[ "series" :=
                    json.Array
                      [ json.Object
                          (<[ "localidade" :=
                                json.Object {[ "id" := json.Str "1" ]} ]>
                             {[ "serie" :=
                                  json.Object
                                    {[ "2020" := json.Str "1" ]} ]}) ] ]} ] ]} ].

(** The decoded form of [[{"resultados":[{"series":[7]}]}]]: a series
    entry that is not an object. *)
Definition populationWithNumberInSeries : list (gmap string json.value) :=
  [ {[ "resultados" :=
         json.Array
           [ json.Object
               {[ "series" := json.Array [ json.Number 7%float ] ]} ] ]} ].

(** The decoded form of
    [[{"resultados":[{"series":[{"localidade":{"nome":"Brasil"},
       "serie":{"2020":"211755692"}}]}]}]]: the expected shape. *)
Definition populationBrasil : list (gmap string json.value) :=
  [ {[ "resultados" :=
         json.Array
           [ json.Object
               {[ "series" :=
                    json.Array
                      [ json.Object
                          (<[ "localidade" :=
                                json.Object
                                  {[ "nome" := json.Str "Brasil" ]} ]>
                             {[ "serie" :=
                                  json.Object
                                    {[ "2020" :=
                                         json.Str "211755692" ]} ]}) ] ]} ] ]} ].

(** The same with the figures of two years. *)
Definition populationTwoYears : list (gmap string json.value) :=
  [ {[ "resultados" :=
         json.Array
           [ json.Object
               {[ "series" :=
                    json.Array
                      [ json.Object
                          (<[ "localidade" :=
                                json.Object
                                  {[ "nome" := json.Str "Brasil" ]} ]>
                             {[ "serie" :=
                                  json.Object
                                    (<[ "2019" := json.Str "210147125" ]>
                                       {[ "2020" :=
                                            json.Str "211755692" ]}) ]}) ] ]} ] ]} ].

(** A marshaller and a number conversion for the examples of the
    server. *)
Definition marshal : forall T : Type, T -> error + string :=
  fun _ _ => inr "{}".

Definition intOfFloat : float -> Z := fun _ => 0.

(** An upstream that cannot be reached. *)
Definition unreachable : world.t :=
  world {| http.NewRequestError := fun _ => None;
           http.RoundTrip := fun _ => inl "connection refused" |} [] 0.
End fixtures.

(* ===================================================================== *)
(** * Package main: the tool handlers of the server *)
(* ===================================================================== *)

Module server.
(** What a handler hands back to [mcp-go]: [mcp.NewToolResultText] or
    [mcp.NewToolResultError]. *)
Inductive CallToolResult :=
| NewToolResultText (text : string)
| NewToolResultError (text : string).

(** [request.GetArguments()]: the decoded arguments of the call. *)
Abbreviation Arguments := (gmap string json.value).

(** [x, _ := request.GetArguments()[key].(string)] *)
Definition stringArg (args : Arguments) (key : string) : string :=
  match args !! key with
  | Some (json.Str s) => s
  | _ => ""
  end.

(** [request.RequireString(key)]: the string, or an error when the
    argument is missing or is not a string.  The handlers drop the error
    or replace it by a message of their own, so only its presence is
    kept. *)
Definition RequireString (args : Arguments) (key : string) : option string :=
  match args !! key with
  | Some (json.Str s) => Some s
  | _ => None
  end.

Section handlers.
Context (w : world.t).
(** The conversion [int(val)] of a [float64]. *)
Variable intOfFloat : float -> Z.
(** [json.MarshalIndent(data, "", "  ")] *)
Variable MarshalIndent : forall T : Type, T -> error + string.

Definition getIntArg (args : Arguments) (key : string) (defaultVal : Z) : Z :=
  match args !! key with
  | Some (json.Number val) => intOfFloat val
  | _ => defaultVal
  end.

Definition toJSONResult {T : Type} (data : T) : CallToolResult :=
  match MarshalIndent T data with
  | inl err => NewToolResultError ("Error encoding result: " +:+ err)
  | inr jsonBytes => NewToolResultText jsonBytes
  end.

(** The end of every handler that calls a client:
    [if err != nil { return mcp.NewToolResultError(fmt.Sprintf("Error: %v",
    err)), nil }; return toJSONResult(result)]. *)
Definition respond {T : Type} (m : run T) : run CallToolResult :=
  match m with
  | mkRun t (Ok result) => mkRun t (Ok (toJSONResult result))
  | mkRun t (Err err) => mkRun t (Ok (NewToolResultError ("Error: " +:+ err)))
  | mkRun t (Panic msg) => mkRun t (Panic msg)
  end.

Definition handleSearchContracts (args : Arguments) : run CallToolResult :=
  let orgaoCode := stringArg args "orgao_code" in
  let page := getIntArg args "page" 1 in
  let pageSize := getIntArg args "page_size" 100 in
  respond (@transparencia.SearchContracts (adapters.transparenciaClient w)
             (world.decContracts w) orgaoCode page pageSize).

Definition handleSearchServidores (args : Arguments) : run CallToolResult :=
  let nome := default "" (RequireString args "nome") in
  let page := getIntArg args "page" 1 in
  let pageSize := getIntArg args "page_size" 100 in
  respond (@transparencia.SearchServidores (adapters.transparenciaClient w)
             (world.decServidores w) nome page pageSize).

Definition handleGetRemuneracao (args : Arguments) : run CallToolResult :=
  let cpf := default "" (RequireString args "cpf") in
  let mesAno := stringArg args "mes_ano" in
  respond (@transparencia.GetServidorRemuneracao
             (adapters.transparenciaClient w) (world.decRemuneracoes w)
             (world.lastMonth w) cpf mesAno).

Definition handleSearchConvenios (args : Arguments) : run CallToolResult :=
  let uf := stringArg args "uf" in
  let page := getIntArg args "page" 1 in
  let pageSize := getIntArg args "page_size" 100 in
  respond (@transparencia.SearchConvenios (adapters.transparenciaClient w)
             (world.decConvenios w) uf page pageSize).

Definition handleSearchCEIS (args : Arguments) : run CallToolResult :=
  let cnpj := stringArg args "cnpj" in
  let page := getIntArg args "page" 1 in
  let pageSize := getIntArg args "page_size" 100 in
  respond (@transparencia.SearchCEIS (adapters.transparenciaClient w)
             (world.decCEIS w) cnpj page pageSize).

Definition handleListOrgaos (args : Arguments) : run CallToolResult :=
  ret (toJSONResult transparencia.ListOrgaos).

Definition handleIBGEStates (args : Arguments) : run CallToolResult :=
  respond (@ibge.GetStates (world.net w) (world.decStates w)).

Definition handleIBGEMunicipalities (args : Arguments)
  : run CallToolResult :=
  let stateID := stringArg args "state_id" in
  respond (@ibge.GetMunicipalities (world.net w) (world.decMunicipalities w)
             stateID).

Definition handleIBGEPopulation (args : Arguments) : run CallToolResult :=
  let locationID := stringArg args "location_id" in
  respond (@ibge.GetPopulation (world.net w) (world.decObjects w)
             (world.Sprintf_v w) (world.rangeOrder w) locationID).

Definition handleLookupCNPJ (args : Arguments) : run CallToolResult :=
  match RequireString args "cnpj" with
  | None => ret (NewToolResultError "Parameter 'cnpj' is required")
  | Some cnpjNum =>
      respond (@cnpj.GetCNPJ (world.net w) (world.decCNPJData w) cnpjNum)
  end.

Definition handleBCBSelic (args : Arguments) : run CallToolResult :=
  let lastN := getIntArg args "last_n" 30 in
  respond (@bcb.GetSELIC (world.net w) (world.decDataPoints w) lastN).

Definition handleBCBIPCA (args : Arguments) : run CallToolResult :=
  let lastN := getIntArg args "last_n" 12 in
  respond (@bcb.GetIPCA (world.net w) (world.decDataPoints w) lastN).

Definition handleBCBExchangeRate (args : Arguments) : run CallToolResult :=
  let currency := stringArg args "currency" in
  let date := stringArg args "date" in
  respond (@bcb.GetExchangeRate (world.net w) (world.decExchangeRates w)
             (world.today w) currency date).

Definition handleBCBIndicator (args : Arguments) : run CallToolResult :=
  match RequireString args "indicator" with
  | None => ret (NewToolResultError "Parameter 'indicator' is required")
  | Some indicator =>
      let lastN := getIntArg args "last_n" 30 in
      respond (@bcb.GetIndicator (world.net w) (world.decDataPoints w)
                 indicator lastN)
  end.

Definition handlePNCPContracts (args : Arguments) : run CallToolResult :=
  let startDate := default "" (RequireString args "start_date") in
  let endDate := default "" (RequireString args "end_date") in
  let state := stringArg args "state" in
  let modality := getIntArg args "modality" 6 in
  let page := getIntArg args "page" 1 in
  respond (@pncp.SearchContracts (world.net w) (world.decPncpContracts w)
             startDate endDate modality state page 50).

Definition handlePNCPModalities (args : Arguments) : run CallToolResult :=
  ret (toJSONResult pncp.ListModalities).

(** The tools [registerTransparenciaTools], [registerIBGETools],
    [registerCNPJTools], [registerBCBTools] and [registerPNCPTools] add to
    the server, by name. *)
Definition tools : list (string * (Arguments -> run CallToolResult)) :=
  [ ("search_contracts", handleSearchContracts);
    ("search_servidores", handleSearchServidores);
    ("get_remuneracao", handleGetRemuneracao);
    ("search_convenios", handleSearchConvenios);
    ("search_ceis", handleSearchCEIS);
    ("list_orgaos", handleListOrgaos);
    ("ibge_states", handleIBGEStates);
    ("ibge_municipalities", handleIBGEMunicipalities);
    ("ibge_population", handleIBGEPopulation);
    ("lookup_cnpj", handleLookupCNPJ);
    ("bcb_selic", handleBCBSelic);
    ("bcb_ipca", handleBCBIPCA);
    ("bcb_exchange_rate", handleBCBExchangeRate);
    ("bcb_indicator", handleBCBIndicator);
    ("pncp_contracts", handlePNCPContracts);
    ("pncp_modalities", handlePNCPModalities) ].
End handlers.
End server.

(* ===================================================================== *)
(** * More vocabulary: validation, defaults, echoes, decoders *)
(* ===================================================================== *)

Module views.
Import adapters.

(** The [Page] field, for the envelopes that have one. *)
Definition page (e : envelope) : option Z :=
  match e with
  | PncpContracts r => Some (pncp.ContractsResponse.Page r)
  | PriceRegistrations r => Some (pncp.PriceRegistrationsResponse.Page r)
  | Contracts r => Some (transparencia.ContractsResponse.Page r)
  | Servidores r => Some (transparencia.ServidoresResponse.Page r)
  | Convenios r => Some (transparencia.ConveniosResponse.Page r)
  | Sanctions r => Some (transparencia.CEISResponse.Page r)
  | _ => None
  end.

(** The page number an operation is called with. *)
Definition requestedPage (op : call) : option Z :=
  match op with
  | pncp_SearchContracts _ _ _ _ page _
  | pncp_SearchPriceRegistrations _ page _
  | transparencia_SearchContracts _ page _
  | transparencia_SearchServidores _ page _
  | transparencia_SearchConvenios _ page _
  | transparencia_SearchCEIS _ page _ => Some page
  | _ => None
  end.

(** The checks an operation makes on its arguments before it builds a
    request, and the error of the one that fails. *)
Definition validationError (op : call) : option error :=
  match op with
  | bcb_GetIndicator indicator _ =>
      match bcb.SeriesCodes !! indicator with
      | Some _ => None
      | None =>
          Some ("unknown indicator: " +:+ indicator
                +:+ ". Available: selic, selic_monthly, ipca, igpm, cdi")
      end
  | cnpj_GetCNPJ s =>
      match cnpj.formatCNPJ s with
      | Err e => Some e
      | _ => None
      end
  | transparencia_SearchServidores nome _ _ =>
      if decide (nome = "") then Some "nome is required" else None
  | transparencia_GetServidorRemuneracao cpf _ =>
      if decide (cpf = "") then Some "cpf is required" else None
  | _ => None
  end.

(** The operation with every default filled in and every bound applied,
    as the clients do it. *)
Definition normalize (w : world.t) (op : call) : call :=
  match op with
  | bcb_GetIndicator indicator lastN =>
      bcb_GetIndicator indicator (if lastN <=? 0 then 30 else lastN)
  | bcb_GetSELIC lastN =>
      bcb_GetIndicator "selic" (if lastN <=? 0 then 30 else lastN)
  | bcb_GetIPCA lastN =>
      bcb_GetIndicator "ipca" (if lastN <=? 0 then 30 else lastN)
  | bcb_GetExchangeRate currency date =>
      bcb_GetExchangeRate (spec.orElse "USD" currency)
        (spec.orElse (world.today w) date)
  | pncp_SearchContracts startDate endDate modalityCode state page ps =>
      pncp_SearchContracts startDate endDate
        (if modalityCode =? 0 then 6 else modalityCode) state
        (Z.max 1 page) (spec.clamp 10 500 ps)
  | pncp_SearchPriceRegistrations state page ps =>
      pncp_SearchPriceRegistrations state (Z.max 1 page)
        (spec.clamp 10 500 ps)
  | transparencia_SearchContracts orgaoCode page ps =>
      transparencia_SearchContracts (spec.orElse "36000" orgaoCode)
        (Z.max 1 page) (spec.orDefault 1 500 100 ps)
  | transparencia_SearchServidores nome page ps =>
      transparencia_SearchServidores nome (Z.max 1 page)
        (spec.orDefault 1 500 100 ps)
  | transparencia_GetServidorRemuneracao cpf mesAno =>
      transparencia_GetServidorRemuneracao cpf
        (spec.orElse (world.lastMonth w) mesAno)
  | transparencia_SearchConvenios uf page ps =>
      transparencia_SearchConvenios (spec.orElse "MG" uf) (Z.max 1 page)
        (spec.orDefault 1 500 100 ps)
  | transparencia_SearchCEIS s page ps =>
      transparencia_SearchCEIS s (Z.max 1 page) (spec.orDefault 1 500 100 ps)
  | cnpj_GetCNPJ s => cnpj_GetCNPJ (spec.stripNonDigits s)
  | bcb_GetPIXStats | ibge_GetStates | ibge_GetMunicipalities _
  | ibge_GetPopulation _ => op
  end.

(** What the decoder of an operation objects to in a body, if anything. *)
Definition decodeError (w : world.t) (op : call) (body : string)
  : option error :=
  let check {T} (r : error + T) : option error :=
    match r with inl e => Some e | inr _ => None end in
  match op with
  | bcb_GetIndicator _ _ | bcb_GetSELIC _ | bcb_GetIPCA _ =>
      check (world.decDataPoints w body)
  | bcb_GetExchangeRate _ _ => check (world.decExchangeRates w body)
  | bcb_GetPIXStats => check (world.decObject w body)
  | cnpj_GetCNPJ _ => check (world.decCNPJData w body)
  | ibge_GetStates => check (world.decStates w body)
  | ibge_GetMunicipalities _ => check (world.decMunicipalities w body)
  | ibge_GetPopulation _ => check (world.decObjects w body)
  | pncp_SearchContracts _ _ _ _ _ _ => check (world.decPncpContracts w body)
  | pncp_SearchPriceRegistrations _ _ _ =>
      check (world.decPriceRegistrations w body)
  | transparencia_SearchContracts _ _ _ => check (world.decContracts w body)
  | transparencia_SearchServidores _ _ _ =>
      check (world.decServidores w body)
  | transparencia_GetServidorRemuneracao _ _ =>
      check (world.decRemuneracoes w body)
  | transparencia_SearchConvenios _ _ _ => check (world.decConvenios w body)
  | transparencia_SearchCEIS _ _ _ => check (world.decCEIS w body)
  end.

(** The parameters an envelope echoes, as (field, value) pairs. *)
Definition echoes (e : envelope) : list (string * string) :=
  match e with
  | Indicator r => [ ("Indicator", bcb.IndicatorResponse.Indicator r) ]
  | ExchangeRates r =>
      [ ("Currency", bcb.ExchangeRateResponse.Currency r);
        ("Date", bcb.ExchangeRateResponse.Date r) ]
  | Municipalities r =>
      [ ("StateID", ibge.MunicipalitiesResponse.StateID r) ]
  | Contracts r =>
      [ ("OrgaoCode", transparencia.ContractsResponse.OrgaoCode r) ]
  | Remuneracao r =>
      [ ("CPF", transparencia.RemuneracaoResponse.CPF r);
        ("MesAno", transparencia.RemuneracaoResponse.MesAno r) ]
  | Convenios r => [ ("UF", transparencia.ConveniosResponse.UF r) ]
  | _ => []
  end.

(** What an operation is expected to echo, given its (normalized)
    arguments. *)
Definition echoed (op : call) : list (string * string) :=
  match op with
  | bcb_GetIndicator indicator _ => [ ("Indicator", indicator) ]
  | bcb_GetSELIC _ => [ ("Indicator", "selic") ]
  | bcb_GetIPCA _ => [ ("Indicator", "ipca") ]
  | bcb_GetExchangeRate currency date =>
      [ ("Currency", currency); ("Date", date) ]
  | ibge_GetMunicipalities stateID => [ ("StateID", stateID) ]
  | transparencia_SearchContracts orgaoCode _ _ =>
      [ ("OrgaoCode", orgaoCode) ]
  | transparencia_GetServidorRemuneracao cpf mesAno =>
      [ ("CPF", cpf); ("MesAno", mesAno) ]
  | transparencia_SearchConvenios uf _ _ => [ ("UF", uf) ]
  | _ => []
  end.

(** The headers of the requests of an operation. *)
Definition headers (w : world.t) (op : call) : list (string * string) :=
  match adapterOf op with
  | Transparencia =>
      [ ("Accept", "application/json");
        ("User-Agent", "MCP-Brasil/1.0 (Go)") ]
      ++ (if decide (world.apiKey w ≠ "")
          then [ ("chave-api-dados", world.apiKey w) ] else [])
  | _ => [ ("Accept", "application/json") ]
  end%list.

(** The figure of one year of a series. *)
Definition figure (Sprintf_v : json.value -> string) (nome : string)
    (entry : string * json.value) : ibge.PopulationData.t :=
  {| ibge.PopulationData.Location := nome;
     ibge.PopulationData.Year := entry.1;
     ibge.PopulationData.Population := Sprintf_v entry.2 |}.

(** The figures a series entry stands for, when [GetPopulation] can read
    it: the entry is an object with an object "localidade"; without an
    object "serie", or with an empty one, it stands for nothing;
    otherwise "localidade" has a string "nome" and there is one figure
    per year of "serie" (listed here as [map_to_list] lists the years;
    the program may visit them in any order).  [None] for any other
    entry. *)
Definition figuresOf (Sprintf_v : json.value -> string) (s : json.value)
  : option (list ibge.PopulationData.t) :=
  match s with
  | json.Object serie =>
      match serie !! "localidade" with
      | Some (json.Object localidade) =>
          match serie !! "serie" with
          | Some (json.Object serieData) =>
              match map_to_list serieData, localidade !! "nome" with
              | [], _ => Some []
              | entries, Some (json.Str nome) =>
                  Some (figure Sprintf_v nome <$> entries)
              | _, _ => None
              end
          | _ => Some []
          end
      | _ => None
      end
  | _ => None
  end.
End views.

(* ===================================================================== *)
(** * Proof tools *)
(* ===================================================================== *)

(** Unfolding a client operation down to the transport and the decoder,
    then splitting on what these answer. *)
Ltac unfold_client :=
  cbv beta delta
      [adapters.exec adapters.transparenciaClient transparencia.NewClient
       bcb.GetIndicator bcb.GetSELIC bcb.GetIPCA bcb.GetExchangeRate
       bcb.GetPIXStats bcb.doRequest cnpj.GetCNPJ
       ibge.GetStates ibge.GetMunicipalities ibge.GetPopulation ibge.doRequest
       pncp.SearchContracts pncp.SearchPriceRegistrations pncp.doRequest
       transparencia.SearchContracts transparencia.SearchServidores
       transparencia.GetServidorRemuneracao transparencia.SearchConvenios
       transparencia.SearchCEIS transparencia.doRequest
       mbind run_bind mret run_ret io.ReadAll
       httpclient.NewRequestWithContext httpclient.Do].

Ltac run_simpl :=
  cbn beta iota zeta delta
      [bind wrap lift of_sum ret fail adapters.mapRun issued result app
       http.StatusCode http.Body negb
       transparencia.httpClient transparencia.apiKey transparencia.baseURL].

Ltac run_case :=
  match goal with
  | |- context [bcb.SeriesCodes !! ?i] =>
      destruct (bcb.SeriesCodes !! i) eqn:?
  | |- context [cnpj.formatCNPJ ?s] => destruct (cnpj.formatCNPJ s) eqn:?
  | |- context [@decide ?P ?d] => destruct (@decide P d)
  | |- context [http.NewRequestError ?t ?u] =>
      destruct (http.NewRequestError t u) eqn:?
  | |- context [http.RoundTrip ?t ?r] =>
      destruct (http.RoundTrip t r) as [?|[? [?|?]]] eqn:?
  | |- context [(?a =? ?b)%Z] => destruct (Z.eqb_spec a b)
  | |- context [@json.unmarshal ?T ?U ?b] =>
      destruct (@json.unmarshal T U b) eqn:?
  | |- context [ibge.extractPopulation ?f ?o ?r] =>
      destruct (ibge.extractPopulation f o r) eqn:?
  end.

Ltac run_cases := unfold_client; run_simpl; repeat (run_case; run_simpl).


Lemma append_assoc (a b c : string) : (a +:+ b) +:+ c = a +:+ b +:+ c.
Proof.
  induction a as [|x a IH]; [reflexivity|].
  change (String x ((a +:+ b) +:+ c) = String x (a +:+ b +:+ c)).
  f_equal. exact IH.
Qed.

Lemma append_nil_r (a : string) : a +:+ "" = a.
Proof.
  induction a as [|x a IH]; [reflexivity|].
  change (String x (a +:+ "") = String x a). f_equal. exact IH.
Qed.

Lemma append_nil_l (s : string) : "" +:+ s = s.
Proof. reflexivity. Qed.

Lemma length_append (a b : string) :
  String.length (a +:+ b) = (String.length a + String.length b)%nat.
Proof.
  induction a as [|x a IH]; [reflexivity|].
  change (S (String.length (a +:+ b))
          = S (String.length a + String.length b)).
  f_equal. exact IH.
Qed.

Lemma contains_middle (pre sub post : string) :
  spec.contains sub (pre +:+ sub +:+ post).
Proof. exists pre, post. reflexivity. Qed.

Lemma contains_suffix (pre sub : string) : spec.contains sub (pre +:+ sub).
Proof. exists pre, "". rewrite append_nil_r. reflexivity. Qed.

Lemma contains_app_r (pre sub s : string) :
  spec.contains sub s -> spec.contains sub (pre +:+ s).
Proof.
  intros (a & b & ->). exists (pre +:+ a), b.
  rewrite append_assoc. reflexivity.
Qed.

Lemma substring_middle (pre sub post : string) :
  substring (String.length pre) (String.length sub) (pre +:+ sub +:+ post) = sub.
Proof.
  induction pre as [|x pre IH]; [|exact IH].
  rewrite append_nil_l. cbn [String.length].
  induction sub as [|y sub IH].
  - destruct post; reflexivity.
  - change (String y (substring 0 (String.length sub) (sub +:+ post))
            = String y sub).
    f_equal. exact IH.
Qed.

(** [String.index] decides occurrence of a non-empty string. *)
Lemma index_None_not_contains (sub s : string) :
  sub <> "" -> index 0 sub s = None -> ~ spec.contains sub s.
Proof.
  intros Hne Hidx (pre & post & ->).
  apply (index_correct3 0 (String.length pre) sub _ Hidx Hne); [lia|].
  apply substring_middle.
Qed.

Lemma apiError_carries (status : Z) (body : string) :
  spec.carries (spec.apiError status body) status body.
Proof.
  split; unfold spec.apiError.
  - apply contains_middle.
  - rewrite <- !append_assoc. apply contains_suffix.
Qed.

(* ===================================================================== *)
(** * Query strings ([url.Values.Encode]) *)
(* ===================================================================== *)

Lemma elem_of_insertSorted (x k : string) (l : list string) :
  x ∈ url.insertSorted k l <-> x = k \/ x ∈ l.
Proof.
  induction l as [|k' l IH]; cbn.
  - rewrite list_elem_of_singleton, elem_of_nil. tauto.
  - destruct (String.leb k k'); rewrite !elem_of_cons; [tauto|].
    rewrite IH. tauto.
Qed.

(** Sorting keeps the keys. *)
Lemma elem_of_sortStrings (x : string) (l : list string) :
  x ∈ url.sortStrings l <-> x ∈ l.
Proof.
  unfold url.sortStrings. induction l as [|k l IH]; cbn; [reflexivity|].
  rewrite elem_of_insertSorted, elem_of_cons, IH. tauto.
Qed.

Lemma join_contains (sep x : string) (l : list string) :
  x ∈ l -> spec.contains x (url.join sep l).
Proof.
  induction l as [|y l IH]; intros Hin; [apply elem_of_nil in Hin; tauto|].
  apply elem_of_cons in Hin as [->|Hin].
  - destruct l as [|z l].
    + exists "", "". rewrite append_nil_r. reflexivity.
    + change (url.join sep (y :: z :: l))
        with (y +:+ sep +:+ url.join sep (z :: l)).
      exists "", (sep +:+ url.join sep (z :: l)). reflexivity.
  - destruct (IH Hin) as (pre & post & Heq).
    destruct l as [|z l]; [apply elem_of_nil in Hin; tauto|].
    change (url.join sep (y :: z :: l))
      with (y +:+ sep +:+ url.join sep (z :: l)).
    rewrite Heq.
    exists (y +:+ sep +:+ pre), post. rewrite !append_assoc. reflexivity.
Qed.

(** A parameter of the map is a "key=value" pair of the query string. *)
Lemma Encode_contains (q : url.Values) (k v : string) :
  q !! k = Some [v] ->
  spec.contains (url.QueryEscape k +:+ "=" +:+ url.QueryEscape v)
    (url.Encode q).
Proof.
  intros Hk. unfold url.Encode. apply join_contains.
  apply list_elem_of_In, in_flat_map. exists k. split.
  - apply list_elem_of_In, elem_of_sortStrings.
    apply (list_elem_of_fmap_2 fst (map_to_list q) (k, [v])).
    apply elem_of_map_to_list. exact Hk.
  - rewrite Hk. cbn. left. reflexivity.
Qed.

Lemma QueryEscape_uint (d : Decimal.uint) :
  url.QueryEscape (NilEmpty.string_of_uint d) = NilEmpty.string_of_uint d.
Proof. induction d; cbn; [reflexivity|rewrite IHd; reflexivity..]. Qed.

(** A printed integer needs no escaping. *)
Lemma QueryEscape_d (n : Z) : url.QueryEscape (fmt.d n) = fmt.d n.
Proof.
  unfold fmt.d, NilZero.string_of_int.
  destruct (Z.to_int n) as [[]|[]]; try reflexivity;
    cbn -[NilEmpty.string_of_uint url.QueryEscape];
    try (apply (QueryEscape_uint (_ _))).
  all: change (url.QueryEscape (String "-" ?s))
         with (String "-" (url.QueryEscape s)).
  all: cbn [url.QueryEscape]; f_equal; apply (QueryEscape_uint (_ _)).
Qed.
(* ===================================================================== *)
(** * Company identifiers (package cnpj) *)
(* ===================================================================== *)

Section cnpj_facts.
Import cnpj.

Lemma digitsOf_app (a b : string) :
  digitsOf (a +:+ b) = digitsOf a +:+ digitsOf b.
Proof.
  unfold digitsOf. induction a as [|x a IH]; simpl; [reflexivity|].
  destruct (isDigit x); simpl; rewrite IH; reflexivity.
Qed.

(** Every character [formatCNPJ] keeps is a digit. *)
Lemma digitsOf_digits (s : string) :
  Forall (fun r => isDigit r = true) (list_ascii_of_string (digitsOf s)).
Proof.
  unfold digitsOf. induction s as [|x s IH]; simpl; [constructor|].
  destruct (isDigit x) eqn:E; simpl; auto.
Qed.

Lemma digitsOf_fixed (d : string) :
  Forall (fun r => isDigit r = true) (list_ascii_of_string d) ->
  digitsOf d = d.
Proof.
  unfold digitsOf. induction d as [|x d IH]; simpl; [reflexivity|].
  intros H. inversion H as [|? ? Hx Hd]; subst.
  rewrite Hx. f_equal. auto.
Qed.

Lemma digitsOf_substring (d : string) (n m : nat) :
  Forall (fun r => isDigit r = true) (list_ascii_of_string d) ->
  digitsOf (substring n m d) = substring n m d.
Proof.
  intros H. apply digitsOf_fixed. revert n m.
  induction d as [|x d IH]; intros n m; simpl.
  - destruct n, m; constructor.
  - inversion H as [|? ? Hx Hd]; subst.
    destruct n; destruct m; simpl; try constructor; auto.
Qed.

(** Cutting a string at [n] and gluing the pieces gives it back. *)
Lemma substring_glue (d : string) (n m k : nat) :
  substring n m d +:+ substring (n + m) k d = substring n (m + k) d.
Proof.
  revert n m. induction d as [|x d IH]; intros n m; simpl.
  - destruct n, m, k; reflexivity.
  - destruct n; simpl.
    + destruct m; simpl.
      * destruct k; reflexivity.
      * rewrite <- (IH 0%nat m). reflexivity.
    + apply IH.
Qed.

Lemma substring_glue' (d : string) (n m k p q : nat) :
  p = (n + m)%nat -> q = (m + k)%nat ->
  substring n m d +:+ substring p k d = substring n q d.
Proof. intros -> ->. apply substring_glue. Qed.

Lemma length_substring (d : string) (n m : nat) :
  (n + m <= String.length d)%nat ->
  String.length (substring n m d) = m.
Proof.
  revert n m. induction d as [|x d IH]; intros n m H; cbn in *.
  - destruct n, m; cbn in *; lia.
  - destruct n as [|n].
    + destruct m as [|m]; cbn; [reflexivity|]. f_equal. apply IH. lia.
    + apply IH. lia.
Qed.

Lemma substring_all (d : string) : substring 0 (String.length d) d = d.
Proof. induction d; simpl; congruence. Qed.

Lemma formatCNPJ_ok (s : string) :
  String.length (digitsOf s) = 14%nat ->
  formatCNPJ s =
    Ok (slice (digitsOf s) 0 2 +:+ "." +:+ slice (digitsOf s) 2 5 +:+ "."
        +:+ slice (digitsOf s) 5 8 +:+ "/" +:+ slice (digitsOf s) 8 12
        +:+ "-" +:+ slice (digitsOf s) 12 14).
Proof. intros H. unfold formatCNPJ. rewrite H. reflexivity. Qed.

Lemma formatCNPJ_err (s : string) :
  String.length (digitsOf s) <> 14%nat ->
  formatCNPJ s =
    Err ("invalid CNPJ: must have 14 digits, got "
         +:+ fmt.d (Z.of_nat (String.length (digitsOf s)))).
Proof.
  intros H. unfold formatCNPJ.
  destruct (Nat.eqb_spec (String.length (digitsOf s)) 14); [tauto|reflexivity].
Qed.

(** The digits of a formatted identifier are the digits it was made of. *)
Lemma digitsOf_formatted (d : string) :
  Forall (fun r => isDigit r = true) (list_ascii_of_string d) ->
  String.length d = 14%nat ->
  digitsOf (slice d 0 2 +:+ "." +:+ slice d 2 5 +:+ "." +:+ slice d 5 8
            +:+ "/" +:+ slice d 8 12 +:+ "-" +:+ slice d 12 14) = d.
Proof.
  intros Hd Hlen. unfold slice.
  rewrite !digitsOf_app, !digitsOf_substring by assumption.
  change (digitsOf ".") with "". change (digitsOf "/") with "".
  change (digitsOf "-") with "". rewrite !append_nil_l.
  cbn [Nat.sub].
  rewrite (substring_glue' d 8 4 2 12 6) by reflexivity.
  rewrite (substring_glue' d 5 3 6 8 9) by reflexivity.
  rewrite (substring_glue' d 2 3 9 5 12) by reflexivity.
  rewrite (substring_glue' d 0 2 12 2 14) by reflexivity.
  rewrite <- Hlen. apply substring_all.
Qed.

(** The characters [formatCNPJ] keeps are the ten decimal digits. *)
Lemma isDigit_decimal (r : ascii) :
  isDigit r = bool_decide (r ∈ spec.decimalDigits).
Proof.
  destruct r as [[] [] [] [] [] [] [] []]; vm_compute; reflexivity.
Qed.

Lemma digitsOf_strip (s : string) : digitsOf s = spec.stripNonDigits s.
Proof.
  unfold digitsOf, spec.stripNonDigits.
  induction s as [|r s IH]; [reflexivity|].
  cbn [gostrings.Map list_ascii_of_string].
  rewrite filter_cons, isDigit_decimal.
  destruct (decide (r ∈ spec.decimalDigits)) as [Hr|Hr].
  - rewrite (bool_decide_eq_true_2 _ Hr). cbn [string_of_list_ascii].
    f_equal. exact IH.
  - rewrite (bool_decide_eq_false_2 _ Hr). exact IH.
Qed.

Lemma slices_punctuated (digits : string) :
  slice digits 0 2 +:+ "." +:+ slice digits 2 5 +:+ "."
  +:+ slice digits 5 8 +:+ "/" +:+ slice digits 8 12 +:+ "-"
  +:+ slice digits 12 14
  = spec.punctuated digits.
Proof. reflexivity. Qed.

(** The digits of a punctuated identifier are the digits it was made
    of. *)
Lemma strip_punctuated (s : string) :
  String.length (spec.stripNonDigits s) = 14%nat ->
  spec.stripNonDigits (spec.punctuated (spec.stripNonDigits s))
  = spec.stripNonDigits s.
Proof.
  rewrite <- !digitsOf_strip, <- slices_punctuated. intros Hlen.
  apply (digitsOf_formatted (digitsOf s) (digitsOf_digits s) Hlen).
Qed.
End cnpj_facts.

Section cnpj_claims.
Import cnpj.
Context (c : http.Transport) `{!json.Unmarshal CNPJData}.

(** The only request [GetCNPJ] can issue asks for the formatted
    identifier. *)
Lemma GetCNPJ_issued (s : string) (req : http.Request) :
  req ∈ issued (GetCNPJ c s) ->
  exists formatted,
    formatCNPJ s = Ok formatted /\
    http.NewRequestError c (BaseURL +:+ "/" +:+ formatted) = None /\
    req = {| http.Method := "GET";
             http.URL := BaseURL +:+ "/" +:+ formatted;
             http.Header := [("Accept", "application/json")] |}.
Proof.
  run_cases; intros Hin.
  all: try (apply elem_of_nil in Hin; contradiction).
  all: apply list_elem_of_singleton in Hin; subst req; eauto.
Qed.

Lemma GetCNPJ_issues (s formatted : string) :
  formatCNPJ s = Ok formatted ->
  http.NewRequestError c (BaseURL +:+ "/" +:+ formatted) = None ->
  issued (GetCNPJ c s) =
    [ {| http.Method := "GET";
         http.URL := BaseURL +:+ "/" +:+ formatted;
         http.Header := [("Accept", "application/json")] |} ].
Proof.
  intros Hf Hreq. unfold_client. rewrite Hf. run_simpl. rewrite Hreq.
  run_simpl. repeat (run_case; run_simpl); reflexivity.
Qed.

(** C3. For any input string, the decimal digits that remain after
    stripping every other character decide the outcome.  With exactly
    14 of them [formatCNPJ] returns them in the form XX.XXX.XXX/XXXX-XX,
    and that identifier is the path of every request [GetCNPJ] issues
    (and one is issued as soon as [net/http] accepts the URL).  With
    any other count [GetCNPJ] fails with the validation error that
    reports the count, and issues no request. *)
Theorem GetCNPJ_requires_14_digits (s : string) :
  let digits := spec.stripNonDigits s in
  (String.length digits = 14%nat ->
   let formatted := spec.punctuated digits in
   formatCNPJ s = Ok formatted /\
   String.length formatted = 18%nat /\
   (forall req, req ∈ issued (GetCNPJ c s) ->
      http.URL req = "https://minhareceita.org/" +:+ formatted) /\
   (http.NewRequestError c ("https://minhareceita.org/" +:+ formatted)
      = None ->
    exists req, issued (GetCNPJ c s) = [req])) /\
  (String.length digits <> 14%nat ->
   let e := "invalid CNPJ: must have 14 digits, got "
            +:+ fmt.d (Z.of_nat (String.length digits)) in
   formatCNPJ s = Err e /\ GetCNPJ c s = mkRun [] (Err e)).
Proof.
  intros digits. subst digits. rewrite <- digitsOf_strip. split.
  - intros Hlen formatted.
    pose proof (formatCNPJ_ok s Hlen) as Hf.
    rewrite slices_punctuated in Hf. fold formatted in Hf.
    split; [exact Hf|]. split; [|split].
    + subst formatted. unfold spec.punctuated. rewrite !length_append.
      rewrite !length_substring by (rewrite Hlen; cbn; lia). reflexivity.
    + intros req Hin. apply GetCNPJ_issued in Hin as (f & Hf' & _ & ->).
      rewrite Hf in Hf'. injection Hf' as <-. reflexivity.
    + intros Hreq. eexists. apply (GetCNPJ_issues s formatted Hf Hreq).
  - intros Hlen e. pose proof (formatCNPJ_err s Hlen) as Hf.
    split; [exact Hf|]. unfold_client. rewrite Hf. reflexivity.
Qed.

(** C10. Normalization is idempotent and accepts its own output: for
    every input with exactly 14 decimal digits, [formatCNPJ] succeeds
    with these digits in the form XX.XXX.XXX/XXXX-XX; applied to its own
    (punctuated) result it succeeds again with the same string; and so
    it does on the bare digits and on every other input that has the
    same digits: with or without punctuation, the one canonical form. *)
Theorem formatCNPJ_idempotent (s : string) :
  String.length (spec.stripNonDigits s) = 14%nat ->
  exists formatted,
    formatted = spec.punctuated (spec.stripNonDigits s) /\
    formatCNPJ s = Ok formatted /\
    formatCNPJ formatted = Ok formatted /\
    formatCNPJ (spec.stripNonDigits s) = Ok formatted /\
    (forall s',
       spec.stripNonDigits s' = spec.stripNonDigits s ->
       formatCNPJ s' = Ok formatted).
Proof.
  intros Hlen. eexists. split; [reflexivity|].
  assert (forall s',
            spec.stripNonDigits s' = spec.stripNonDigits s ->
            formatCNPJ s'
            = Ok (spec.punctuated (spec.stripNonDigits s))) as Hsame.
  { intros s' Hs'. rewrite <- Hs' in Hlen |- *.
    rewrite <- digitsOf_strip in Hlen |- *.
    rewrite (formatCNPJ_ok s' Hlen). reflexivity. }
  split; [apply Hsame; reflexivity|].
  split; [apply Hsame, strip_punctuated, Hlen|].
  split; [|exact Hsame].
  apply Hsame. rewrite <- !digitsOf_strip.
  apply digitsOf_fixed, digitsOf_digits.
Qed.

(** What [GetCNPJ] makes of the status of an answer whose body was
    read. *)
Lemma GetCNPJ_status_cases
    (s : string) (req : http.Request) (status : Z) (body : string) :
  req ∈ issued (GetCNPJ c s) ->
  http.RoundTrip c req
    = inr {| http.StatusCode := status; http.Body := inr body |} ->
  exists formatted,
    formatCNPJ s = Ok formatted /\
    (status = 404 ->
     result (GetCNPJ c s) = Err ("CNPJ not found: " +:+ formatted)) /\
    (status <> 404 -> status <> 200 ->
     result (GetCNPJ c s) = Err (spec.apiError status body)).
Proof.
  intros Hin Hrt.
  destruct (GetCNPJ_issued s req Hin) as (formatted & Hf & Hreq & ->).
  exists formatted. split; [exact Hf|]. split.
  - intros ->. unfold_client. rewrite Hf. run_simpl. rewrite Hreq.
    run_simpl. unfold http.Header_Set, http.MethodGet.
    cbn [http.Method http.URL http.Header app].
    rewrite Hrt. run_simpl. reflexivity.
  - intros H404 H200. unfold_client. rewrite Hf. run_simpl. rewrite Hreq.
    run_simpl. unfold http.Header_Set, http.MethodGet.
    cbn [http.Method http.URL http.Header app].
    rewrite Hrt. run_simpl.
    destruct (Z.eqb_spec status http.StatusNotFound); [contradiction|].
    destruct (Z.eqb_spec status http.StatusOK); [contradiction|].
    reflexivity.
Qed.
End cnpj_claims.

(** The scenarios of the specification: "12345678000190" is formatted as
    "12.345.678/0001-90", and "1234" is rejected with its digit count.
    Characters that are no digits do not count: an identifier given
    with punctuation and text around it is accepted, and thirteen
    digits followed by a letter are thirteen digits. *)
Lemma GetCNPJ_requires_14_digits_witness :
  cnpj.formatCNPJ "12345678000190" = Ok "12.345.678/0001-90" /\
  cnpj.formatCNPJ "CNPJ 12.345.678/0001-90 (matriz)"
  = Ok "12.345.678/0001-90" /\
  @cnpj.GetCNPJ (fixtures.upstream 200 "{}")
     (fixtures.decodesTo fixtures.emptyCompany) "1234"
  = mkRun [] (Err "invalid CNPJ: must have 14 digits, got 4") /\
  @cnpj.GetCNPJ (fixtures.upstream 200 "{}")
     (fixtures.decodesTo fixtures.emptyCompany) "1234567800019x"
  = mkRun [] (Err "invalid CNPJ: must have 14 digits, got 13").
Proof.
  split; [|split; [|split]].
  - apply (@GetCNPJ_requires_14_digits (fixtures.upstream 200 "{}")
             (fixtures.decodesTo fixtures.emptyCompany) "12345678000190").
    reflexivity.
  - apply (@GetCNPJ_requires_14_digits (fixtures.upstream 200 "{}")
             (fixtures.decodesTo fixtures.emptyCompany)
             "CNPJ 12.345.678/0001-90 (matriz)").
    reflexivity.
  - apply (@GetCNPJ_requires_14_digits (fixtures.upstream 200 "{}")
             (fixtures.decodesTo fixtures.emptyCompany) "1234").
    vm_compute. discriminate.
  - apply (@GetCNPJ_requires_14_digits (fixtures.upstream 200 "{}")
             (fixtures.decodesTo fixtures.emptyCompany) "1234567800019x").
    vm_compute. discriminate.
Defined.

(** With or without punctuation, the same canonical form. *)
Lemma formatCNPJ_idempotent_witness :
  String.length (spec.stripNonDigits "12345678000190") = 14%nat /\
  exists formatted,
    formatted = "12.345.678/0001-90" /\
    cnpj.formatCNPJ "12345678000190" = Ok formatted /\
    cnpj.formatCNPJ formatted = Ok formatted /\
    cnpj.formatCNPJ "12345678000190" = Ok formatted /\
    (forall s',
       spec.stripNonDigits s' = "12345678000190" ->
       cnpj.formatCNPJ s' = Ok formatted).
Proof.
  split; [reflexivity|].
  apply (formatCNPJ_idempotent "12345678000190"). reflexivity.
Defined.


(* ===================================================================== *)
(** * Indicator names (package bcb) *)
(* ===================================================================== *)

Section bcb_claims.
Context (c : http.Transport) `{!json.Unmarshal (list bcb.DataPoint.t)}.

Lemma SeriesCodes_lookup (name : string) (code : Z) :
  bcb.SeriesCodes !! name = Some code <->
  (name, code) ∈ [ ("selic", 11); ("selic_monthly", 4390); ("ipca", 433);
                   ("igpm", 189); ("cdi", 12) ].
Proof.
  unfold bcb.SeriesCodes. symmetry. apply elem_of_list_to_map.
  compute_done.
Qed.

Lemma SeriesCodes_unknown (name : string) :
  name ∉ ["selic"; "selic_monthly"; "ipca"; "igpm"; "cdi"] ->
  bcb.SeriesCodes !! name = None.
Proof.
  intros Hout. destruct (bcb.SeriesCodes !! name) as [code|] eqn:E;
    [|reflexivity].
  exfalso. apply Hout. apply SeriesCodes_lookup in E.
  apply (list_elem_of_fmap_2 fst) in E. exact E.
Qed.

(** C4. The table maps exactly the five names selic, selic_monthly, ipca,
    igpm and cdi to the series codes 11, 4390, 433, 189 and 12; for every
    other name [GetIndicator] fails with a validation error that lists
    the valid names, and issues no request. *)
Theorem GetIndicator_series_table :
  (forall name code,
     bcb.SeriesCodes !! name = Some code <->
     (name, code) ∈ [ ("selic", 11); ("selic_monthly", 4390);
                      ("ipca", 433); ("igpm", 189); ("cdi", 12) ]) /\
  (forall name lastN,
     name ∉ ["selic"; "selic_monthly"; "ipca"; "igpm"; "cdi"] ->
     let e := "unknown indicator: " +:+ name
              +:+ ". Available: selic, selic_monthly, ipca, igpm, cdi" in
     bcb.GetIndicator c name lastN = mkRun [] (Err e) /\
     (forall valid,
        valid ∈ ["selic"; "selic_monthly"; "ipca"; "igpm"; "cdi"] ->
        spec.contains valid e)).
Proof.
  split; [exact SeriesCodes_lookup|].
  intros name lastN Hout e. split.
  - unfold bcb.GetIndicator. rewrite (SeriesCodes_unknown name Hout).
    reflexivity.
  - intros valid Hvalid. subst e.
    repeat (apply elem_of_cons in Hvalid as [->|Hvalid]);
      [| | | | | apply elem_of_nil in Hvalid; contradiction].
    + exists ("unknown indicator: " +:+ name +:+ ". Available: "),
        ", selic_monthly, ipca, igpm, cdi".
      rewrite !append_assoc. reflexivity.
    + exists ("unknown indicator: " +:+ name +:+ ". Available: selic, "),
        ", ipca, igpm, cdi".
      rewrite !append_assoc. reflexivity.
    + exists ("unknown indicator: " +:+ name
              +:+ ". Available: selic, selic_monthly, "),
        ", igpm, cdi".
      rewrite !append_assoc. reflexivity.
    + exists ("unknown indicator: " +:+ name
              +:+ ". Available: selic, selic_monthly, ipca, "),
        ", cdi".
      rewrite !append_assoc. reflexivity.
    + exists ("unknown indicator: " +:+ name
              +:+ ". Available: selic, selic_monthly, ipca, igpm, "), "".
      rewrite !append_assoc. reflexivity.
Qed.
End bcb_claims.

(** The scenario of the specification: "dollar" is not in the table. *)
Lemma GetIndicator_series_table_witness :
  ("dollar" ∉ ["selic"; "selic_monthly"; "ipca"; "igpm"; "cdi"]) /\
  @bcb.GetIndicator (fixtures.upstream 200 "[]") (fixtures.decodesTo [])
     "dollar" 30
  = mkRun []
      (Err "unknown indicator: dollar. Available: selic, selic_monthly, ipca, igpm, cdi").
Proof.
  assert ("dollar" ∉ ["selic"; "selic_monthly"; "ipca"; "igpm"; "cdi"])
    as Hout by compute_done.
  split; [exact Hout|].
  apply (proj2 (@GetIndicator_series_table (fixtures.upstream 200 "[]")
                  (fixtures.decodesTo [])) "dollar" 30 Hout).
Defined.

(** A name of the table is turned into its series code in the request. *)
Example GetIndicator_selic_request :
  issued (@bcb.GetIndicator (fixtures.upstream 200 "[]")
            (fixtures.decodesTo []) "selic" 0)
  = [ {| http.Method := "GET";
         http.URL :=
           "https://api.bcb.gov.br/dados/serie/bcdata.sgs.11/dados/ultimos/30?formato=json";
         http.Header := [("Accept", "application/json")] |} ].
Proof. vm_compute. reflexivity. Qed.

(* ===================================================================== *)
(** * Page sizes and query strings (packages pncp and transparencia) *)
(* ===================================================================== *)

Lemma clamp_cases (lo hi x : Z) :
  lo <= hi ->
  (x < lo -> spec.clamp lo hi x = lo) /\
  (hi < x -> spec.clamp lo hi x = hi) /\
  (lo <= x <= hi -> spec.clamp lo hi x = x).
Proof.
  intros Hle. unfold spec.clamp.
  destruct (Z.ltb_spec x lo), (Z.ltb_spec hi x); repeat split; lia.
Qed.

Lemma orDefault_cases (lo hi dflt x : Z) :
  (lo <= x <= hi -> spec.orDefault lo hi dflt x = x) /\
  (x < lo \/ hi < x -> spec.orDefault lo hi dflt x = dflt).
Proof.
  unfold spec.orDefault.
  destruct (Z.leb_spec lo x), (Z.leb_spec x hi); cbn; split; lia.
Qed.

Lemma pncp_effectivePageSize_clamp (pageSize : Z) :
  pncp.effectivePageSize pageSize = spec.clamp 10 500 pageSize.
Proof.
  unfold pncp.effectivePageSize, spec.clamp. rewrite Z.gtb_ltb. reflexivity.
Qed.

Lemma transparencia_effectivePageSize_orDefault (pageSize : Z) :
  transparencia.effectivePageSize pageSize = spec.orDefault 1 500 100 pageSize.
Proof.
  unfold transparencia.effectivePageSize, spec.orDefault.
  rewrite Z.gtb_ltb.
  destruct (Z.ltb_spec pageSize 1), (Z.ltb_spec 500 pageSize),
    (Z.leb_spec 1 pageSize), (Z.leb_spec pageSize 500); cbn; lia.
Qed.

Lemma pncp_effectivePage_max (page : Z) : pncp.effectivePage page = Z.max 1 page.
Proof. unfold pncp.effectivePage. destruct (Z.ltb_spec page 1); lia. Qed.

Lemma transparencia_effectivePage_max (page : Z) :
  transparencia.effectivePage page = Z.max 1 page.
Proof. unfold transparencia.effectivePage. destruct (Z.ltb_spec page 1); lia. Qed.

Ltac unfold_params :=
  cbv beta delta
    [pncp.SearchContracts_params pncp.SearchPriceRegistrations_params
     transparencia.SearchContracts_params
     transparencia.SearchServidores_params
     transparencia.GetServidorRemuneracao_params
     transparencia.SearchConvenios_params transparencia.SearchCEIS_params
     url.Set_];
  cbv zeta.

Section query_facts.
Context (w : world.t).
Import adapters.

Lemma params_nonempty (op : call) (q : url.Values) :
  spec.params w op = Some q -> q ≠ ∅.
Proof.
  destruct op; intros [= <-]; unfold_params;
    repeat case_decide; apply insert_non_empty.
Qed.

(** The operations that build a query string request their endpoint
    with exactly that query. *)
Lemma exec_request_url (op : call) (e : string) (q : url.Values)
    (req : http.Request) :
  spec.endpoint op = Some e ->
  spec.params w op = Some q ->
  req ∈ issued (exec w op) ->
  http.URL req = e +:+ "?" +:+ url.Encode q.
Proof.
  intros He Hq. pose proof (params_nonempty op q Hq) as Hne. revert Hne.
  destruct op; try discriminate He;
    injection He as <-; injection Hq as <-; intros Hne.
  all: run_cases; intros Hin.
  all: try (apply elem_of_nil in Hin; contradiction).
  all: try contradiction.
  all: apply list_elem_of_singleton in Hin; subst req; reflexivity.
Qed.

(** The query an operation builds is the one its two tables describe. *)
Lemma params_queryOf (op : call) (q : url.Values) :
  spec.params w op = Some q ->
  q = spec.queryOf (spec.alwaysSent w op) (spec.optional op).
Proof.
  intros Hq.
  destruct op; try discriminate Hq; injection Hq as <-.
  all: unfold_params; unfold spec.queryOf, spec.alwaysSent, spec.optional,
         spec.orElse.
  all: rewrite ?pncp_effectivePageSize_clamp,
               ?transparencia_effectivePageSize_orDefault,
               ?pncp_effectivePage_max, ?transparencia_effectivePage_max.
  all: try (rewrite filter_cons, filter_nil; cbn [snd]).
  all: repeat case_decide; try contradiction; subst.
  all: apply map_eq; intros k; cbn; simplify_map_eq.
  all: repeat (rewrite lookup_insert; case_decide; subst;
               simplify_map_eq); try reflexivity.
Qed.

(** The operations that build a query string request the URL their
    tables describe. *)
Lemma exec_queried (op : call) (q : url.Values) (req : http.Request) :
  spec.params w op = Some q ->
  req ∈ issued (exec w op) ->
  spec.queried w op = Some (http.URL req).
Proof.
  intros Hq Hin. unfold spec.queried.
  destruct (spec.endpoint op) as [e|] eqn:He; [|destruct op; discriminate].
  rewrite (exec_request_url op e q req He Hq Hin).
  rewrite (params_queryOf op q Hq). reflexivity.
Qed.

(** Every operation requests the URL the specification describes, and
    requests nothing when its arguments are rejected. *)
Lemma exec_target (op : call) :
  (forall req, req ∈ issued (exec w op) ->
     spec.target w op = Some (http.URL req)) /\
  (spec.target w op = None -> issued (exec w op) = []).
Proof.
  split.
  - intros req Hin.
    destruct (spec.params w op) as [q|] eqn:Hq.
    + pose proof (exec_queried op q req Hq Hin) as Hurl.
      destruct op; try discriminate Hq; cbn [spec.target]; try exact Hurl.
      all: case_decide; [|exact Hurl].
      all: subst; revert Hin; run_cases; intros Hin;
        first [congruence|apply elem_of_nil in Hin; contradiction].
    + destruct op; try discriminate Hq; clear Hq; cbn [spec.target].
      all: try (revert Hin; run_cases; intros Hin;
                try (apply elem_of_nil in Hin; contradiction);
                apply list_elem_of_singleton in Hin; subst req;
                unfold spec.seriesURL, spec.lastNOrDefault, spec.orElse;
                repeat match goal with
                       | H : bcb.SeriesCodes !! _ = _ |- _ =>
                           first [rewrite H
                                 |vm_compute in H; injection H as <-]
                       end;
                repeat case_decide; try contradiction; subst;
                cbn [http.URL]; rewrite ?append_nil_l;
                reflexivity).
      revert Hin. cbn [exec]. unfold mapRun.
      set (r := cnpj.GetCNPJ _ _).
      assert (issued r = issued (@cnpj.GetCNPJ (world.net w)
                                   (world.decCNPJData w) cnpj)) as Hr
        by reflexivity.
      intros Hin.
      assert (req ∈ issued r) as Hin' by (destruct r as [t [| |]]; exact Hin).
      rewrite Hr in Hin'.
      apply GetCNPJ_issued in Hin' as (formatted & Hf & _ & ->).
      cbn [http.URL].
      destruct (decide (String.length (spec.stripNonDigits cnpj) = 14%nat))
        as [Hlen|Hlen]; rewrite <- digitsOf_strip in Hlen.
      * rewrite (formatCNPJ_ok _ Hlen), slices_punctuated in Hf.
        injection Hf as <-. rewrite digitsOf_strip. reflexivity.
      * rewrite (formatCNPJ_err _ Hlen) in Hf. discriminate Hf.
  - intros Hnone. destruct op; cbn [spec.target] in Hnone;
      unfold spec.queried, spec.seriesURL in Hnone;
      cbn [spec.endpoint] in Hnone;
      try discriminate Hnone.
    all: try (case_decide; [|discriminate Hnone]; subst;
              run_cases; first [reflexivity|congruence]).
    all: try (run_cases; try reflexivity;
              match goal with
              | H : bcb.SeriesCodes !! _ = Some _ |- _ =>
                  first [rewrite H in Hnone; discriminate Hnone
                        |vm_compute in Hnone; discriminate Hnone]
              end).
    case_decide as Hlen; [discriminate Hnone|].
    rewrite <- digitsOf_strip in Hlen. cbn [exec].
    assert (@cnpj.GetCNPJ (world.net w) (world.decCNPJData w) cnpj
            = mkRun [] (Err ("invalid CNPJ: must have 14 digits, got "
                             +:+ fmt.d (Z.of_nat (String.length
                                                    (cnpj.digitsOf cnpj))))))
      as ->; [|reflexivity].
    unfold_client. rewrite (formatCNPJ_err _ Hlen). reflexivity.
Qed.

(** The request goes out as soon as [net/http] accepts the URL. *)
Lemma exec_issues (op : call) (u : string) :
  spec.target w op = Some u ->
  http.NewRequestError (world.net w) u = None ->
  exists req, issued (exec w op) = [req].
Proof.
  intros Ht Hreq.
  assert (forall U e,
            http.NewRequestError (world.net w) U = Some e ->
            U = u -> False) as Hrefused.
  { intros U e HU ->. rewrite Hreq in HU. discriminate HU. }
  destruct (spec.params w op) as [q|] eqn:Hq.
  - pose proof (params_queryOf op q Hq) as Heq.
    pose proof (params_nonempty op q Hq) as Hne.
    revert Ht Heq Hne.
    destruct op; try discriminate Hq; injection Hq as <-;
      cbn [spec.target]; unfold spec.queried; cbn [spec.endpoint];
      intros Ht Heq Hne.
    all: try (case_decide; [discriminate Ht|]).
    all: injection Ht as Ht; cbn [spec.alwaysSent spec.optional] in Heq;
      rewrite <- Heq in Ht.
    all: revert Hne; run_cases; intros Hne; try (eexists; reflexivity).
    all: try contradiction.
    all: exfalso; (eapply Hrefused; [eassumption|exact Ht]).
  - revert Ht.
    destruct op; try discriminate Hq; clear Hq; cbn [spec.target];
      unfold spec.seriesURL, spec.lastNOrDefault, spec.orElse; intros Ht.
    all: try (run_cases; try (eexists; reflexivity);
              repeat match goal with
                     | H : bcb.SeriesCodes !! _ = _ |- _ =>
                         first [rewrite H in Ht
                               |vm_compute in H; injection H as <-]
                     end;
              repeat case_decide; try contradiction; subst;
              try discriminate Ht; injection Ht as Ht;
              exfalso; (eapply Hrefused; [eassumption|exact Ht])).
    case_decide as Hlen; [|discriminate Ht]. injection Ht as Ht.
    rewrite <- digitsOf_strip in Hlen, Ht.
    cbn [exec]. unfold_client.
    rewrite (formatCNPJ_ok _ Hlen), slices_punctuated. run_simpl.
    change (cnpj.BaseURL +:+ "/" +:+ spec.punctuated (cnpj.digitsOf cnpj))
      with ("https://minhareceita.org/"
            +:+ spec.punctuated (cnpj.digitsOf cnpj)).
    rewrite Ht, Hreq. run_simpl. repeat (run_case; run_simpl).
    all: eexists; reflexivity.
Qed.
End query_facts.

Section query_claims.
Context (w : world.t).
Import adapters.

(** C1, as the code has it.  The two PNCP searches clamp the page size
    into [10..500]; the four Transparencia searches keep a page size of
    [1..500] and replace any other by the default 100.  That effective
    page size is the [tamanhoPagina] of the query of every request the
    operation issues, and the [PageSize] of its envelope (the envelope
    of the PNCP price registrations has no such field). *)
Theorem page_size_effective (op : call) (eff : Z) :
  spec.effectivePageSize op = Some eff ->
  (exists e q,
     spec.endpoint op = Some e /\ spec.params w op = Some q /\
     q !! "tamanhoPagina" = Some [fmt.d eff] /\
     forall req, req ∈ issued (exec w op) ->
       http.URL req = e +:+ "?" +:+ url.Encode q /\
       spec.contains ("tamanhoPagina=" +:+ fmt.d eff) (http.URL req)) /\
  (forall env, result (exec w op) = Ok env ->
     pageSize env =
       match op with
       | pncp_SearchPriceRegistrations _ _ _ => None
       | _ => Some eff
       end).
Proof.
  intros Heff. split.
  - destruct op; try discriminate Heff; injection Heff as <-.
    all: eexists _, _; split; [reflexivity|]; split; [reflexivity|].
    all: match goal with
         | |- ?q !! _ = Some [fmt.d ?n] /\ _ =>
             assert (q !! "tamanhoPagina" = Some [fmt.d n]) as Hps
         end.
    all: try (unfold_params;
              rewrite <- ?pncp_effectivePageSize_clamp,
                      <- ?transparencia_effectivePageSize_orDefault;
              repeat case_decide; simplify_map_eq; reflexivity).
    all: split; [exact Hps|]; intros req Hin.
    all: match type of Hin with
         | _ ∈ issued (exec _ ?o) =>
             pose proof (exec_request_url w o _ _ req eq_refl eq_refl Hin)
               as Hurl
         end.
    all: split; [exact Hurl|]; rewrite Hurl.
    all: apply contains_app_r, contains_app_r.
    all: apply Encode_contains in Hps; rewrite QueryEscape_d in Hps.
    all: exact Hps.
  - destruct op; try discriminate Heff; injection Heff as <-.
    all: run_cases; intros env [= <-]; cbn [pageSize].
    all: rewrite ?pncp_effectivePageSize_clamp,
                 ?transparencia_effectivePageSize_orDefault; reflexivity.
Qed.

(** C7, as the code has it.  Every operation requests the URL made of
    its fixed base URL and path and of its parameters with the values
    supplied, after defaulting and clamping, an empty optional parameter
    being left out: it requests nothing else, nothing at all when it
    rejects its arguments, and exactly that URL as soon as [net/http]
    accepts it.  Where the parameters go through a query string, the
    query holds exactly the always-sent parameters of the operation
    (blank when such a value is empty, as the two dates of the PNCP
    contract search can be) and each optional filter whose value is not
    empty; every request of the operation carries that query. *)
Theorem query_parameters (op : call) :
  (forall req, req ∈ issued (exec w op) ->
     spec.target w op = Some (http.URL req)) /\
  (spec.target w op = None -> issued (exec w op) = []) /\
  (forall u, spec.target w op = Some u ->
     http.NewRequestError (world.net w) u = None ->
     exists req, issued (exec w op) = [req] /\ http.URL req = u) /\
  (forall q, spec.params w op = Some q ->
     q = spec.queryOf (spec.alwaysSent w op) (spec.optional op) /\
     (forall k v, (k, v) ∈ spec.alwaysSent w op -> q !! k = Some [v]) /\
     (forall k v, (k, v) ∈ spec.optional op ->
        q !! k = if decide (v = "") then None else Some [v]) /\
     (forall k, is_Some (q !! k) ->
        k ∈ (spec.alwaysSent w op).*1 \/
        exists v, (k, v) ∈ spec.optional op /\ v ≠ "") /\
     (forall req, req ∈ issued (exec w op) ->
        (exists e, spec.endpoint op = Some e /\
                   http.URL req = e +:+ "?" +:+ url.Encode q) /\
        (forall k v, q !! k = Some [v] ->
           spec.contains (url.QueryEscape k +:+ "=" +:+ url.QueryEscape v)
             (http.URL req)))).
Proof.
  split; [apply exec_target|]. split; [apply exec_target|].
  split.
  { intros u Ht Hreq. destruct (exec_issues w op u Ht Hreq) as [req E].
    exists req. split; [exact E|].
    pose proof (proj1 (exec_target w op) req) as H. rewrite E in H.
    specialize (H (list_elem_of_here _ _)). rewrite Ht in H.
    injection H as ->. reflexivity. }
  intros q Hq.
  pose proof (params_queryOf w op q Hq) as Heq.
  split; [exact Heq|].
  split; [|split; [|split]].
  - intros k v Hin. rewrite Heq. clear Heq.
    destruct op; try discriminate Hq; cbn in Hin.
    all: repeat (apply elem_of_cons in Hin as [[= -> ->]|Hin]);
      try (apply elem_of_nil in Hin; contradiction).
    all: unfold spec.queryOf, spec.optional.
    all: try (rewrite filter_cons, filter_nil; cbn [snd]).
    all: repeat case_decide; cbn; simplify_map_eq; reflexivity.
  - intros k v Hin. rewrite Heq. clear Heq.
    destruct op; try discriminate Hq; cbn in Hin.
    all: repeat (apply elem_of_cons in Hin as [[= -> ->]|Hin]);
      try (apply elem_of_nil in Hin; contradiction).
    all: unfold spec.queryOf, spec.optional.
    all: rewrite filter_cons, filter_nil; cbn [snd].
    all: repeat case_decide; try contradiction; subst; cbn;
      simplify_map_eq; reflexivity.
  - intros k [vs Hk]. rewrite Heq in Hk. clear Heq.
    unfold spec.queryOf in Hk.
    apply elem_of_list_to_map_2 in Hk.
    apply list_elem_of_fmap in Hk as ([k' v] & [= -> ->] & Hin).
    apply elem_of_app in Hin as [Hin|Hin].
    + left. apply (list_elem_of_fmap_2 fst) in Hin. exact Hin.
    + right. apply list_elem_of_filter in Hin as [Hne Hin].
      exists v. split; assumption.
  - intros req Hin.
    destruct (spec.endpoint op) as [e|] eqn:He;
      [|destruct op; discriminate].
    pose proof (exec_request_url w op e q req He Hq Hin) as Hurl.
    split; [exists e; split; [reflexivity|exact Hurl]|].
    intros k v Hk. rewrite Hurl.
    apply contains_app_r, contains_app_r, Encode_contains, Hk.
Qed.
End query_claims.

(** The scenarios of the specification, on the PNCP contract search
    (range [10..500]): a page size of 5 becomes 10. *)
Lemma page_size_effective_witness :
  spec.effectivePageSize
    (adapters.pncp_SearchContracts "20240101" "20240131" 6 "SP" 1 5)
  = Some 10 /\
  (forall env,
     result (adapters.exec fixtures.quiet
               (adapters.pncp_SearchContracts "20240101" "20240131" 6 "SP"
                  1 5)) = Ok env ->
     adapters.pageSize env = Some 10).
Proof.
  split; [reflexivity|].
  apply (proj2 (page_size_effective fixtures.quiet
                  (adapters.pncp_SearchContracts "20240101" "20240131" 6
                     "SP" 1 5) 10 eq_refl)).
Defined.

Example pncp_page_size_5 :
  http.URL
    <$> issued (adapters.exec fixtures.quiet
                  (adapters.pncp_SearchContracts "20240101" "20240131" 6
                     "SP" 1 5))
  = [ "https://pncp.gov.br/api/consulta/v1/contratacoes/publicacao?codigoModalidadeContratacao=6&dataFinal=20240131&dataInicial=20240101&pagina=1&tamanhoPagina=10&uf=SP" ].
Proof. vm_compute. reflexivity. Qed.

Example pncp_page_size_10000 :
  http.URL
    <$> issued (adapters.exec fixtures.quiet
                  (adapters.pncp_SearchPriceRegistrations "" 0 10000))
  = [ "https://pncp.gov.br/api/consulta/v1/atas-registro-preco?pagina=1&tamanhoPagina=500" ].
Proof. vm_compute. reflexivity. Qed.

Example transparencia_page_size_10000 :
  http.URL
    <$> issued (adapters.exec fixtures.quiet
                  (adapters.transparencia_SearchContracts "" 1 10000))
  = [ "https://api.portaldatransparencia.gov.br/api-de-dados/contratos?codigoOrgao=36000&pagina=1&tamanhoPagina=100" ].
Proof. vm_compute. reflexivity. Qed.

Example transparencia_ceis_without_cnpj :
  http.URL
    <$> issued (adapters.exec fixtures.quiet
                  (adapters.transparencia_SearchCEIS "" 2 50))
  = [ "https://api.portaldatransparencia.gov.br/api-de-dados/ceis?pagina=2&tamanhoPagina=50" ].
Proof. vm_compute. reflexivity. Qed.

Example transparencia_ceis_with_cnpj :
  http.URL
    <$> issued (adapters.exec fixtures.quiet
                  (adapters.transparencia_SearchCEIS "12.345.678/0001-90"
                     2 50))
  = [ "https://api.portaldatransparencia.gov.br/api-de-dados/ceis?cnpj=12.345.678%2F0001-90&pagina=2&tamanhoPagina=50" ].
Proof. vm_compute. reflexivity. Qed.

(** C1 as stated fails on the Transparencia searches: a page size of
    10000 is neither sent nor echoed as the maximum 500 but as the default
    100, and no range at all makes their rule a clamp. *)
Lemma page_size_clamp_counterexample :
  ~ (forall q,
       spec.params fixtures.quiet
         (adapters.transparencia_SearchContracts "" 1 10000) = Some q ->
       q !! "tamanhoPagina" = Some [fmt.d (spec.clamp 1 500 10000)]) /\
  ~ (forall env,
       result (adapters.exec fixtures.quiet
                 (adapters.transparencia_SearchContracts "" 1 10000))
       = Ok env ->
       adapters.pageSize env = Some (spec.clamp 1 500 10000)) /\
  ~ (exists lo hi, lo <= hi /\
       forall pageSize,
         transparencia.effectivePageSize pageSize
         = spec.clamp lo hi pageSize).
Proof.
  split; [|split].
  - intros H. specialize (H _ eq_refl). vm_compute in H. discriminate H.
  - intros H. specialize (H _ eq_refl). vm_compute in H. discriminate H.
  - intros (lo & hi & Hle & H).
    pose proof (H 0) as H0. pose proof (H 1) as H1.
    unfold transparencia.effectivePageSize, spec.clamp in H0, H1.
    cbn in H0, H1.
    destruct (Z.ltb_spec 0 lo), (Z.ltb_spec hi 0), (Z.ltb_spec 1 lo),
      (Z.ltb_spec hi 1); lia.
Qed.

(** An empty optional parameter is left out: of the query, as the CNPJ
    of the CEIS search, and of the path, as the state of the
    municipalities. *)
Lemma query_parameters_witness :
  transparencia.SearchCEIS_params "" 2 50 !! "cnpj" = None /\
  (exists req,
     issued (adapters.exec fixtures.quiet
               (adapters.ibge_GetMunicipalities "")) = [req] /\
     http.URL req
     = "https://servicodados.ibge.gov.br/api/v1/localidades/municipios?orderBy=nome").
Proof.
  split.
  - apply (proj1 (proj2 (proj2
             (proj2 (proj2 (proj2 (query_parameters fixtures.quiet
                                     (adapters.transparencia_SearchCEIS
                                        "" 2 50))))
                (transparencia.SearchCEIS_params "" 2 50) eq_refl)))
             "cnpj" "").
    apply list_elem_of_singleton. reflexivity.
  - apply (proj1 (proj2 (proj2 (query_parameters fixtures.quiet
                                  (adapters.ibge_GetMunicipalities ""))))
             "https://servicodados.ibge.gov.br/api/v1/localidades/municipios?orderBy=nome"
             eq_refl eq_refl).
Defined.

(** C7 as stated fails on the PNCP contract search: its two date
    parameters are sent whatever their value, so an empty start date is
    sent blank. *)
Lemma blank_date_counterexample :
  ~ (forall q k v,
       spec.params fixtures.quiet
         (adapters.pncp_SearchContracts "" "20240131" 6 "" 1 50) = Some q ->
       q !! k = Some [v] -> v <> "").
Proof.
  intros H. apply (H _ "dataInicial" "" eq_refl); reflexivity.
Qed.

Example pncp_blank_start_date :
  http.URL
    <$> issued (adapters.exec fixtures.quiet
                  (adapters.pncp_SearchContracts "" "20240131" 6 "" 1 50))
  = [ "https://pncp.gov.br/api/consulta/v1/contratacoes/publicacao?codigoModalidadeContratacao=6&dataFinal=20240131&dataInicial=&pagina=1&tamanhoPagina=50" ].
Proof. vm_compute. reflexivity. Qed.

(* ===================================================================== *)
(** * Envelopes and upstream failures, for every operation *)
(* ===================================================================== *)

Section envelope_claims.
Context (w : world.t).
Import adapters.

(** C9. Every envelope an operation returns carries the source tag of
    its adapter. *)
Theorem source_tag_fixed_per_adapter (op : call) (env : envelope) :
  result (exec w op) = Ok env ->
  source env = spec.sourceTag (adapterOf op).
Proof.
  revert env. destruct op; run_cases.
  all: intros env [= <-]; reflexivity.
Qed.

(** C8, as the code has it.  Where the envelope of a successful call
    carries a list and has a [Total] field, [Total] is the length of the
    list, except in the PNCP contract search, where it is the
    [totalRegistros] of the decoded payload. *)
Theorem total_is_length_or_totalRegistros
    (op : call) (env : envelope) (n : nat) (T : Z) :
  result (exec w op) = Ok env ->
  items env = Some n ->
  total env = Some T ->
  if spec.isPncpSearchContracts op then
    exists req body r,
      req ∈ issued (exec w op) /\
      http.RoundTrip (world.net w) req
        = inr {| http.StatusCode := 200; http.Body := inr body |} /\
      world.decPncpContracts w body = inr r /\
      T = pncp.ContractsResult.TotalRegistros r /\
      n = length (pncp.ContractsResult.Data r)
  else T = Z.of_nat n.
Proof.
  remember (exec w op) as r eqn:Hr. revert Hr.
  intros Hr Hres Hitems Htotal. revert Hr.
  destruct op; cbn [spec.isPncpSearchContracts]; run_cases; intros ->.
  all: cbn [issued result] in *; try discriminate Hres.
  all: injection Hres as <-; cbn [items total] in *.
  all: try discriminate Htotal.
  all: injection Hitems as <-; injection Htotal as <-; try reflexivity.
  all: eexists _, _, _; split; [apply list_elem_of_singleton; reflexivity|].
  all: subst; split; [eassumption|]; split; [eassumption|].
  all: split; reflexivity.
Qed.

(** Outside the 404 of the company lookup, an answer with a status
    other than 200 makes the operation fail with the generic message. *)
Lemma exec_generic_failure
    (op : call) (req : http.Request) (status : Z) (body : string) :
  req ∈ issued (exec w op) ->
  http.RoundTrip (world.net w) req
    = inr {| http.StatusCode := status; http.Body := inr body |} ->
  status <> 200 ->
  ~ (adapterOf op = CNPJ /\ status = 404) ->
  result (exec w op) = Err (spec.apiError status body).
Proof.
  intros Hin Hrt Hne Hex.
  remember (exec w op) as r eqn:Hr. revert Hr.
  destruct op; cbn [adapterOf] in Hex; run_cases; intros ->.
  all: cbn [issued result] in *.
  all: try (apply elem_of_nil in Hin; contradiction).
  all: apply list_elem_of_singleton in Hin; subst req.
  all: match goal with
       | H : http.RoundTrip _ _ = _ |- _ =>
           rewrite H in Hrt; try discriminate Hrt;
           injection Hrt as -> ->
       end.
  all: try reflexivity.
  all: try contradiction.
  all: exfalso; apply Hex; split; [reflexivity|assumption].
Qed.

(** The company lookup answers a 404 with the "not found" failure,
    made of the formatted identifier alone. *)
Lemma exec_company_not_found
    (s : string) (req : http.Request) (body : string) :
  req ∈ issued (exec w (cnpj_GetCNPJ s)) ->
  http.RoundTrip (world.net w) req
    = inr {| http.StatusCode := 404; http.Body := inr body |} ->
  result (exec w (cnpj_GetCNPJ s))
  = Err ("CNPJ not found: " +:+ spec.punctuated (spec.stripNonDigits s)).
Proof.
  intros Hin Hrt.
  assert (req ∈ issued (@cnpj.GetCNPJ (world.net w)
                          (world.decCNPJData w) s)) as Hin'.
  { revert Hin. cbn [exec]. unfold mapRun.
    destruct (cnpj.GetCNPJ _ _) as [t [| |]]; exact id. }
  destruct (GetCNPJ_status_cases (world.net w) s req 404 body Hin' Hrt)
    as (formatted & Hf & H404 & _).
  specialize (H404 eq_refl).
  assert (formatted = spec.punctuated (spec.stripNonDigits s)) as ->.
  { destruct (decide (String.length (cnpj.digitsOf s) = 14%nat))
      as [Hlen|Hlen].
    - rewrite (formatCNPJ_ok s Hlen), slices_punctuated, digitsOf_strip
        in Hf.
      injection Hf as <-. reflexivity.
    - rewrite (formatCNPJ_err s Hlen) in Hf. discriminate Hf. }
  cbn [exec]. unfold mapRun. revert H404.
  destruct (cnpj.GetCNPJ _ _) as [t [| |]]; cbn [result]; congruence.
Qed.

(** C5, as the code has it.  Whenever the upstream answers a request of
    an operation with a status that is not 2xx and a body, the operation
    fails.  Its message is made of that status code and that body, and
    carries both, with one exception: the company lookup answers a 404
    with a message made of the formatted identifier alone, whatever the
    body. *)
Theorem upstream_error_surfaced
    (op : call) (req : http.Request) (status : Z) (body : string) :
  req ∈ issued (exec w op) ->
  http.RoundTrip (world.net w) req
    = inr {| http.StatusCode := status; http.Body := inr body |} ->
  ~ (200 <= status <= 299) ->
  (exists msg, result (exec w op) = Err msg) /\
  (~ (adapterOf op = CNPJ /\ status = 404) ->
   result (exec w op)
   = Err ("API error (status " +:+ fmt.d status +:+ "): " +:+ body) /\
   spec.carries ("API error (status " +:+ fmt.d status +:+ "): " +:+ body)
     status body) /\
  (forall s, op = cnpj_GetCNPJ s -> status = 404 ->
   result (exec w op)
   = Err ("CNPJ not found: "
          +:+ spec.punctuated (spec.stripNonDigits s))).
Proof.
  intros Hin Hrt Hne.
  assert (~ (adapterOf op = CNPJ /\ status = 404) ->
          result (exec w op) = Err (spec.apiError status body)) as Hgen.
  { intros Hex.
    apply (exec_generic_failure op req status body Hin Hrt); [lia|exact Hex]. }
  assert (forall s, op = cnpj_GetCNPJ s -> status = 404 ->
          result (exec w op)
          = Err ("CNPJ not found: "
                 +:+ spec.punctuated (spec.stripNonDigits s))) as Hnf.
  { intros s -> ->. apply (exec_company_not_found s req body Hin Hrt). }
  split; [|split].
  - destruct (Z.eq_dec status 404) as [->|H404].
    + destruct op;
        try (eexists; apply Hgen; intros [Hop _]; discriminate Hop).
      eexists. apply Hnf; reflexivity.
    + eexists. apply Hgen. intros [_ H]. contradiction.
  - intros Hex. split; [apply Hgen, Hex|apply apiError_carries].
  - exact Hnf.
Qed.

(** C6. Only the company lookup tells a 404 apart: it answers with the
    "not found" failure, which names the formatted CNPJ and is never of
    the generic form; every other status but 200 there, and every status
    but 200 in the other adapters (404 included), yields the generic
    upstream failure with status code and body. *)
Theorem not_found_only_in_company_lookup
    (op : call) (req : http.Request) (status : Z) (body : string) :
  req ∈ issued (exec w op) ->
  http.RoundTrip (world.net w) req
    = inr {| http.StatusCode := status; http.Body := inr body |} ->
  (status = 404 ->
   match op with
   | cnpj_GetCNPJ s =>
       exists formatted,
         cnpj.formatCNPJ s = Ok formatted /\
         result (exec w op) = Err ("CNPJ not found: " +:+ formatted) /\
         (forall status' body',
            "CNPJ not found: " +:+ formatted
            <> "API error (status " +:+ fmt.d status' +:+ "): " +:+ body')
   | _ =>
       result (exec w op)
       = Err ("API error (status " +:+ fmt.d 404 +:+ "): " +:+ body)
   end) /\
  (status <> 404 -> status <> 200 ->
   result (exec w op)
   = Err ("API error (status " +:+ fmt.d status +:+ "): " +:+ body)).
Proof.
  intros Hin Hrt. split.
  - intros ->.
    assert (adapterOf op <> CNPJ ->
            result (exec w op) = Err (spec.apiError 404 body)) as Hother.
    { intros Hop. apply (exec_generic_failure op req 404 body Hin Hrt);
        [lia|tauto]. }
    destruct op as [? ?|?|?|? ?| |cnpj0| |?|?|? ? ? ? ? ?|? ? ?|? ? ?|? ? ?
                   |? ?|? ? ?|? ? ?];
      try (apply Hother; discriminate).
    assert (req ∈ issued (@cnpj.GetCNPJ (world.net w)
                            (world.decCNPJData w) cnpj0)) as Hin'.
    { revert Hin. cbn [exec]. unfold mapRun.
      destruct (cnpj.GetCNPJ _ _) as [t [| |]]; exact id. }
    destruct (GetCNPJ_status_cases (world.net w) cnpj0 req 404 body
                Hin' Hrt) as (formatted & Hf & H404 & _).
    exists formatted. split; [exact Hf|]. split; [|discriminate].
    cbn [exec]. unfold mapRun. specialize (H404 eq_refl). revert H404.
    destruct (cnpj.GetCNPJ _ _) as [t [| |]]; cbn [result]; congruence.
  - intros H404 H200.
    apply (exec_generic_failure op req status body Hin Hrt H200). tauto.
Qed.
End envelope_claims.

Lemma source_tag_fixed_per_adapter_witness :
  result (adapters.exec fixtures.quiet adapters.ibge_GetStates)
  = Ok (adapters.States
          {| ibge.StatesResponse.States := [];
             ibge.StatesResponse.Total := 0;
             ibge.StatesResponse.Source := "ibge_api" |}) /\
  adapters.source
    (adapters.States
       {| ibge.StatesResponse.States := [];
          ibge.StatesResponse.Total := 0;
          ibge.StatesResponse.Source := "ibge_api" |})
  = "ibge_api".
Proof.
  split; [reflexivity|].
  apply (source_tag_fixed_per_adapter fixtures.quiet adapters.ibge_GetStates).
  reflexivity.
Defined.

(** In the PNCP contract search the total is the upstream's and can
    differ from the length of the list: here 42 for an empty page. *)
Lemma total_is_length_or_totalRegistros_witness :
  result (adapters.exec fixtures.quiet42
            (adapters.pncp_SearchContracts "20240101" "20240131" 6 "" 1 50))
  = Ok (adapters.PncpContracts
          {| pncp.ContractsResponse.Contracts := [];
             pncp.ContractsResponse.Total := 42;
             pncp.ContractsResponse.Page := 1;
             pncp.ContractsResponse.PageSize := 50;
             pncp.ContractsResponse.Source := "pncp_api" |}) /\
  exists req body r,
    req ∈ issued (adapters.exec fixtures.quiet42
                    (adapters.pncp_SearchContracts "20240101" "20240131" 6
                       "" 1 50)) /\
    http.RoundTrip (world.net fixtures.quiet42) req
      = inr {| http.StatusCode := 200; http.Body := inr body |} /\
    world.decPncpContracts fixtures.quiet42 body = inr r /\
    42 = pncp.ContractsResult.TotalRegistros r /\
    0%nat = length (pncp.ContractsResult.Data r).
Proof.
  split; [reflexivity|].
  apply (total_is_length_or_totalRegistros fixtures.quiet42
           (adapters.pncp_SearchContracts "20240101" "20240131" 6 "" 1 50)
           _ 0%nat 42 eq_refl eq_refl eq_refl).
Defined.

(** C8 as stated fails on the envelopes that carry a list but no total:
    the exchange rates (as the salaries and the population figures). *)
Lemma list_without_total_counterexample :
  ~ (forall env n,
       result (adapters.exec fixtures.quiet
                 (adapters.bcb_GetExchangeRate "USD" "01-31-2025")) = Ok env ->
       adapters.items env = Some n ->
       adapters.total env = Some (Z.of_nat n)).
Proof.
  intros H. specialize (H _ 0%nat eq_refl eq_refl). discriminate H.
Qed.

(** The scenario of the specification: status 503 with the body
    "maintenance"; and the exception, on the same body. *)
Lemma upstream_error_surfaced_witness :
  (result (adapters.exec (fixtures.failing 503 "maintenance")
             adapters.ibge_GetStates)
   = Err "API error (status 503): maintenance" /\
   spec.carries "API error (status 503): maintenance" 503 "maintenance") /\
  result (adapters.exec (fixtures.failing 404 "maintenance")
            (adapters.cnpj_GetCNPJ "12345678000190"))
  = Err "CNPJ not found: 12.345.678/0001-90".
Proof.
  split.
  - apply (proj1 (proj2
             (upstream_error_surfaced (fixtures.failing 503 "maintenance")
                adapters.ibge_GetStates
                {| http.Method := "GET";
                   http.URL :=
                     "https://servicodados.ibge.gov.br/api/v1/localidades/estados?orderBy=nome";
                   http.Header := [("Accept", "application/json")] |}
                503 "maintenance"
                ltac:(apply list_elem_of_singleton; reflexivity)
                eq_refl ltac:(lia)))).
    intros [H _]. discriminate H.
  - apply (proj2 (proj2
             (upstream_error_surfaced (fixtures.failing 404 "maintenance")
                (adapters.cnpj_GetCNPJ "12345678000190")
                {| http.Method := "GET";
                   http.URL := "https://minhareceita.org/12.345.678/0001-90";
                   http.Header := [("Accept", "application/json")] |}
                404 "maintenance"
                ltac:(apply list_elem_of_singleton; reflexivity)
                eq_refl ltac:(lia)))
             "12345678000190" eq_refl eq_refl).
Defined.

Lemma not_found_only_in_company_lookup_witness :
  exists formatted,
    cnpj.formatCNPJ "12345678000190" = Ok formatted /\
    result (adapters.exec (fixtures.failing 404 "maintenance")
              (adapters.cnpj_GetCNPJ "12345678000190"))
    = Err ("CNPJ not found: " +:+ formatted) /\
    (forall status' body',
       "CNPJ not found: " +:+ formatted
       <> "API error (status " +:+ fmt.d status' +:+ "): " +:+ body').
Proof.
  apply (proj1 (not_found_only_in_company_lookup
                  (fixtures.failing 404 "maintenance")
                  (adapters.cnpj_GetCNPJ "12345678000190")
                  {| http.Method := "GET";
                     http.URL := "https://minhareceita.org/12.345.678/0001-90";
                     http.Header := [("Accept", "application/json")] |}
                  404 "maintenance"
                  ltac:(apply list_elem_of_singleton; reflexivity)
                  eq_refl) eq_refl).
Defined.

Example company_not_found :
  result (adapters.exec (fixtures.failing 404 "maintenance")
            (adapters.cnpj_GetCNPJ "12345678000190"))
  = Err "CNPJ not found: 12.345.678/0001-90".
Proof. vm_compute. reflexivity. Qed.

Example states_not_found :
  result (adapters.exec (fixtures.failing 404 "maintenance")
            adapters.ibge_GetStates)
  = Err "API error (status 404): maintenance".
Proof. vm_compute. reflexivity. Qed.

(** C5 as stated fails on the company lookup: here its answer to a
    404 carries neither the status code nor the body. *)
Lemma not_found_counterexample :
  ~ (forall req status body,
       req ∈ issued (adapters.exec (fixtures.failing 404 "maintenance")
                       (adapters.cnpj_GetCNPJ "12345678000190")) ->
       http.RoundTrip (world.net (fixtures.failing 404 "maintenance")) req
         = inr {| http.StatusCode := status; http.Body := inr body |} ->
       ~ (200 <= status <= 299) ->
       exists msg,
         result (adapters.exec (fixtures.failing 404 "maintenance")
                   (adapters.cnpj_GetCNPJ "12345678000190")) = Err msg /\
         spec.carries msg status body).
Proof.
  intros H.
  destruct (H {| http.Method := "GET";
                 http.URL := "https://minhareceita.org/12.345.678/0001-90";
                 http.Header := [("Accept", "application/json")] |}
              404 "maintenance") as (msg & Hmsg & Hstatus & Hbody).
  - apply list_elem_of_singleton. reflexivity.
  - reflexivity.
  - lia.
  - vm_compute in Hmsg. injection Hmsg as <-.
    revert Hbody. apply index_None_not_contains; [discriminate|reflexivity].
Qed.

(** The "not found" message is made of the identifier alone; it holds
    the status code or the body only where the identifier or the fixed
    text happen to. *)
Example not_found_carries_by_coincidence :
  result (adapters.exec (fixtures.failing 404 "not found")
            (adapters.cnpj_GetCNPJ "12404678000190"))
  = Err "CNPJ not found: 12.404.678/0001-90" /\
  spec.carries "CNPJ not found: 12.404.678/0001-90" 404 "not found".
Proof.
  split; [vm_compute; reflexivity|]. split.
  - exists "CNPJ not found: 12.", ".678/0001-90". reflexivity.
  - exists "CNPJ ", ": 12.404.678/0001-90". reflexivity.
Qed.

(* ===================================================================== *)
(** * The population payload (package ibge) *)
(* ===================================================================== *)

(** Two orders of visiting a map differ by a permutation. *)
Section order_facts.
Context {V : Type} (order : gomap.Order V).

Lemma range_any_order (order' : gomap.Order V) (n n' : nat)
    (m : gmap string V) :
  gomap.range order n m ≡ₚ gomap.range order' n' m.
Proof.
  rewrite (gomap.range_perm order n m), (gomap.range_perm order' n' m).
  reflexivity.
Qed.
End order_facts.

Section population_facts.
Variable Sprintf_v : json.value -> string.
Variable order : gomap.Order json.value.
Local Abbreviation extract := (ibge.extractPopulation Sprintf_v order).

(** Where the extraction is lenient: a missing or wrongly typed
    "resultados" or "series", and an empty "resultados", give the empty
    list. *)
Lemma extract_no_result : extract [] = Ok [].
Proof. reflexivity. Qed.

Lemma extract_no_resultados (result0 : gmap string json.value)
    (rest : list (gmap string json.value)) :
  ibge.asArray (result0 !! "resultados") = None ->
  extract (result0 :: rest) = Ok [].
Proof. intros H. cbn. rewrite H. reflexivity. Qed.

Lemma extract_empty_resultados (result0 : gmap string json.value)
    (rest : list (gmap string json.value)) :
  result0 !! "resultados" = Some (json.Array []) ->
  extract (result0 :: rest) = Ok [].
Proof. intros H. cbn. rewrite H. reflexivity. Qed.

Lemma extract_no_series (result0 r0 : gmap string json.value)
    (resultados rest' : list json.value)
    (rest : list (gmap string json.value)) :
  result0 !! "resultados" = Some (json.Array (json.Object r0 :: rest')) ->
  ibge.asArray (r0 !! "series") = None ->
  extract (result0 :: rest) = Ok [].
Proof. intros H1 H2. cbn. rewrite H1. cbn. rewrite H2. reflexivity. Qed.

(** A series entry that lacks the object "serie" adds nothing, as long
    as it is an object with an object "localidade". *)
Lemma rangeSeries_no_serie (series : list json.value) (n : nat)
    (data : list ibge.PopulationData.t) :
  Forall (fun s => exists serie localidade,
            s = json.Object serie /\
            serie !! "localidade" = Some (json.Object localidade) /\
            ibge.asObject (serie !! "serie") = None) series ->
  ibge.rangeSeries Sprintf_v order series n data = Ok data.
Proof.
  induction 1 as [|s series (serie & localidade & -> & Hl & Hs) _ IH];
    cbn; [reflexivity|].
  rewrite Hl. cbn. rewrite Hs. exact IH.
Qed.

(** The extraction never returns an error: it succeeds or it panics. *)
Lemma rangeSerieData_no_error (localidade : gmap string json.value)
    (entries : list (string * json.value))
    (data : list ibge.PopulationData.t) (e : error) :
  ibge.rangeSerieData Sprintf_v localidade entries data <> Err e.
Proof.
  revert data. induction entries as [|[year pop] entries IH];
    intros data; cbn; [discriminate|].
  destruct (localidade !! "nome") as [[]|]; cbn; try discriminate.
  apply IH.
Qed.

(** The inner loop: with a string "nome" it appends one figure per
    entry, in the order of the entries; without one it panics at the
    first entry, if there is one. *)
Lemma rangeSerieData_ok (localidade : gmap string json.value)
    (nome : string) (entries : list (string * json.value))
    (data : list ibge.PopulationData.t) :
  localidade !! "nome" = Some (json.Str nome) ->
  ibge.rangeSerieData Sprintf_v localidade entries data
  = Ok (data ++ (views.figure Sprintf_v nome <$> entries))%list.
Proof.
  intros Hn. revert data.
  induction entries as [|[year pop] entries IH]; intros data; cbn.
  - rewrite app_nil_r. reflexivity.
  - rewrite Hn. cbn. rewrite IH, <- app_assoc. reflexivity.
Qed.

Lemma rangeSerieData_panics (localidade : gmap string json.value)
    (entry : string * json.value) (entries : list (string * json.value))
    (data : list ibge.PopulationData.t) :
  (forall nome, localidade !! "nome" <> Some (json.Str nome)) ->
  ibge.rangeSerieData Sprintf_v localidade (entry :: entries) data
  = ibge.conversionPanic (localidade !! "nome") "string".
Proof.
  intros Hn. destruct entry as [year pop]. cbn.
  destruct (localidade !! "nome") as [[]|]; cbn; try reflexivity.
  exfalso. eapply Hn. reflexivity.
Qed.

(** Where it is not: a series entry that is not an object, or has no
    object "localidade", makes the extraction panic, whatever else the
    payload holds. *)
Lemma rangeSeries_panics_without_localidade
    (serie : gmap string json.value) (rest : list json.value) (n : nat)
    (data : list ibge.PopulationData.t) :
  ibge.asObject (serie !! "localidade") = None ->
  ibge.rangeSeries Sprintf_v order (json.Object serie :: rest) n data
  = Panic ("interface conversion: interface {} is "
           +:+ ibge.typeName (serie !! "localidade")
           +:+ ", not map[string]interface {}").
Proof.
  intros H. cbn. destruct (serie !! "localidade") as [[]|]; cbn;
    try reflexivity. discriminate H.
Qed.

Lemma rangeSeries_object (serie localidade serieData : gmap string json.value)
    (rest : list json.value) (n : nat) (data : list ibge.PopulationData.t) :
  serie !! "localidade" = Some (json.Object localidade) ->
  serie !! "serie" = Some (json.Object serieData) ->
  ibge.rangeSeries Sprintf_v order (json.Object serie :: rest) n data
  = match ibge.rangeSerieData Sprintf_v localidade
            (gomap.range order n serieData) data with
    | Ok data' => ibge.rangeSeries Sprintf_v order rest (S n) data'
    | Err e => Err e
    | Panic msg => Panic msg
    end.
Proof. intros H1 H2. cbn. rewrite H1. cbn. rewrite H2. reflexivity. Qed.

(** One series entry: the loop either appends its figures, in the order
    the runtime picks, or panics. *)
Lemma rangeSeries_step (s : json.value) (rest : list json.value) (n : nat)
    (data : list ibge.PopulationData.t) :
  match views.figuresOf Sprintf_v s with
  | Some figures =>
      exists part n',
        part ≡ₚ figures /\
        ibge.rangeSeries Sprintf_v order (s :: rest) n data
        = ibge.rangeSeries Sprintf_v order rest n' (data ++ part)%list
  | None =>
      exists msg,
        ibge.rangeSeries Sprintf_v order (s :: rest) n data = Panic msg
  end.
Proof.
  destruct s as [| | | | |serie]; try (cbn; eauto; fail).
  unfold views.figuresOf.
  destruct (serie !! "localidade") as [[| | | | |localidade]|] eqn:Hl;
    try (cbn; rewrite Hl; cbn; eauto; fail).
  destruct (serie !! "serie") as [[| | | | |serieData]|] eqn:Hs;
    try (exists [], n; split; [reflexivity|];
         cbn; rewrite Hl; cbn; rewrite Hs; cbn; rewrite app_nil_r;
         reflexivity).
  rewrite (rangeSeries_object serie localidade serieData rest n data Hl Hs).
  pose proof (gomap.range_perm order n serieData) as Hperm.
  destruct (map_to_list serieData) as [|entry entries] eqn:E.
  { apply Permutation_nil_r in Hperm. rewrite Hperm.
    exists [], (S n). split; [reflexivity|].
    cbn. rewrite app_nil_r. reflexivity. }
  destruct (localidade !! "nome") as [[| | |nome| |]|] eqn:Hn.
  4: { exists (views.figure Sprintf_v nome <$> gomap.range order n serieData),
         (S n).
       split; [rewrite Hperm; reflexivity|].
       rewrite (rangeSerieData_ok localidade nome _ data Hn). reflexivity. }
  all: destruct (gomap.range order n serieData) as [|entry' entries'] eqn:E';
    [apply Permutation_nil_cons in Hperm; contradiction|].
  all: rewrite (rangeSerieData_panics localidade entry' entries' data)
         by (intros nome; rewrite Hn; discriminate).
  all: eexists; reflexivity.
Qed.

(** When every entry is readable the result is made of one part per
    entry, in the order of the entries: the figures of the entry, in the
    order the runtime picked. *)
Lemma rangeSeries_ok (series : list json.value)
    (figures : list (list ibge.PopulationData.t)) (n : nat)
    (data : list ibge.PopulationData.t) :
  Forall2 (fun s figs => views.figuresOf Sprintf_v s = Some figs)
    series figures ->
  exists parts,
    ibge.rangeSeries Sprintf_v order series n data
    = Ok (data ++ concat parts)%list /\
    Forall2 (≡ₚ) parts figures.
Proof.
  intros H. revert n data.
  induction H as [|s figs series figures Hs _ IH]; intros n data.
  - exists []. split; [|constructor]. cbn. rewrite app_nil_r. reflexivity.
  - pose proof (rangeSeries_step s series n data) as Hstep.
    rewrite Hs in Hstep. destruct Hstep as (part & n' & Hpart & Hstep).
    destruct (IH n' (data ++ part)%list) as (parts & Hrest & Hparts).
    exists (part :: parts). split; [|constructor; assumption].
    rewrite Hstep, Hrest. cbn [concat]. rewrite app_assoc. reflexivity.
Qed.

Lemma rangeSeries_panics (series : list json.value) (n : nat)
    (data : list ibge.PopulationData.t) :
  Exists (fun s => views.figuresOf Sprintf_v s = None) series ->
  exists msg, ibge.rangeSeries Sprintf_v order series n data = Panic msg.
Proof.
  intros H. revert n data.
  induction series as [|s series IH]; intros n data; [inversion H|].
  pose proof (rangeSeries_step s series n data) as Hstep.
  destruct (views.figuresOf Sprintf_v s) as [figs|] eqn:Hs.
  - destruct Hstep as (part & n' & _ & ->). apply IH.
    inversion H; subst; [congruence|assumption].
  - exact Hstep.
Qed.

(** Whether the extraction panics, and with what message, does not
    depend on the order in which the maps are visited. *)
Lemma rangeSeries_panic_any_order (order' : gomap.Order json.value)
    (series : list json.value) (n n' : nat)
    (data data' : list ibge.PopulationData.t) (msg : string) :
  ibge.rangeSeries Sprintf_v order series n data = Panic msg ->
  ibge.rangeSeries Sprintf_v order' series n' data' = Panic msg.
Proof.
  revert n n' data data'.
  induction series as [|s series IH]; intros n n' data data';
    [discriminate|].
  destruct s as [| | | | |serie]; try (cbn; congruence).
  destruct (serie !! "localidade") as [[| | | | |localidade]|] eqn:Hl;
    try (cbn; rewrite Hl; cbn; congruence).
  destruct (serie !! "serie") as [[| | | | |serieData]|] eqn:Hs;
    try (cbn; rewrite Hl; cbn; rewrite Hs; cbn; apply IH).
  rewrite !(rangeSeries_object serie localidade serieData) by assumption.
  assert (ibge.rangeSeries Sprintf_v order' (json.Object serie :: series)
            n' data'
          = match ibge.rangeSerieData Sprintf_v localidade
                    (gomap.range order' n' serieData) data' with
            | Ok d => ibge.rangeSeries Sprintf_v order' series (S n') d
            | Err e => Err e
            | Panic m => Panic m
            end) as ->
    by (cbn; rewrite Hl; cbn; rewrite Hs; reflexivity).
  pose proof (range_any_order order order' n n' serieData) as Hperm.
  destruct (localidade !! "nome") as [[| | |nome| |]|] eqn:Hn.
  4: { rewrite !(rangeSerieData_ok localidade nome) by assumption.
       apply IH. }
  all: destruct (gomap.range order n serieData) as [|e es];
    destruct (gomap.range order' n' serieData) as [|e' es'];
    try (apply Permutation_nil_cons in Hperm; contradiction);
    try (symmetry in Hperm; apply Permutation_nil_cons in Hperm;
         contradiction).
  all: try (cbn [ibge.rangeSerieData]; apply IH).
  all: rewrite !rangeSerieData_panics
         by (intros nome; rewrite Hn; discriminate).
  all: exact id.
Qed.
End population_facts.

Lemma extractPopulation_panic_any_order
    (Sprintf_v : json.value -> string)
    (order order' : gomap.Order json.value)
    (payload : list (gmap string json.value)) (msg : string) :
  ibge.extractPopulation Sprintf_v order payload = Panic msg ->
  ibge.extractPopulation Sprintf_v order' payload = Panic msg.
Proof.
  destruct payload as [|result0 rest]; [discriminate|].
  unfold ibge.extractPopulation.
  destruct (ibge.asArray (result0 !! "resultados")) as [[|first more]|];
    try discriminate.
  destruct first as [| | | | |r0]; try exact id.
  cbn [ibge.mustObject].
  destruct (ibge.asArray (r0 !! "series")) as [series|]; [|discriminate].
  apply rangeSeries_panic_any_order.
Qed.

(** C2, at the inputs where it fails.  The payload
    [[{"resultados":[{"series":[{"serie":{"2020":"1"}}]}]}]] decodes, but
    its series entry has no "localidade": [GetPopulation] answers the
    request with a panic instead of an envelope with an empty list.  The
    same happens when "localidade" has no "nome", and when a series entry
    is not an object. *)
Theorem GetPopulation_panics_on_partial_shape
    (Sprintf_v : json.value -> string) (order : gomap.Order json.value)
    (body locationID : string) :
  ibge.extractPopulation Sprintf_v order fixtures.populationWithoutLocalidade
  = Panic "interface conversion: interface {} is nil, not map[string]interface {}" /\
  ibge.extractPopulation Sprintf_v order fixtures.populationWithoutNome
  = Panic "interface conversion: interface {} is nil, not string" /\
  ibge.extractPopulation Sprintf_v order fixtures.populationWithNumberInSeries
  = Panic "interface conversion: interface {} is float64, not map[string]interface {}" /\
  result
    (@ibge.GetPopulation (fixtures.upstream 200 body)
       (fixtures.decodesTo fixtures.populationWithoutLocalidade)
       Sprintf_v order locationID)
  = Panic "interface conversion: interface {} is nil, not map[string]interface {}".
Proof.
  assert (forall payload msg,
            ibge.extractPopulation Sprintf_v fixtures.forwards payload
            = Panic msg ->
            ibge.extractPopulation Sprintf_v order payload = Panic msg)
    as Hany by (intros payload msg; apply extractPopulation_panic_any_order).
  assert (ibge.extractPopulation Sprintf_v order
            fixtures.populationWithoutLocalidade
          = Panic "interface conversion: interface {} is nil, not map[string]interface {}")
    as H1 by (apply Hany; vm_compute; reflexivity).
  split; [exact H1|].
  split; [apply Hany; vm_compute; reflexivity|].
  split; [apply Hany; vm_compute; reflexivity|].
  unfold_client. run_simpl. unfold json.unmarshal, fixtures.decodesTo.
  run_simpl. rewrite H1. reflexivity.
Qed.

(** On the expected shape the figures are extracted. *)
Example GetPopulation_brasil :
  result (adapters.exec
            (fixtures.world (fixtures.upstream 200 "[]")
               fixtures.populationBrasil 0)
            (adapters.ibge_GetPopulation ""))
  = Ok (adapters.Population
          {| ibge.PopulationResponse.Data :=
               [ {| ibge.PopulationData.Location := "Brasil";
                    ibge.PopulationData.Year := "2020";
                    ibge.PopulationData.Population := "211755692" |} ];
             ibge.PopulationResponse.Source := "ibge_api" |}).
Proof. vm_compute. reflexivity. Qed.

(** The order of the figures of one entry is the runtime's: the same
    payload, its years visited one way and the other. *)
Example GetPopulation_two_years :
  ibge.PopulationData.Year
    <$> match ibge.extractPopulation (world.Sprintf_v fixtures.quiet)
                fixtures.forwards fixtures.populationTwoYears with
        | Ok data => data
        | _ => []
        end
  = reverse
      (ibge.PopulationData.Year
         <$> match ibge.extractPopulation (world.Sprintf_v fixtures.quiet)
                     fixtures.backwards fixtures.populationTwoYears with
             | Ok data => data
             | _ => []
             end) /\
  length
    (match ibge.extractPopulation (world.Sprintf_v fixtures.quiet)
             fixtures.forwards fixtures.populationTwoYears with
     | Ok data => data
     | _ => []
     end) = 2%nat.
Proof. vm_compute. split; reflexivity. Qed.
(* ===================================================================== *)
(** * Further properties of the operations *)
(* ===================================================================== *)

Section operation_facts.
Context (w : world.t).
Import adapters.

Lemma extractPopulation_no_error (Sprintf_v : json.value -> string)
    (order : gomap.Order json.value)
    (payload : list (gmap string json.value)) (e : error) :
  ibge.extractPopulation Sprintf_v order payload <> Err e.
Proof.
  assert (forall series n data,
            ibge.rangeSeries Sprintf_v order series n data <> Err e)
    as Hseries.
  { induction series as [|s series IH]; intros n data; cbn; [discriminate|].
    destruct s; cbn; try discriminate.
    destruct (m !! "localidade") as [[]|]; cbn; try discriminate.
    destruct (ibge.asObject (m !! "serie")); [|apply IH].
    destruct (ibge.rangeSerieData _ _ _ _) eqn:E; try discriminate.
    - apply IH.
    - intros [= ->]. exact (rangeSerieData_no_error _ _ _ _ _ E). }
  destruct payload as [|result0 rest]; cbn; [discriminate|].
  destruct (ibge.asArray (result0 !! "resultados")) as [[|r0 ?]|];
    try discriminate.
  destruct r0; cbn; try discriminate.
  destruct (ibge.asArray (m !! "series")); [apply Hseries|discriminate].
Qed.

(** The requests of an operation are GETs with the headers of its
    adapter. *)
Lemma exec_request_shape (op : call) (req : http.Request) :
  req ∈ issued (exec w op) ->
  http.Method req = "GET" /\ http.Header req = views.headers w op.
Proof.
  unfold views.headers.
  destruct op; cbn [adapterOf]; run_cases; intros Hin.
  all: try (apply elem_of_nil in Hin; contradiction).
  all: apply list_elem_of_singleton in Hin; subst req.
  all: try contradiction; split; reflexivity.
Qed.

Lemma exec_at_most_one (op : call) :
  (length (issued (exec w op)) <= 1)%nat.
Proof. destruct op; run_cases; cbn; lia. Qed.

(** What an operation makes of the answer to its request, up to the
    decoding. *)
Lemma exec_failure_modes (op : call) (req : http.Request) :
  req ∈ issued (exec w op) ->
  match http.RoundTrip (world.net w) req with
  | inl e => result (exec w op) = Err ("executing request: " +:+ e)
  | inr resp =>
      match http.Body resp with
      | inl e => result (exec w op) = Err ("reading response: " +:+ e)
      | inr body =>
          http.StatusCode resp = 200 ->
          match views.decodeError w op body with
          | Some e => result (exec w op) = Err ("parsing response: " +:+ e)
          | None =>
              (exists env, result (exec w op) = Ok env) \/
              (exists locationID msg,
                 op = ibge_GetPopulation locationID /\
                 result (exec w op) = Panic msg)
          end
      end
  end.
Proof.
  intros Hin. remember (http.RoundTrip (world.net w) req) as x eqn:Hx.
  remember (exec w op) as r eqn:Hr. revert Hr.
  destruct op; cbn [views.decodeError]; run_cases; intros ->.
  all: cbn [issued result] in *.
  all: try (apply elem_of_nil in Hin; contradiction).
  all: apply list_elem_of_singleton in Hin; subst req.
  all: match goal with
       | H : http.RoundTrip _ _ = _ |- _ => rewrite H in Hx; subst x
       end.
  all: cbn [http.Body http.StatusCode]; try reflexivity.
  all: intros H200; try contradiction.
  all: try (exfalso; unfold http.StatusNotFound, http.StatusOK in *; lia).
  all: try match goal with
           | H : json.unmarshal _ = _ |- _ =>
               unfold json.unmarshal in H; rewrite H
           end.
  all: try reflexivity.
  all: try (left; eexists; reflexivity).
  all: try (right; eexists _, _; split; reflexivity).
  all: exfalso; eapply extractPopulation_no_error; eassumption.
Qed.

(** An envelope comes from one request, answered with 200 and a body
    the decoder accepts. *)
Lemma exec_ok_inv (op : call) (env : envelope) :
  result (exec w op) = Ok env ->
  exists req body,
    issued (exec w op) = [req] /\
    http.RoundTrip (world.net w) req
      = inr {| http.StatusCode := 200; http.Body := inr body |} /\
    views.decodeError w op body = None.
Proof.
  intros Hres. remember (exec w op) as r eqn:Hr. revert Hr.
  destruct op; cbn [views.decodeError]; run_cases; intros ->.
  all: cbn [issued result] in *; try discriminate Hres.
  all: eexists _, _; split; [reflexivity|].
  all: subst; split; [eassumption|].
  all: match goal with
       | H : json.unmarshal _ = _ |- _ =>
           unfold json.unmarshal in H; rewrite H
       end; reflexivity.
Qed.

Lemma exec_panic_inv (op : call) (msg : string) :
  result (exec w op) = Panic msg ->
  exists locationID, op = ibge_GetPopulation locationID.
Proof.
  intros Hres. remember (exec w op) as r eqn:Hr. revert Hr.
  destruct op; run_cases; intros ->.
  all: cbn [issued result] in *; try discriminate Hres.
  all: try match goal with
           | H : cnpj.formatCNPJ _ = Panic _ |- _ =>
               unfold cnpj.formatCNPJ in H; destruct (negb _) in H;
               discriminate H
           end.
  all: eexists; reflexivity.
Qed.
End operation_facts.

Section operation_claims.
Context (w : world.t).
Import adapters.

(** X1. Page numbers are floored at 1.  In the six paginated searches
    the page number sent as [pagina], and echoed as [Page], is 1 for
    every input below 1 and the input itself otherwise. *)
Theorem page_floor (op : call) (page : Z) :
  views.requestedPage op = Some page ->
  let eff := if page <? 1 then 1 else page in
  (exists q, spec.params w op = Some q /\ q !! "pagina" = Some [fmt.d eff]) /\
  (forall req, req ∈ issued (exec w op) ->
     spec.contains ("pagina=" +:+ fmt.d eff) (http.URL req)) /\
  (forall env, result (exec w op) = Ok env -> views.page env = Some eff).
Proof.
  intros Hpage eff.
  assert (exists q, spec.params w op = Some q /\
                    q !! "pagina" = Some [fmt.d eff]) as (q & Hq & Hlook).
  { destruct op; try discriminate Hpage; injection Hpage as <-.
    all: eexists; split; [reflexivity|].
    all: unfold_params; fold eff;
      unfold pncp.effectivePage, transparencia.effectivePage; fold eff.
    all: repeat case_decide; simplify_map_eq; reflexivity. }
  split; [exists q; split; assumption|]. split.
  - intros req Hin.
    destruct (spec.endpoint op) as [e|] eqn:He;
      [|destruct op; discriminate].
    rewrite (exec_request_url w op e q req He Hq Hin).
    apply contains_app_r, contains_app_r.
    apply Encode_contains in Hlook. rewrite QueryEscape_d in Hlook.
    exact Hlook.
  - clear q Hq Hlook.
    destruct op; try discriminate Hpage; injection Hpage as <-.
    all: run_cases; intros env [= <-]; reflexivity.
Qed.

(** X2. Validation comes before the network.  An operation whose
    arguments fail a check (an unknown indicator, a CNPJ without 14
    digits, an empty name, an empty CPF) returns the error of that check
    and issues no request; no other check exists: with valid arguments
    a request goes out as soon as [net/http] accepts the URL. *)
Theorem validation_before_network (op : call) :
  match views.validationError op with
  | Some e => exec w op = mkRun [] (Err e)
  | None =>
      (exists req, issued (exec w op) = [req]) \/
      (exists e, exec w op = mkRun [] (Err ("creating request: " +:+ e)))
  end.
Proof.
  destruct op; cbn [views.validationError].
  all: run_cases; try contradiction.
  all: try match goal with
           | H : cnpj.formatCNPJ _ = Panic _ |- _ =>
               unfold cnpj.formatCNPJ in H; destruct (negb _) in H;
               discriminate H
           end.
  all: try match goal with
           | H : bcb.SeriesCodes !! "selic" = None |- _ =>
               vm_compute in H; discriminate H
           | H : bcb.SeriesCodes !! "ipca" = None |- _ =>
               vm_compute in H; discriminate H
           end.
  all: first [ reflexivity
             | left; eexists; reflexivity
             | right; eexists; reflexivity ].
Qed.

(** X3. No retries: an operation issues at most one request; it is a
    GET that asks for JSON. *)
Theorem at_most_one_get (op : call) :
  (length (issued (exec w op)) <= 1)%nat /\
  (forall req, req ∈ issued (exec w op) ->
     http.Method req = "GET" /\
     ("Accept", "application/json") ∈ http.Header req).
Proof.
  split; [apply exec_at_most_one|].
  intros req Hin. destruct (exec_request_shape w op req Hin) as [Hm Hh].
  split; [exact Hm|]. rewrite Hh. unfold views.headers.
  destruct (adapterOf op); apply list_elem_of_here.
Qed.

(** X4. The API key travels only to the Portal da Transparencia, and
    only when it is set: a request carries the header [chave-api-dados]
    exactly when it comes from a Transparencia operation and the key is
    not empty, and then with the key as its value; the same requests,
    and no others, carry the [User-Agent] of the server. *)
Theorem api_key_header (op : call) (req : http.Request) :
  req ∈ issued (exec w op) ->
  (forall k, ("chave-api-dados", k) ∈ http.Header req <->
             adapterOf op = Transparencia /\ world.apiKey w ≠ "" /\
             k = world.apiKey w) /\
  (("User-Agent", "MCP-Brasil/1.0 (Go)") ∈ http.Header req <->
   adapterOf op = Transparencia).
Proof.
  intros Hin. destruct (exec_request_shape w op req Hin) as [_ ->].
  unfold views.headers.
  destruct (adapterOf op); [case_decide|..]; cbn [app].
  all: split; [intros k|].
  all: rewrite ?elem_of_cons, ?elem_of_nil.
  all: split; intros ?; destruct_and?; destruct_or?; simplify_eq.
  all: try (repeat split; first [assumption | reflexivity]).
  all: try contradiction.
  all: repeat first [left; reflexivity | right].
Qed.

(** X5. Each failure keeps its own form.  A failure of the transport is
    reported as "executing request: ...", a failure to read the body as
    "reading response: ..." (whatever the status code was), and a body
    of a 200 answer that the decoder rejects as "parsing response: ...". *)
Theorem failure_taxonomy (op : call) (req : http.Request) :
  req ∈ issued (exec w op) ->
  (forall e, http.RoundTrip (world.net w) req = inl e ->
     result (exec w op) = Err ("executing request: " +:+ e)) /\
  (forall status e,
     http.RoundTrip (world.net w) req
       = inr {| http.StatusCode := status; http.Body := inl e |} ->
     result (exec w op) = Err ("reading response: " +:+ e)) /\
  (forall body e,
     http.RoundTrip (world.net w) req
       = inr {| http.StatusCode := 200; http.Body := inr body |} ->
     views.decodeError w op body = Some e ->
     result (exec w op) = Err ("parsing response: " +:+ e)).
Proof.
  intros Hin. pose proof (exec_failure_modes w op req Hin) as H.
  split; [|split].
  - intros e He. rewrite He in H. exact H.
  - intros status e He. rewrite He in H. exact H.
  - intros body e He Hd. rewrite He in H. cbn in H. rewrite Hd in H.
    apply H. reflexivity.
Qed.

(** X6. No envelope without an upstream answer: an operation that
    returns an envelope has issued exactly one request, and that request
    was answered with status 200 and a body its decoder accepts. *)
Theorem envelope_needs_200 (op : call) (env : envelope) :
  result (exec w op) = Ok env ->
  exists req body,
    issued (exec w op) = [req] /\
    http.RoundTrip (world.net w) req
      = inr {| http.StatusCode := 200; http.Body := inr body |} /\
    views.decodeError w op body = None.
Proof. apply exec_ok_inv. Qed.

(** X7. A 200 answer with a body the decoder accepts gives an envelope,
    in every operation but the population lookup, which alone can
    panic (and never returns an error at that point). *)
Theorem decodable_200_gives_envelope
    (op : call) (req : http.Request) (body : string) :
  req ∈ issued (exec w op) ->
  http.RoundTrip (world.net w) req
    = inr {| http.StatusCode := 200; http.Body := inr body |} ->
  views.decodeError w op body = None ->
  ((exists env, result (exec w op) = Ok env) \/
   (exists locationID msg,
      op = ibge_GetPopulation locationID /\
      result (exec w op) = Panic msg)) /\
  (forall op' msg, result (exec w op') = Panic msg ->
     exists locationID, op' = ibge_GetPopulation locationID).
Proof.
  intros Hin Hrt Hd. split; [|intros op' msg; apply exec_panic_inv].
  pose proof (exec_failure_modes w op req Hin) as H.
  rewrite Hrt in H. cbn in H. rewrite Hd in H. apply H. reflexivity.
Qed.
End operation_claims.

Section defaults_and_echoes.
Context (w : world.t).
Import adapters.

Lemma clamp_idempotent (lo hi x : Z) :
  lo <= hi -> spec.clamp lo hi (spec.clamp lo hi x) = spec.clamp lo hi x.
Proof.
  intros Hle. unfold spec.clamp.
  destruct (Z.ltb_spec x lo), (Z.ltb_spec hi x);
    repeat match goal with
           | |- context [?a <? ?b] => destruct (Z.ltb_spec a b)
           end; lia.
Qed.

Lemma orDefault_idempotent (x : Z) :
  spec.orDefault 1 500 100 (spec.orDefault 1 500 100 x)
  = spec.orDefault 1 500 100 x.
Proof.
  unfold spec.orDefault.
  destruct (Z.leb_spec 1 x), (Z.leb_spec x 500); cbn; try reflexivity.
  destruct (Z.leb_spec 1 x), (Z.leb_spec x 500); cbn; lia.
Qed.

Lemma orElse_idempotent (dflt s : string) :
  spec.orElse dflt (spec.orElse dflt s) = spec.orElse dflt s.
Proof. unfold spec.orElse. repeat case_decide; congruence. Qed.

Lemma lastN_idempotent (lastN : Z) :
  (if (if lastN <=? 0 then 30 else lastN) <=? 0 then 30
   else if lastN <=? 0 then 30 else lastN)
  = (if lastN <=? 0 then 30 else lastN).
Proof.
  destruct (Z.leb_spec lastN 0) as [H|H]; [reflexivity|].
  destruct (Z.leb_spec lastN 0); [lia|reflexivity].
Qed.

Lemma modality_idempotent (m : Z) :
  (if (if m =? 0 then 6 else m) =? 0 then 6 else if m =? 0 then 6 else m)
  = (if m =? 0 then 6 else m).
Proof.
  destruct (Z.eqb_spec m 0) as [H|H]; [reflexivity|].
  destruct (Z.eqb_spec m 0); [lia|reflexivity].
Qed.

Lemma strip_idempotent (s : string) :
  spec.stripNonDigits (spec.stripNonDigits s) = spec.stripNonDigits s.
Proof.
  rewrite <- !digitsOf_strip. apply digitsOf_fixed, digitsOf_digits.
Qed.

Lemma formatCNPJ_strip (s : string) :
  cnpj.formatCNPJ (spec.stripNonDigits s) = cnpj.formatCNPJ s.
Proof.
  unfold cnpj.formatCNPJ. rewrite !digitsOf_strip, strip_idempotent.
  reflexivity.
Qed.

(** X8. Leaving an argument out is the same as supplying its default.
    Running an operation is running it on its normalized arguments
    (every default filled in, every bound applied, a company identifier
    reduced to its digits): same request, same outcome.  Normalizing
    twice changes nothing, and [GetSELIC] and [GetIPCA] are
    [GetIndicator] on "selic" and "ipca". *)
Theorem defaults_are_indistinguishable (op : call) :
  exec w op = exec w (views.normalize w op) /\
  views.normalize w (views.normalize w op) = views.normalize w op.
Proof.
  split.
  - destruct op; cbn [views.normalize exec]; try reflexivity.
    + unfold bcb.GetIndicator. rewrite lastN_idempotent. reflexivity.
    + unfold bcb.GetSELIC, bcb.GetIndicator. rewrite lastN_idempotent.
      reflexivity.
    + unfold bcb.GetIPCA, bcb.GetIndicator. rewrite lastN_idempotent.
      reflexivity.
    + unfold bcb.GetExchangeRate. fold (spec.orElse "USD" currency).
      fold (spec.orElse (world.today w) date).
      fold (spec.orElse "USD" (spec.orElse "USD" currency)).
      fold (spec.orElse (world.today w) (spec.orElse (world.today w) date)).
      rewrite !orElse_idempotent. reflexivity.
    + unfold cnpj.GetCNPJ. rewrite formatCNPJ_strip. reflexivity.
    + unfold pncp.SearchContracts, pncp.SearchContracts_params.
      rewrite !pncp_effectivePageSize_clamp, !pncp_effectivePage_max.
      rewrite (clamp_idempotent 10 500) by lia.
      rewrite modality_idempotent, Z.max_assoc, Z.max_id. reflexivity.
    + unfold pncp.SearchPriceRegistrations,
        pncp.SearchPriceRegistrations_params.
      rewrite !pncp_effectivePageSize_clamp, !pncp_effectivePage_max.
      rewrite (clamp_idempotent 10 500) by lia.
      rewrite Z.max_assoc, Z.max_id. reflexivity.
    + unfold transparencia.SearchContracts,
        transparencia.SearchContracts_params.
      fold (spec.orElse "36000" orgaoCode).
      fold (spec.orElse "36000" (spec.orElse "36000" orgaoCode)).
      rewrite !transparencia_effectivePageSize_orDefault,
        !transparencia_effectivePage_max, orDefault_idempotent,
        orElse_idempotent, Z.max_assoc, Z.max_id. reflexivity.
    + unfold transparencia.SearchServidores,
        transparencia.SearchServidores_params.
      rewrite !transparencia_effectivePageSize_orDefault,
        !transparencia_effectivePage_max, orDefault_idempotent,
        Z.max_assoc, Z.max_id. reflexivity.
    + unfold transparencia.GetServidorRemuneracao,
        transparencia.GetServidorRemuneracao_params.
      fold (spec.orElse (world.lastMonth w) mesAno).
      fold (spec.orElse (world.lastMonth w)
              (spec.orElse (world.lastMonth w) mesAno)).
      rewrite orElse_idempotent. reflexivity.
    + unfold transparencia.SearchConvenios,
        transparencia.SearchConvenios_params.
      fold (spec.orElse "MG" uf).
      fold (spec.orElse "MG" (spec.orElse "MG" uf)).
      rewrite !transparencia_effectivePageSize_orDefault,
        !transparencia_effectivePage_max, orDefault_idempotent,
        orElse_idempotent, Z.max_assoc, Z.max_id. reflexivity.
    + unfold transparencia.SearchCEIS, transparencia.SearchCEIS_params.
      rewrite !transparencia_effectivePageSize_orDefault,
        !transparencia_effectivePage_max, orDefault_idempotent,
        Z.max_assoc, Z.max_id. reflexivity.
  - destruct op; cbn [views.normalize]; try reflexivity.
    all: rewrite ?lastN_idempotent, ?modality_idempotent,
           ?orElse_idempotent, ?orDefault_idempotent, ?strip_idempotent,
           ?(clamp_idempotent 10 500), ?Z.max_assoc, ?Z.max_id by lia.
    all: reflexivity.
Qed.

(** X9. The envelopes that echo an argument echo the effective one,
    not the raw one: the [Indicator] of an indicator, the [Currency] and
    [Date] of an exchange rate, the [StateID] of a list of
    municipalities, the [OrgaoCode] of a contracts search, the [CPF] and
    [MesAno] of a remuneration and the [UF] of an agreements search are
    those of the normalized call. *)
Theorem envelope_echoes_effective_arguments (op : call) (env : envelope) :
  result (exec w op) = Ok env ->
  views.echoes env = views.echoed (views.normalize w op).
Proof.
  revert env. destruct op; cbn [views.normalize views.echoed]; run_cases.
  all: intros env [= <-]; cbn [views.echoes]; unfold spec.orElse.
  all: repeat case_decide; try contradiction; subst; reflexivity.
Qed.

Lemma KnownOrgaos_named (code name : string) :
  transparencia.KnownOrgaos !! code = Some name -> name ≠ "".
Proof.
  intros H. unfold transparencia.KnownOrgaos in H.
  apply elem_of_list_to_map_2 in H.
  repeat (apply elem_of_cons in H as [[= _ ->]|H]; [discriminate|]).
  apply elem_of_nil in H. contradiction.
Qed.

(** X10. The contracts envelope names the organization it asked for:
    [OrgaoCode] is the effective code (36000 when none was given) and
    [OrgaoName] is its name in the table of known organizations, or
    "Orgao Desconhecido" for a code the table does not know; the name is
    never empty. *)
Theorem contracts_envelope_names_orgao
    (orgaoCode : string) (page pageSize : Z) (env : envelope) :
  result (exec w (transparencia_SearchContracts orgaoCode page pageSize))
  = Ok env ->
  exists r,
    env = Contracts r /\
    transparencia.ContractsResponse.OrgaoCode r
    = (if decide (orgaoCode = "") then "36000" else orgaoCode) /\
    transparencia.ContractsResponse.OrgaoName r
    = match transparencia.KnownOrgaos
            !! transparencia.ContractsResponse.OrgaoCode r with
      | Some name => name
      | None => "Orgao Desconhecido"
      end /\
    transparencia.ContractsResponse.OrgaoName r ≠ "".
Proof.
  revert env. run_cases; intros env [= <-]; eexists; split; try reflexivity.
  all: cbn [transparencia.ContractsResponse.OrgaoCode
            transparencia.ContractsResponse.OrgaoName].
  all: split; [reflexivity|].
  all: match goal with
       | |- context [transparencia.KnownOrgaos !! ?c] =>
           destruct (transparencia.KnownOrgaos !! c) as [name|] eqn:Hk
       end; cbn [default] in *.
  all: try (pose proof (KnownOrgaos_named _ _ Hk)).
  all: try contradiction; try (split; [reflexivity|]); try assumption.
  all: try discriminate.
Qed.
End defaults_and_echoes.

Lemma page_floor_witness :
  views.requestedPage (adapters.transparencia_SearchCEIS "" (-3) 50)
  = Some (-3) /\
  (forall env,
     result (adapters.exec fixtures.quiet
               (adapters.transparencia_SearchCEIS "" (-3) 50)) = Ok env ->
     views.page env = Some 1).
Proof.
  split; [reflexivity|].
  apply (proj2 (proj2 (page_floor fixtures.quiet
                         (adapters.transparencia_SearchCEIS "" (-3) 50)
                         (-3) eq_refl))).
Defined.

Lemma at_most_one_get_witness :
  http.Method
    {| http.Method := "GET";
       http.URL :=
         "https://servicodados.ibge.gov.br/api/v1/localidades/estados?orderBy=nome";
       http.Header := [("Accept", "application/json")] |} = "GET" /\
  ("Accept", "application/json") ∈ [("Accept", "application/json")].
Proof.
  apply (proj2 (at_most_one_get fixtures.quiet adapters.ibge_GetStates)
           {| http.Method := "GET";
              http.URL :=
                "https://servicodados.ibge.gov.br/api/v1/localidades/estados?orderBy=nome";
              http.Header := [("Accept", "application/json")] |}).
  vm_compute. apply list_elem_of_singleton. reflexivity.
Defined.

Lemma api_key_header_witness :
  {| http.Method := "GET";
     http.URL :=
       "https://api.portaldatransparencia.gov.br/api-de-dados/ceis?pagina=1&tamanhoPagina=50";
     http.Header := [("Accept", "application/json");
                     ("User-Agent", "MCP-Brasil/1.0 (Go)")] |}
  ∈ issued (adapters.exec fixtures.quiet
              (adapters.transparencia_SearchCEIS "" 1 50)) /\
  (forall k, ("chave-api-dados", k)
             ∉ [("Accept", "application/json");
                ("User-Agent", "MCP-Brasil/1.0 (Go)")]).
Proof.
  assert ({| http.Method := "GET";
             http.URL :=
               "https://api.portaldatransparencia.gov.br/api-de-dados/ceis?pagina=1&tamanhoPagina=50";
             http.Header := [("Accept", "application/json");
                             ("User-Agent", "MCP-Brasil/1.0 (Go)")] |}
          ∈ issued (adapters.exec fixtures.quiet
                      (adapters.transparencia_SearchCEIS "" 1 50))) as Hin.
  { vm_compute. apply list_elem_of_singleton. reflexivity. }
  split; [exact Hin|].
  intros k Hk.
  apply (proj1 (api_key_header fixtures.quiet _ _ Hin) k) in Hk.
  destruct Hk as (_ & Hkey & _). apply Hkey. reflexivity.
Defined.

Lemma failure_taxonomy_witness :
  result (adapters.exec fixtures.unreachable adapters.ibge_GetStates)
  = Err "executing request: connection refused".
Proof.
  apply (proj1 (failure_taxonomy fixtures.unreachable adapters.ibge_GetStates
                  {| http.Method := "GET";
                     http.URL :=
                       "https://servicodados.ibge.gov.br/api/v1/localidades/estados?orderBy=nome";
                     http.Header := [("Accept", "application/json")] |}
                  ltac:(vm_compute; apply list_elem_of_singleton;
                        reflexivity))
           "connection refused" eq_refl).
Defined.

Lemma envelope_needs_200_witness :
  exists req body,
    issued (adapters.exec fixtures.quiet adapters.ibge_GetStates) = [req] /\
    http.RoundTrip (world.net fixtures.quiet) req
      = inr {| http.StatusCode := 200; http.Body := inr body |} /\
    views.decodeError fixtures.quiet adapters.ibge_GetStates body = None.
Proof.
  apply (envelope_needs_200 fixtures.quiet adapters.ibge_GetStates
           (adapters.States
              {| ibge.StatesResponse.States := [];
                 ibge.StatesResponse.Total := 0;
                 ibge.StatesResponse.Source := "ibge_api" |})).
  reflexivity.
Defined.

Lemma decodable_200_gives_envelope_witness :
  (exists env,
     result (adapters.exec fixtures.quiet adapters.ibge_GetStates) = Ok env) \/
  (exists locationID msg,
     adapters.ibge_GetStates = adapters.ibge_GetPopulation locationID /\
     result (adapters.exec fixtures.quiet adapters.ibge_GetStates)
     = Panic msg).
Proof.
  apply (proj1 (decodable_200_gives_envelope fixtures.quiet
                  adapters.ibge_GetStates
                  {| http.Method := "GET";
                     http.URL :=
                       "https://servicodados.ibge.gov.br/api/v1/localidades/estados?orderBy=nome";
                     http.Header := [("Accept", "application/json")] |}
                  "[]"
                  ltac:(vm_compute; apply list_elem_of_singleton;
                        reflexivity)
                  eq_refl eq_refl)).
Defined.

Lemma envelope_echoes_effective_arguments_witness :
  views.echoes
    (adapters.ExchangeRates
       {| bcb.ExchangeRateResponse.Currency := "USD";
          bcb.ExchangeRateResponse.Date := "01-31-2025";
          bcb.ExchangeRateResponse.Rates := [];
          bcb.ExchangeRateResponse.Source := "bcb_api" |})
  = [ ("Currency", "USD"); ("Date", "01-31-2025") ].
Proof.
  apply (envelope_echoes_effective_arguments fixtures.quiet
           (adapters.bcb_GetExchangeRate "" "")).
  reflexivity.
Defined.

Lemma contracts_envelope_names_orgao_witness :
  exists r,
    adapters.Contracts
      {| transparencia.ContractsResponse.Contracts := [];
         transparencia.ContractsResponse.Total := 0;
         transparencia.ContractsResponse.Page := 1;
         transparencia.ContractsResponse.PageSize := 100;
         transparencia.ContractsResponse.OrgaoCode := "99999";
         transparencia.ContractsResponse.OrgaoName := "Orgao Desconhecido";
         transparencia.ContractsResponse.Source :=
           "portal_transparencia_api" |}
    = adapters.Contracts r /\
    transparencia.ContractsResponse.OrgaoCode r = "99999" /\
    transparencia.ContractsResponse.OrgaoName r
    = match transparencia.KnownOrgaos
            !! transparencia.ContractsResponse.OrgaoCode r with
      | Some name => name
      | None => "Orgao Desconhecido"
      end /\
    transparencia.ContractsResponse.OrgaoName r ≠ "".
Proof.
  apply (contracts_envelope_names_orgao fixtures.quiet "99999" 1 100).
  vm_compute. reflexivity.
Defined.

(* ===================================================================== *)
(** * Further properties of the tables and of the pure functions *)
(* ===================================================================== *)

(** X11. [ListOrgaos] lists the table of known organizations: one entry
    for each of its seven codes, made of the code under "codigo" and the
    name under "nome", and nothing else. *)
Theorem ListOrgaos_lists_the_table :
  length transparencia.ListOrgaos = 7%nat /\
  (forall m : gmap string string,
     m ∈ transparencia.ListOrgaos <->
     exists code name,
       transparencia.KnownOrgaos !! code = Some name /\
       m = <["nome" := name]> (<["codigo" := code]> ∅)) /\
  (forall m : gmap string string,
     m ∈ transparencia.ListOrgaos ->
     dom m = ({["codigo"; "nome"]} : gset string) /\
     exists code,
       m !! "codigo" = Some code /\
       m !! "nome" = transparencia.KnownOrgaos !! code).
Proof.
  assert (forall m : gmap string string,
            m ∈ transparencia.ListOrgaos <->
            exists code name,
              transparencia.KnownOrgaos !! code = Some name /\
              m = <["nome" := name]> (<["codigo" := code]> ∅)) as Hiff.
  { intros m. unfold transparencia.ListOrgaos.
    rewrite list_elem_of_In, in_map_iff. split.
    - intros ([code name] & <- & Hin). exists code, name.
      split; [|reflexivity].
      apply list_elem_of_In in Hin.
      apply (elem_of_map_to_list transparencia.KnownOrgaos code name)
        in Hin.
      exact Hin.
    - intros (code & name & Hk & ->). exists (code, name).
      split; [reflexivity|].
      apply (elem_of_map_to_list transparencia.KnownOrgaos code name)
        in Hk.
      apply list_elem_of_In in Hk. exact Hk. }
  split; [vm_compute; reflexivity|]. split; [exact Hiff|].
  intros m Hm. apply Hiff in Hm as (code & name & Hk & ->). split.
  - rewrite !dom_insert_L, dom_empty_L. set_solver.
  - exists code. rewrite Hk. split; simplify_map_eq; reflexivity.
Qed.

(** X12. The modality table is a one-to-one numbering: its eight names
    carry the codes 1 to 8, each once; [ListModalities] hands out that
    table; and the code 6 that [SearchContracts] uses for a missing
    modality is the one of "pregao_eletronico". *)
Theorem Modalities_numbering :
  pncp.ListModalities = pncp.Modalities /\
  (forall name code,
     pncp.Modalities !! name = Some code -> 1 <= code <= 8) /\
  (forall code, 1 <= code <= 8 ->
     exists name, pncp.Modalities !! name = Some code) /\
  (forall name name' code,
     pncp.Modalities !! name = Some code ->
     pncp.Modalities !! name' = Some code -> name = name') /\
  (forall name,
     pncp.Modalities !! name = Some 6 <-> name = "pregao_eletronico") /\
  (forall startDate endDate state page pageSize,
     pncp.SearchContracts_params startDate endDate 0 state page pageSize
     = pncp.SearchContracts_params startDate endDate 6 state page pageSize).
Proof.
  assert (forall name code,
            pncp.Modalities !! name = Some code <->
            (name, code)
            ∈ [ ("pregao_eletronico", 6); ("concorrencia_eletronica", 1);
                ("concorrencia", 2); ("concurso", 3);
                ("leilao_eletronico", 4); ("leilao", 5);
                ("dialogo_competitivo", 7); ("credenciamento", 8) ])
    as Hiff.
  { intros name code. unfold pncp.Modalities. symmetry.
    apply elem_of_list_to_map. compute_done. }
  split; [reflexivity|]. split; [|split; [|split; [|split]]].
  - intros name code H. apply Hiff in H.
    repeat (apply elem_of_cons in H as [[= -> ->]|H]; [lia|]).
    apply elem_of_nil in H. contradiction.
  - intros code Hc.
    assert (code = 1 \/ code = 2 \/ code = 3 \/ code = 4 \/ code = 5 \/
            code = 6 \/ code = 7 \/ code = 8) as Hcases by lia.
    destruct_or!; subst; eexists; apply Hiff;
      repeat first [apply list_elem_of_here | apply list_elem_of_further].
  - intros name name' code H H'. apply Hiff in H. apply Hiff in H'.
    repeat (apply elem_of_cons in H as [[= -> ->]|H]);
      try (apply elem_of_nil in H; contradiction).
    all: repeat (apply elem_of_cons in H' as [[= ->]|H']);
      try (apply elem_of_nil in H'; contradiction); try reflexivity.
  - intros name. rewrite Hiff. split.
    + intros H.
      repeat (apply elem_of_cons in H as [[= ->]|H]; try reflexivity).
      apply elem_of_nil in H. contradiction.
    + intros ->. apply list_elem_of_here.
  - reflexivity.
Qed.

Section cnpj_more.
Import cnpj.

(** X13. The formatted identifier is a canonical form of the digits.
    Inputs with the same digits have the same outcome; the digits can be
    read back from the formatted identifier; and two inputs that format
    to the same identifier have the same digits. *)
Theorem formatCNPJ_canonical (s s' : string) :
  (digitsOf s = digitsOf s' -> formatCNPJ s = formatCNPJ s') /\
  (forall formatted,
     formatCNPJ s = Ok formatted ->
     String.length (digitsOf s) = 14%nat /\
     digitsOf formatted = digitsOf s /\
     (formatCNPJ s' = Ok formatted -> digitsOf s' = digitsOf s)).
Proof.
  assert (forall x f, formatCNPJ x = Ok f ->
            String.length (digitsOf x) = 14%nat /\ digitsOf f = digitsOf x)
    as Hback.
  { intros x f Hf.
    destruct (Nat.eq_dec (String.length (digitsOf x)) 14%nat) as [Hlen|Hlen].
    - split; [exact Hlen|]. rewrite (formatCNPJ_ok x Hlen) in Hf.
      injection Hf as <-.
      apply (digitsOf_formatted _ (digitsOf_digits x) Hlen).
    - rewrite (formatCNPJ_err x Hlen) in Hf. discriminate Hf. }
  split.
  - intros Heq. unfold formatCNPJ. rewrite Heq. reflexivity.
  - intros formatted Hf. destruct (Hback s formatted Hf) as [Hlen Hd].
    split; [exact Hlen|]. split; [exact Hd|].
    intros Hf'. destruct (Hback s' formatted Hf') as [_ Hd'].
    congruence.
Qed.
End cnpj_more.

Lemma formatCNPJ_canonical_witness :
  cnpj.digitsOf "12345678000190" = cnpj.digitsOf "12.345.678/0001-90" /\
  cnpj.formatCNPJ "12345678000190" = cnpj.formatCNPJ "12.345.678/0001-90".
Proof.
  split; [reflexivity|].
  apply (proj1 (formatCNPJ_canonical "12345678000190" "12.345.678/0001-90")).
  reflexivity.
Defined.

(* ===================================================================== *)
(** * Further properties of the population extraction *)
(* ===================================================================== *)

Section population_more.
Variable Sprintf_v : json.value -> string.
Variable order : gomap.Order json.value.

(** X14. What the extraction yields on a payload with a series,
    whatever the order in which the runtime visits the years.  When
    every series entry is readable, the result is made of one part per
    entry, in the order of the entries; the part of an entry holds its
    figures, one per year and each carrying the name of the entry's
    "localidade", in some order; entries without an object "serie" add
    nothing.  When some entry is not readable (it is not an object, has
    no object "localidade", or has years but no string "nome"), the
    extraction panics, with a message that does not depend on the
    order. *)
Theorem extractPopulation_figures
    (result0 r0 : gmap string json.value)
    (rest : list (gmap string json.value))
    (more series : list json.value) :
  result0 !! "resultados" = Some (json.Array (json.Object r0 :: more)) ->
  r0 !! "series" = Some (json.Array series) ->
  (forall figures,
     Forall2 (fun s figs => views.figuresOf Sprintf_v s = Some figs)
       series figures ->
     exists parts,
       ibge.extractPopulation Sprintf_v order (result0 :: rest)
       = Ok (concat parts) /\
       Forall2 (≡ₚ) parts figures) /\
  (Exists (fun s => views.figuresOf Sprintf_v s = None) series ->
   exists msg,
     forall order',
       ibge.extractPopulation Sprintf_v order' (result0 :: rest)
       = Panic msg).
Proof.
  intros H0 H1.
  assert (ibge.extractPopulation Sprintf_v order (result0 :: rest)
          = ibge.rangeSeries Sprintf_v order series 0 []) as Hextract.
  { cbn. rewrite H0. cbn. rewrite H1. reflexivity. }
  split.
  - intros figures H. rewrite Hextract.
    apply (rangeSeries_ok Sprintf_v order series figures 0 [] H).
  - intros H.
    destruct (rangeSeries_panics Sprintf_v order series 0 [] H)
      as [msg Hmsg].
    exists msg. intros order'.
    apply (extractPopulation_panic_any_order Sprintf_v order order').
    rewrite Hextract. exact Hmsg.
Qed.

(** X15. The edges of the extraction.  It reads the first result and
    its first "resultados" entry only; no result at all, a first result
    without an array "resultados" or with an empty one, and a first
    "resultados" entry without an array "series" give the empty list;
    and it never returns an error: whatever the payload, it yields a
    list or panics. *)
Theorem extractPopulation_edges
    (result0 : gmap string json.value)
    (rest : list (gmap string json.value)) :
  ibge.extractPopulation Sprintf_v order (result0 :: rest)
  = ibge.extractPopulation Sprintf_v order [result0] /\
  (forall first more,
     result0 !! "resultados" = Some (json.Array (first :: more)) ->
     ibge.extractPopulation Sprintf_v order (result0 :: rest)
     = ibge.extractPopulation Sprintf_v order
         [ <["resultados" := json.Array [first]]> result0 ]) /\
  ibge.extractPopulation Sprintf_v order [] = Ok [] /\
  (ibge.asArray (result0 !! "resultados") = None ->
   ibge.extractPopulation Sprintf_v order (result0 :: rest) = Ok []) /\
  (result0 !! "resultados" = Some (json.Array []) ->
   ibge.extractPopulation Sprintf_v order (result0 :: rest) = Ok []) /\
  (forall r0 more,
     result0 !! "resultados" = Some (json.Array (json.Object r0 :: more)) ->
     ibge.asArray (r0 !! "series") = None ->
     ibge.extractPopulation Sprintf_v order (result0 :: rest) = Ok []) /\
  (forall payload e,
     ibge.extractPopulation Sprintf_v order payload <> Err e).
Proof.
  split; [reflexivity|]. split; [|split; [reflexivity|]].
  - intros first more H. cbn. rewrite H, lookup_insert_eq. reflexivity.
  - split; [|split; [|split]].
    + intros H. cbn. rewrite H. reflexivity.
    + intros H. cbn. rewrite H. reflexivity.
    + intros r0 more H0 H1. cbn. rewrite H0. cbn. rewrite H1. reflexivity.
    + intros payload e. apply extractPopulation_no_error.
Qed.
End population_more.

(** Two years, visited backwards: the figures of both, up to their
    order. *)
Lemma extractPopulation_figures_witness :
  exists parts,
    ibge.extractPopulation (world.Sprintf_v fixtures.quiet)
      fixtures.backwards fixtures.populationTwoYears
    = Ok (concat parts) /\
    Forall2 (≡ₚ) parts
      [ [ {| ibge.PopulationData.Location := "Brasil";
             ibge.PopulationData.Year := "2019";
             ibge.PopulationData.Population := "210147125" |};
          {| ibge.PopulationData.Location := "Brasil";
             ibge.PopulationData.Year := "2020";
             ibge.PopulationData.Population := "211755692" |} ] ].
Proof.
  unfold fixtures.populationTwoYears.
  match goal with
  | |- exists parts,
         ibge.extractPopulation _ _ [?result0] = _ /\ _ =>
  apply (proj1 (extractPopulation_figures
                  (world.Sprintf_v fixtures.quiet) fixtures.backwards
                  result0
                  {[ "series" :=
                       json.Array
                         [ json.Object
                             (<[ "localidade" :=
                                   json.Object
                                     {[ "nome" := json.Str "Brasil" ]} ]>
                                {[ "serie" :=
                                     json.Object
                                       (<[ "2019" :=
                                             json.Str "210147125" ]>
                                          {[ "2020" :=
                                               json.Str "211755692" ]})
                                ]}) ] ]}
                  [] [] _ eq_refl eq_refl))
  end.
  constructor; [vm_compute; reflexivity|constructor].
Defined.

Lemma extractPopulation_edges_witness :
  ibge.extractPopulation (world.Sprintf_v fixtures.quiet) fixtures.backwards
    [ {[ "resultados" := json.Str "none" ]} ] = Ok [].
Proof.
  apply (proj1 (proj2 (proj2 (proj2
           (extractPopulation_edges (world.Sprintf_v fixtures.quiet)
              fixtures.backwards
              {[ "resultados" := json.Str "none" ]} []))))).
  reflexivity.
Defined.
(* ===================================================================== *)
(** * Properties of the tool handlers (package main) *)
(* ===================================================================== *)

Ltac handler_cases :=
  cbv beta delta
      [server.handleSearchContracts server.handleSearchServidores
       server.handleGetRemuneracao server.handleSearchConvenios
       server.handleSearchCEIS server.handleListOrgaos
       server.handleIBGEStates server.handleIBGEMunicipalities
       server.handleIBGEPopulation server.handleLookupCNPJ
       server.handleBCBSelic server.handleBCBIPCA
       server.handleBCBExchangeRate server.handleBCBIndicator
       server.handlePNCPContracts server.handlePNCPModalities
       server.respond adapters.transparenciaClient
       transparencia.NewClient];
  repeat match goal with
         | |- context [server.RequireString ?a ?k] =>
             destruct (server.RequireString a k) eqn:?
         end;
  cbn [default];
  run_cases.

Section handler_facts.
Context (w : world.t).
Variable intOfFloat : float -> Z.
Variable MarshalIndent : forall T : Type, T -> error + string.

Lemma issued_mapRun {A B} (f : A -> B) (m : run A) :
  issued (adapters.mapRun f m) = issued m.
Proof. destruct m as [t [| |]]; reflexivity. Qed.

Lemma issued_respond {T} (m : run T) :
  issued (server.respond MarshalIndent m) = issued m.
Proof. destruct m as [t [| |]]; reflexivity. Qed.

(** X16. The handlers contain the failures of the clients.  Whatever
    the arguments, a registered tool never returns a Go error (a failure
    becomes an error result), it issues at most one request, and the
    only tool that can panic is "ibge_population". *)
Theorem tools_contain_failures
    (name : string)
    (handler : server.Arguments -> run server.CallToolResult)
    (args : server.Arguments) :
  (name, handler) ∈ server.tools w intOfFloat MarshalIndent ->
  (forall e, result (handler args) <> Err e) /\
  (length (issued (handler args)) <= 1)%nat /\
  (forall msg, result (handler args) = Panic msg ->
     name = "ibge_population").
Proof.
  intros Hin. unfold server.tools in Hin.
  repeat (apply elem_of_cons in Hin as [[= -> ->]|Hin]);
    [..|apply elem_of_nil in Hin; contradiction].
  all: remember (_ args) as r eqn:Hr in |- *; revert Hr.
  all: handler_cases; intros ->; cbn [issued result length ret].
  all: split; [discriminate|]; split; [lia|].
  all: intros ? Hmsg; try discriminate Hmsg; try reflexivity.
  all: match goal with
       | H : cnpj.formatCNPJ _ = Panic _ |- _ =>
           unfold cnpj.formatCNPJ in H; destruct (negb _) in H;
           discriminate H
       end.
Qed.

(** X17. Required arguments.  "lookup_cnpj" and "bcb_indicator" reject
    a missing (or non-string) required argument themselves;
    "search_servidores" and "get_remuneracao" pass an empty string on and
    report the validation error of the client; "pncp_contracts" passes
    an empty start date on to the client, which sends it blank.  None of
    the first four issues a request. *)
Theorem required_arguments (args : server.Arguments) :
  (server.RequireString args "cnpj" = None ->
   server.handleLookupCNPJ w MarshalIndent args
   = mkRun [] (Ok (server.NewToolResultError
                     "Parameter 'cnpj' is required"))) /\
  (server.RequireString args "indicator" = None ->
   server.handleBCBIndicator w intOfFloat MarshalIndent args
   = mkRun [] (Ok (server.NewToolResultError
                     "Parameter 'indicator' is required"))) /\
  (server.RequireString args "nome" = None ->
   server.handleSearchServidores w intOfFloat MarshalIndent args
   = mkRun [] (Ok (server.NewToolResultError "Error: nome is required"))) /\
  (server.RequireString args "cpf" = None ->
   server.handleGetRemuneracao w MarshalIndent args
   = mkRun [] (Ok (server.NewToolResultError "Error: cpf is required"))) /\
  (server.RequireString args "start_date" = None ->
   forall req,
     req ∈ issued (server.handlePNCPContracts w intOfFloat MarshalIndent
                     args) ->
     exists q,
       http.URL req
       = "https://pncp.gov.br/api/consulta/v1/contratacoes/publicacao?"
         +:+ url.Encode q /\
       q !! "dataInicial" = Some [""]).
Proof.
  repeat split.
  - intros H. unfold server.handleLookupCNPJ. rewrite H. reflexivity.
  - intros H. unfold server.handleBCBIndicator. rewrite H. reflexivity.
  - intros H. unfold server.handleSearchServidores. rewrite H. reflexivity.
  - intros H. unfold server.handleGetRemuneracao. rewrite H. reflexivity.
  - intros H req Hin. unfold server.handlePNCPContracts in Hin.
    rewrite H, issued_respond in Hin. cbn [default] in Hin.
    rewrite <- (issued_mapRun adapters.PncpContracts) in Hin.
    eexists. split.
    + apply (exec_request_url w
               (adapters.pncp_SearchContracts "" _ _ _ _ 50)
               _ _ req eq_refl eq_refl Hin).
    + unfold_params. case_decide; simplify_map_eq; reflexivity.
Qed.

(** X18. The PNCP tool fixes the page size: whatever the arguments,
    "pncp_contracts" asks for pages of 50; without a number "modality"
    it asks for modality 6, and without a number "page" for page 1. *)
Theorem pncp_tool_page_size (args : server.Arguments) (req : http.Request) :
  req ∈ issued (server.handlePNCPContracts w intOfFloat MarshalIndent args) ->
  exists q,
    http.URL req
    = "https://pncp.gov.br/api/consulta/v1/contratacoes/publicacao?"
      +:+ url.Encode q /\
    q !! "tamanhoPagina" = Some ["50"] /\
    ((forall v, args !! "modality" <> Some (json.Number v)) ->
     q !! "codigoModalidadeContratacao" = Some ["6"]) /\
    ((forall v, args !! "page" <> Some (json.Number v)) ->
     q !! "pagina" = Some ["1"]).
Proof.
  intros Hin. unfold server.handlePNCPContracts in Hin.
  rewrite issued_respond in Hin.
  rewrite <- (issued_mapRun adapters.PncpContracts) in Hin.
  eexists. split; [|split; [|split]].
  - apply (exec_request_url w
             (adapters.pncp_SearchContracts _ _ _ _ _ 50)
             _ _ req eq_refl eq_refl Hin).
  - unfold_params. case_decide; simplify_map_eq; reflexivity.
  - intros Hm.
    assert (server.getIntArg intOfFloat args "modality" 6 = 6) as ->.
    { unfold server.getIntArg.
      destruct (args !! "modality") as [[]|] eqn:E; try reflexivity.
      exfalso. eapply Hm. reflexivity. }
    unfold_params. case_decide; simplify_map_eq; reflexivity.
  - intros Hp.
    assert (server.getIntArg intOfFloat args "page" 1 = 1) as ->.
    { unfold server.getIntArg.
      destruct (args !! "page") as [[]|] eqn:E; try reflexivity.
      exfalso. eapply Hp. reflexivity. }
    unfold_params. case_decide; simplify_map_eq; reflexivity.
Qed.

(** X19. How the defaults of tool and client compose in "bcb_ipca".
    The tool asks for series 433: for the last 12 values without a
    number "last_n", for the last n values when "last_n" is a positive
    n, and for the last 30 values (the default of the client, not the 12
    of the tool) when "last_n" is zero or negative. *)
Theorem bcb_ipca_last_n (args : server.Arguments) (req : http.Request) :
  req ∈ issued (server.handleBCBIPCA w intOfFloat MarshalIndent args) ->
  ((forall v, args !! "last_n" <> Some (json.Number v)) ->
   http.URL req
   = "https://api.bcb.gov.br/dados/serie/bcdata.sgs.433/dados/ultimos/12?formato=json") /\
  (forall v, args !! "last_n" = Some (json.Number v) ->
     0 < intOfFloat v ->
     http.URL req
     = "https://api.bcb.gov.br/dados/serie/bcdata.sgs.433/dados/ultimos/"
       +:+ fmt.d (intOfFloat v) +:+ "?formato=json") /\
  (forall v, args !! "last_n" = Some (json.Number v) ->
     intOfFloat v <= 0 ->
     http.URL req
     = "https://api.bcb.gov.br/dados/serie/bcdata.sgs.433/dados/ultimos/30?formato=json").
Proof.
  intros Hin. unfold server.handleBCBIPCA in Hin.
  rewrite issued_respond in Hin.
  assert (http.URL req
          = bcb.SGSURL +:+ "." +:+ fmt.d 433 +:+ "/dados/ultimos/"
            +:+ fmt.d (if server.getIntArg intOfFloat args "last_n" 12 <=? 0
                       then 30
                       else server.getIntArg intOfFloat args "last_n" 12)
            +:+ "?formato=json") as ->.
  { revert Hin. unfold bcb.GetIPCA, bcb.GetIndicator.
    change (bcb.SeriesCodes !! "ipca") with (Some 433).
    generalize (server.getIntArg intOfFloat args "last_n" 12). intros n.
    run_cases; intros Hin.
    all: try (apply elem_of_nil in Hin; contradiction).
    all: apply list_elem_of_singleton in Hin; subst req; reflexivity. }
  unfold server.getIntArg. split; [|split].
  - intros Hn. destruct (args !! "last_n") as [[]|] eqn:E; try reflexivity.
    exfalso. eapply Hn. reflexivity.
  - intros v -> Hv. destruct (Z.leb_spec (intOfFloat v) 0); [lia|].
    reflexivity.
  - intros v -> Hv. destruct (Z.leb_spec (intOfFloat v) 0); [|lia].
    reflexivity.
Qed.
End handler_facts.

Lemma tools_contain_failures_witness :
  (forall e,
     result (server.handleLookupCNPJ fixtures.quiet fixtures.marshal
               {[ "cnpj" := json.Str "1234" ]}) <> Err e) /\
  result (server.handleLookupCNPJ fixtures.quiet fixtures.marshal
            {[ "cnpj" := json.Str "1234" ]})
  = Ok (server.NewToolResultError
          "Error: invalid CNPJ: must have 14 digits, got 4").
Proof.
  split; [|vm_compute; reflexivity].
  apply (tools_contain_failures fixtures.quiet fixtures.intOfFloat
           fixtures.marshal "lookup_cnpj"
           (server.handleLookupCNPJ fixtures.quiet fixtures.marshal)
           {[ "cnpj" := json.Str "1234" ]}).
  unfold server.tools.
  do 9 apply list_elem_of_further. apply list_elem_of_here.
Defined.

Lemma required_arguments_witness :
  server.RequireString ∅ "cnpj" = None /\
  server.handleLookupCNPJ fixtures.quiet fixtures.marshal ∅
  = mkRun [] (Ok (server.NewToolResultError "Parameter 'cnpj' is required")).
Proof.
  split; [reflexivity|].
  apply (proj1 (required_arguments fixtures.quiet fixtures.intOfFloat
                  fixtures.marshal ∅)).
  reflexivity.
Defined.

Lemma pncp_tool_page_size_witness :
  exists q,
    "https://pncp.gov.br/api/consulta/v1/contratacoes/publicacao?codigoModalidadeContratacao=6&dataFinal=&dataInicial=&pagina=1&tamanhoPagina=50"
    = "https://pncp.gov.br/api/consulta/v1/contratacoes/publicacao?"
      +:+ url.Encode q /\
    q !! "tamanhoPagina" = Some ["50"].
Proof.
  destruct (pncp_tool_page_size fixtures.quiet fixtures.intOfFloat
              fixtures.marshal ∅
              {| http.Method := "GET";
                 http.URL :=
                   "https://pncp.gov.br/api/consulta/v1/contratacoes/publicacao?codigoModalidadeContratacao=6&dataFinal=&dataInicial=&pagina=1&tamanhoPagina=50";
                 http.Header := [("Accept", "application/json")] |})
    as (q & Hurl & Hps & _).
  - vm_compute. apply list_elem_of_singleton. reflexivity.
  - exists q. split; assumption.
Defined.

Lemma bcb_ipca_last_n_witness :
  http.URL
    {| http.Method := "GET";
       http.URL :=
         "https://api.bcb.gov.br/dados/serie/bcdata.sgs.433/dados/ultimos/12?formato=json";
       http.Header := [("Accept", "application/json")] |}
  = "https://api.bcb.gov.br/dados/serie/bcdata.sgs.433/dados/ultimos/12?formato=json".
Proof.
  apply (bcb_ipca_last_n fixtures.quiet fixtures.intOfFloat fixtures.marshal
           ∅ _).
  - vm_compute. apply list_elem_of_singleton. reflexivity.
  - intros v. rewrite lookup_empty. discriminate.
Defined.

